(** * Dungeon Dice Tactician: the turn-resolution engine

    A shallow embedding of the combat engine of the game (Dice.js, Player.js,
    Enemy.js, Merchant.js, Item.js and GameManager.js) and the properties of
    its specification that were checked against it.

    Conventions of the embedding.
    - Every JavaScript number that the engine keeps integral (hit points,
      damage, gold, counters, round numbers) is a [Z].  The engine's values
      stay far below 2^53, where a double holds every integer exactly.
    - Wherever the source multiplies or divides by a fraction, the operation
      is carried out on IEEE-754 binary64 values ([JS.double], the
      specification floats of the standard library at precision 53), in the
      order the source writes it, and [JS.floor] brings the result back.
    - A method that mutates [this] takes the object and returns the new one
      next to its result.
    - Every call of [Math.random()] is an argument of the function that makes
      it: the double that the call returned.  An index
      [Math.floor(Math.random() * n)] that falls outside the table it is used
      on, which no draw from [0,1) produces, makes the source read a property
      of [undefined]; the functions that can do so return an [option], and
      [None] stands for that exception.
    - Pictographs at the head of the narration strings are left out. *)

From Stdlib Require Import ZArith String List Sorted SpecFloat Lia.
From stdpp Require Import gmap strings list.

Local Open Scope string_scope.
Local Open Scope list_scope.
Local Open Scope Z_scope.

(** ** JavaScript numbers *)

Module JS.

Definition double : Type := spec_float.

Definition prec : Z := 53.
Definition emax : Z := 1024.

(** The double nearest to an integer (exact below 2^53). *)
Definition of_Z (z : Z) : double := binary_normalize prec emax z 0 false.

Definition mul : double -> double -> double := SFmul prec emax.
Definition add : double -> double -> double := SFadd prec emax.
Definition sub : double -> double -> double := SFsub prec emax.
Definition div : double -> double -> double := SFdiv prec emax.
Definition ltb : double -> double -> bool := SFltb.

(** The decimal literal [n/d], e.g. [dec 15 100] for [0.15]: the correctly
    rounded quotient is the double that the literal denotes. *)
Definition dec (n d : Z) : double := div (of_Z n) (of_Z d).

(** [Math.floor] of a finite double.  On NaN and the infinities, which the
    engine's operands never produce, the result is 0. *)
Definition floor (x : double) : Z :=
  match x with
  | S754_finite s m e =>
      let v := if s then Z.neg m else Z.pos m in
      match e with
      | Z0 => v
      | Zpos _ => Z.shiftl v e
      | Zneg p => Z.shiftr v (Z.pos p)
      end
  | _ => 0
  end.

(** [Math.floor(a * c)] for an integer [a] and a fractional or literal [c] *)
Definition times (a : Z) (c : double) : Z := floor (mul (of_Z a) c).

(** [Math.floor(u * n)], the index that a draw [u] picks among [n] *)
Definition randomIndex (u : double) (n : Z) : Z := floor (mul u (of_Z n)).

(** [l[i]], which is [undefined] outside the array *)
Definition at_ {A} (l : list A) (i : Z) : option A :=
  if i <? 0 then None else l !! Z.to_nat i.

(** [l.findIndex(f)], with [None] for -1 *)
Fixpoint findIndex {A} (f : A -> bool) (l : list A) : option nat :=
  match l with
  | [] => None
  | x :: l' => if f x then Some O else S <$> findIndex f l'
  end.

(** Narration: a template string, its text and the numbers spliced in. *)
Inductive frag := Txt (s : string) | Num (z : Z).
Definition text : Type := list frag.

(** Truthiness of an optional integer field: present and not 0. *)
Definition truthy (o : option Z) : bool :=
  match o with
  | Some z => negb (z =? 0)
  | None => false
  end.

(** Truthiness of an optional fractional field: present, not 0, not NaN. *)
Definition truthy_frac (o : option double) : bool :=
  match o with
  | Some (S754_zero _) | Some S754_nan | None => false
  | Some _ => true
  end.

(** The names that an object literal inherits from [Object.prototype]: a
    lookup [table[name]] under one of them finds a value that the literal
    does not list. *)
Definition inherited : list string :=
  ["constructor"; "toString"; "toLocaleString"; "valueOf"; "hasOwnProperty";
   "isPrototypeOf"; "propertyIsEnumerable"; "__proto__"; "__defineGetter__";
   "__defineSetter__"; "__lookupGetter__"; "__lookupSetter__"].

(** [const f = table[name]; if (f) return f(x)] for a name of [inherited]
    and an object [x], in strict code: the value found is truthy and is
    called without a receiver.  Under "constructor" it is [Object], and
    [Object(x)] hands back [x]; under "toString" it is
    [Object.prototype.toString], which hands back the string
    "[object Undefined]" for the missing receiver.  Under "__proto__" it is
    [Object.prototype], which is not callable, and the other methods convert
    the missing receiver to an object: these calls throw a TypeError. *)
Definition inheritedCallThrows (name : string) : bool :=
  existsb (String.eqb name) inherited
  && negb (String.eqb name "constructor" || String.eqb name "toString").

End JS.

(** ** Dice.js *)

Module Dice.

Inductive FaceType := attack | defense | crit | magic | special.

Definition FaceType_eqb (a b : FaceType) : bool :=
  match a, b with
  | attack, attack | defense, defense | crit, crit
  | magic, magic | special, special => true
  | _, _ => false
  end.

Record DiceFace := mkFace {
  type : FaceType;
  value : Z;
  symbol : option string
}.

Record t := mkDice {
  id : string;
  faces : list DiceFace;
  currentFace : option DiceFace;
  isRolled : bool
}.

(** [roll] returns the face as well; the engine drops that result. *)
Definition roll (d : t) (u : JS.double) : t :=
  let randomIndex := JS.randomIndex u (Z.of_nat (length (faces d))) in
  {| id := id d; faces := faces d; currentFace := JS.at_ (faces d) randomIndex;
     isRolled := true |}.

Definition getFaceValue (d : t) : Z :=
  match currentFace d with Some f => value f | None => 0 end.

Definition getFaceType (d : t) : option FaceType :=
  match currentFace d with Some f => Some (type f) | None => None end.

Definition getFaceSymbol (d : t) : option string :=
  match currentFace d with Some f => symbol f | None => None end.

Definition reset (d : t) : t :=
  {| id := id d; faces := faces d; currentFace := None; isRolled := false |}.

(** [d.getFaceType() === ty] *)
Definition faceTypeIs (ty : FaceType) (d : t) : bool :=
  match getFaceType d with Some ty' => FaceType_eqb ty' ty | None => false end.

(** [d.getFaceSymbol() === s] *)
Definition symbolIs (s : string) (d : t) : bool :=
  match getFaceSymbol d with Some s' => String.eqb s' s | None => false end.

(** [dice.filter(d => d.getFaceSymbol() === s).length] *)
Definition countSymbol (s : string) (dice : list t) : Z :=
  Z.of_nat (length (List.filter (symbolIs s) dice)).

(** [new Dice(faces)]; [i] is the identifier that [generateId] builds from
    the clock and a draw. *)
Definition new (i : string) (fs : list DiceFace) : t :=
  {| id := i; faces := fs; currentFace := None; isRolled := false |}.

(** [clone]: a new die over a copy of the faces, with the face shown when
    the die was rolled. *)
Definition clone (i : string) (d : t) : t :=
  if isRolled d
  then {| id := i; faces := faces d; currentFace := currentFace d; isRolled := true |}
  else new i (faces d).

End Dice.

(** ** Dice.js: DiceSet and DiceFactory *)

Module DiceSet.

Record t := mk {
  className : string;
  dice : list Dice.t
}.

Definition setDice (l : list Dice.t) (s : t) : t :=
  {| className := className s; dice := l |}.

(** [rollAll]: the die at position [i] takes the draw [rand i]. *)
Definition rollAll (s : t) (rand : nat -> JS.double) : t :=
  setDice (imap (fun i d => Dice.roll d (rand i)) (dice s)) s.

Definition resetAll (s : t) : t := setDice (Dice.reset <$> dice s) s.

Definition getDice (s : t) : list Dice.t := dice s.

Definition addDie (s : t) (die : Dice.t) : t := setDice (dice s ++ [die]) s.

Definition removeDie (s : t) (index : Z) : t :=
  if (0 <=? index) && (index <? Z.of_nat (length (dice s)))
  then setDice (delete (Z.to_nat index) (dice s)) s
  else s.

Definition replaceFace (s : t) (dieIndex faceIndex : Z) (newFace : Dice.DiceFace) : t :=
  if (0 <=? dieIndex) && (dieIndex <? Z.of_nat (length (dice s))) then
    match dice s !! Z.to_nat dieIndex with
    | Some die =>
        if (0 <=? faceIndex) && (faceIndex <? Z.of_nat (length (Dice.faces die))) then
          let die := {| Dice.id := Dice.id die;
                        Dice.faces := <[Z.to_nat faceIndex := newFace]> (Dice.faces die);
                        Dice.currentFace := Dice.currentFace die;
                        Dice.isRolled := Dice.isRolled die |} in
          setDice (<[Z.to_nat dieIndex := die]> (dice s)) s
        else s
    | None => s
    end
  else s.

(** [clone]: every die cloned, the clone at position [i] under the
    identifier [ids i]. *)
Definition clone (ids : nat -> string) (s : t) : t :=
  setDice (imap (fun i d => Dice.clone (ids i) d) (dice s)) s.

End DiceSet.

Module DiceFactory.

(** The faces as the catalogue builds them: [new DiceFace('attack', v)],
    [new DiceFace('crit')], [new DiceFace('special', 0, s)].  A Crit or a
    Magic face is built without a value; here it holds 0 (the engine reads
    the value of Attack and Defense faces only). *)
Definition attack (v : Z) : Dice.DiceFace := Dice.mkFace Dice.attack v None.
Definition defense (v : Z) : Dice.DiceFace := Dice.mkFace Dice.defense v None.
Definition crit : Dice.DiceFace := Dice.mkFace Dice.crit 0 None.
Definition magic : Dice.DiceFace := Dice.mkFace Dice.magic 0 None.
Definition symbol (s : string) : Dice.DiceFace := Dice.mkFace Dice.special 0 (Some s).

(** The creators; [ids k] is the identifier of the die that a creator
    builds in position [k]. *)
Definition createBladeDancerDice (ids : nat -> string) : DiceSet.t :=
  DiceSet.mk "Blade Dancer"
    [ Dice.new (ids 0%nat) [attack 8; attack 6; attack 10; crit; defense 3; attack 7];
      Dice.new (ids 1%nat) [attack 6; crit; attack 5; crit; attack 9; defense 4];
      Dice.new (ids 2%nat) [attack 7; defense 5; attack 8; crit; defense 6; attack 6] ].

Definition createGeomancerDice (ids : nat -> string) : DiceSet.t :=
  DiceSet.mk "Geomancer"
    [ Dice.new (ids 0%nat) [symbol "earth"; attack 5; defense 7; symbol "earth"; defense 8; attack 6];
      Dice.new (ids 1%nat) [symbol "stone"; defense 9; attack 5; symbol "stone"; defense 7; attack 6];
      Dice.new (ids 2%nat) [symbol "crystal"; attack 6; defense 6; symbol "crystal"; magic; attack 7] ].

Definition createShadowPriestDice (ids : nat -> string) : DiceSet.t :=
  DiceSet.mk "Shadow Priest"
    [ Dice.new (ids 0%nat) [symbol "darkness"; magic; attack 5; symbol "darkness"; magic; defense 5];
      Dice.new (ids 1%nat) [symbol "void"; attack 6; symbol "void"; magic; defense 6; attack 7];
      Dice.new (ids 2%nat) [symbol "shadow"; magic; attack 6; defense 7; symbol "shadow"; magic] ].

Definition createPyromanticDice (ids : nat -> string) : DiceSet.t :=
  DiceSet.mk "Pyromantic"
    [ Dice.new (ids 0%nat) [symbol "flame"; attack 9; attack 8; symbol "flame"; magic; attack 10];
      Dice.new (ids 1%nat) [attack 7; symbol "flame"; attack 11; crit; attack 8; defense 3];
      Dice.new (ids 2%nat) [symbol "flame"; attack 6; defense 4; magic; attack 9; symbol "flame"] ].

Definition createFrostWeaverDice (ids : nat -> string) : DiceSet.t :=
  DiceSet.mk "Frost Weaver"
    [ Dice.new (ids 0%nat) [symbol "frost"; defense 8; attack 5; symbol "frost"; magic; defense 7];
      Dice.new (ids 1%nat) [attack 6; symbol "frost"; defense 9; magic; attack 7; symbol "frost"];
      Dice.new (ids 2%nat) [symbol "frost"; attack 6; defense 8; attack 7; magic; defense 6] ].

Definition createStormCallerDice (ids : nat -> string) : DiceSet.t :=
  DiceSet.mk "Storm Caller"
    [ Dice.new (ids 0%nat) [symbol "lightning"; attack 8; crit; symbol "lightning"; attack 10; magic];
      Dice.new (ids 1%nat) [symbol "wind"; attack 7; defense 5; symbol "lightning"; crit; attack 9];
      Dice.new (ids 2%nat) [attack 6; symbol "wind"; magic; attack 8; symbol "lightning"; defense 6] ].

Definition createNatureShamanDice (ids : nat -> string) : DiceSet.t :=
  DiceSet.mk "Nature Shaman"
    [ Dice.new (ids 0%nat) [symbol "nature"; defense 8; attack 6; symbol "nature"; defense 9; magic];
      Dice.new (ids 1%nat) [attack 5; symbol "nature"; defense 10; magic; defense 7; attack 6];
      Dice.new (ids 2%nat) [symbol "nature"; attack 7; defense 7; attack 6; symbol "nature"; magic] ].

Definition createBloodKnightDice (ids : nat -> string) : DiceSet.t :=
  DiceSet.mk "Blood Knight"
    [ Dice.new (ids 0%nat) [symbol "blood"; attack 9; attack 7; symbol "blood"; crit; attack 8];
      Dice.new (ids 1%nat) [attack 10; symbol "blood"; attack 6; crit; defense 4; attack 11];
      Dice.new (ids 2%nat) [symbol "blood"; attack 8; magic; attack 7; symbol "blood"; defense 5] ].

Definition createHolyPaladinDice (ids : nat -> string) : DiceSet.t :=
  DiceSet.mk "Holy Paladin"
    [ Dice.new (ids 0%nat) [symbol "holy"; defense 9; attack 6; symbol "holy"; defense 8; magic];
      Dice.new (ids 1%nat) [attack 7; symbol "holy"; defense 7; attack 8; magic; defense 6];
      Dice.new (ids 2%nat) [symbol "holy"; attack 7; defense 8; magic; attack 6; defense 7] ].

Definition createChaosMageDice (ids : nat -> string) : DiceSet.t :=
  DiceSet.mk "Chaos Mage"
    [ Dice.new (ids 0%nat) [symbol "chaos"; attack 12; defense 2; symbol "chaos"; attack 3; magic];
      Dice.new (ids 1%nat) [attack 10; symbol "chaos"; defense 10; crit; attack 4; symbol "chaos"];
      Dice.new (ids 2%nat) [symbol "chaos"; magic; attack 8; defense 6; crit; magic] ].

Definition createTimeWeaverDice (ids : nat -> string) : DiceSet.t :=
  DiceSet.mk "Time Weaver"
    [ Dice.new (ids 0%nat) [symbol "time"; attack 6; defense 6; symbol "time"; magic; attack 7];
      Dice.new (ids 1%nat) [defense 7; symbol "time"; attack 8; magic; defense 8; symbol "time"];
      Dice.new (ids 2%nat) [symbol "time"; attack 7; defense 7; crit; magic; attack 6] ].

Definition createSpiritSummonerDice (ids : nat -> string) : DiceSet.t :=
  DiceSet.mk "Spirit Summoner"
    [ Dice.new (ids 0%nat) [symbol "spirit"; magic; attack 6; symbol "spirit"; defense 7; magic];
      Dice.new (ids 1%nat) [attack 5; symbol "spirit"; magic; defense 8; attack 7; symbol "spirit"];
      Dice.new (ids 2%nat) [symbol "spirit"; attack 6; defense 6; magic; attack 7; magic] ].

(** The table [creators] of [createDiceForClass], in its order. *)
Definition creators : list (string * ((nat -> string) -> DiceSet.t)) :=
  [ ("Blade Dancer", createBladeDancerDice); ("Geomancer", createGeomancerDice);
    ("Shadow Priest", createShadowPriestDice); ("Pyromantic", createPyromanticDice);
    ("Frost Weaver", createFrostWeaverDice); ("Storm Caller", createStormCallerDice);
    ("Nature Shaman", createNatureShamanDice); ("Blood Knight", createBloodKnightDice);
    ("Holy Paladin", createHolyPaladinDice); ("Chaos Mage", createChaosMageDice);
    ("Time Weaver", createTimeWeaverDice); ("Spirit Summoner", createSpiritSummonerDice) ].

(** [createDiceForClass(className)]: the creator listed under the name, the
    Blade Dancer's for a name that [creators[className]] does not find.
    Under a name inherited from [Object.prototype] the lookup finds a value
    that is no creator, and what the call hands back is no dice set: [None]. *)
Definition createDiceForClass (ids : nat -> string) (className : string)
    : option DiceSet.t :=
  match List.find (fun c => String.eqb (fst c) className) creators with
  | Some c => Some (snd c ids)
  | None =>
      if existsb (String.eqb className) JS.inherited then None
      else Some (createBladeDancerDice ids)
  end.

End DiceFactory.

(** ** Status effects

    An effect is an object literal with a name, an optional duration and a
    bag of magnitudes.  The magnitudes are kept by the kind of value the
    source stores: integers ([damage], [healing], [defense], ...), fractions
    ([attackReduction], [dodgeChance], ...) and flags set to [true]. *)

Module Effect.

Record t := mk {
  name : string;
  duration : option Z;
  ints : gmap string Z;
  fracs : gmap string JS.double;
  flags : list string
}.

(** An object literal [{ name, duration, k1: v1, ... }] *)
Definition lit (n : string) (d : option Z) (zs : list (string * Z))
    (fs : list (string * JS.double)) (bs : list string) : t :=
  {| name := n; duration := d; ints := list_to_map zs; fracs := list_to_map fs;
     flags := bs |}.

Definition int (e : t) (k : string) : option Z := ints e !! k.
Definition frac (e : t) (k : string) : option JS.double := fracs e !! k.

Definition nameIs (n : string) (e : t) : bool := String.eqb (name e) n.

(** The filter of [updateEffects]: [effect.duration--; return effect.duration > 0],
    effects without a duration are kept as they are. *)
Definition tick (e : t) : option t :=
  match duration e with
  | Some d =>
      if 0 <? d - 1
      then Some {| name := name e; duration := Some (d - 1);
                   ints := ints e; fracs := fracs e; flags := flags e |}
      else None
  | None => Some e
  end.

Definition tickAll (l : list t) : list t := omap tick l.

End Effect.

(** ** Enemy.js: the Enemy class *)

Module Action.

Inductive ActionType := attack | heal | defend | revive.

Record t := mk {
  type : ActionType;
  value : Z;            (* absent on a revive action, where nothing reads it *)
  message : option string;
  poison : option Z;
  burn : option Z;
  lifeSteal : option JS.double
}.

Definition isAttack (a : t) : bool :=
  match type a with attack => true | _ => false end.

Definition strike (v : Z) : t := mk attack v None None None None.
Definition strikeMsg (v : Z) (m : string) : t := mk attack v (Some m) None None None.

Definition setValue (v : Z) (a : t) : t :=
  {| type := type a; value := v; message := message a;
     poison := poison a; burn := burn a; lifeSteal := lifeSteal a |}.

End Action.

(** The behaviour closures that EnemyFactory installs, one tag for each. *)
Inductive Archetype :=
  (* minions *)
  | Goblin | Skeleton | Rat | Bat | Slime | Zombie | Wolf | Spider | Bandit
  | Cultist | Imp | Ghost | Wisp | Mushroom | Crab | Snake | Scorpion | Harpy
  | Gremlin | Shadowling | FireElemental | IceElemental | WindElemental
  | EarthElemental | CorruptedKnight
  (* elites *)
  | StoneGolem | DarkMage | Berserker | Necromancer | Assassin | Warlock
  | Vampire | Werewolf | Minotaur | Hydra | Phoenix | FrostGiant | DemonLord
  | DragonKnight | Lich
  (* bosses *)
  | Dragon | DemonKing | AncientLich | TitanGolem | VoidLord | Archmage
  | DarkOverlord | CelestialBeing | EldritchHorror | PrimordialBeast.

Module Enemy.

Inductive EnemyType := minion | elite | boss.

Record t := mk {
  name : string;
  type : EnemyType;
  maxHP : Z;
  currentHP : Z;
  baseAttack : Z;
  attack : Z;
  defense : Z;
  behavior : option Archetype;
  turnCounter : Z;
  effects : list Effect.t;
  chargeCounter : Z;
  specialCooldown : Z;
  goldReward : Z;
  hasSplit : bool;       (* set by the Slime, absent (falsy) before *)
  phase : option Z;      (* set by the Ancient Dragon *)
  hasRevived : bool      (* set by the Phoenix *)
}.

Definition calculateGoldReward (ty : EnemyType) : Z :=
  match ty with minion => 10 | elite => 25 | boss => 50 end.

(** [new Enemy(name, type, hp, attack, defense)] *)
Definition new (n : string) (ty : EnemyType) (hp atk def : Z) : t :=
  {| name := n; type := ty; maxHP := hp; currentHP := hp;
     baseAttack := atk; attack := atk; defense := def;
     behavior := None; turnCounter := 0; effects := [];
     chargeCounter := 0; specialCooldown := 0;
     goldReward := calculateGoldReward ty;
     hasSplit := false; phase := None; hasRevived := false |}.

Definition setHP (hp : Z) (e : t) : t :=
  {| name := name e; type := type e; maxHP := maxHP e; currentHP := hp;
     baseAttack := baseAttack e; attack := attack e; defense := defense e;
     behavior := behavior e; turnCounter := turnCounter e; effects := effects e;
     chargeCounter := chargeCounter e; specialCooldown := specialCooldown e;
     goldReward := goldReward e;
     hasSplit := hasSplit e; phase := phase e; hasRevived := hasRevived e |}.

Definition setEffects (l : list Effect.t) (e : t) : t :=
  {| name := name e; type := type e; maxHP := maxHP e; currentHP := currentHP e;
     baseAttack := baseAttack e; attack := attack e; defense := defense e;
     behavior := behavior e; turnCounter := turnCounter e; effects := l;
     chargeCounter := chargeCounter e; specialCooldown := specialCooldown e;
     goldReward := goldReward e;
     hasSplit := hasSplit e; phase := phase e; hasRevived := hasRevived e |}.

Definition setBehavior (b : Archetype) (e : t) : t :=
  {| name := name e; type := type e; maxHP := maxHP e; currentHP := currentHP e;
     baseAttack := baseAttack e; attack := attack e; defense := defense e;
     behavior := Some b; turnCounter := turnCounter e; effects := effects e;
     chargeCounter := chargeCounter e; specialCooldown := specialCooldown e;
     goldReward := goldReward e;
     hasSplit := hasSplit e; phase := phase e; hasRevived := hasRevived e |}.

Definition setTurnCounter (n : Z) (e : t) : t :=
  {| name := name e; type := type e; maxHP := maxHP e; currentHP := currentHP e;
     baseAttack := baseAttack e; attack := attack e; defense := defense e;
     behavior := behavior e; turnCounter := n; effects := effects e;
     chargeCounter := chargeCounter e; specialCooldown := specialCooldown e;
     goldReward := goldReward e;
     hasSplit := hasSplit e; phase := phase e; hasRevived := hasRevived e |}.

Definition setChargeCounter (n : Z) (e : t) : t :=
  {| name := name e; type := type e; maxHP := maxHP e; currentHP := currentHP e;
     baseAttack := baseAttack e; attack := attack e; defense := defense e;
     behavior := behavior e; turnCounter := turnCounter e; effects := effects e;
     chargeCounter := n; specialCooldown := specialCooldown e;
     goldReward := goldReward e;
     hasSplit := hasSplit e; phase := phase e; hasRevived := hasRevived e |}.

(** The three flags that single behaviours set on their enemy. *)
Definition setMarks (split : bool) (ph : option Z) (rev : bool) (e : t) : t :=
  {| name := name e; type := type e; maxHP := maxHP e; currentHP := currentHP e;
     baseAttack := baseAttack e; attack := attack e; defense := defense e;
     behavior := behavior e; turnCounter := turnCounter e; effects := effects e;
     chargeCounter := chargeCounter e; specialCooldown := specialCooldown e;
     goldReward := goldReward e;
     hasSplit := split; phase := ph; hasRevived := rev |}.

Definition takeDamage (e : t) (amount : Z) : Z * t :=
  let actualDamage := Z.max 0 (amount - defense e) in
  (actualDamage, setHP (Z.max 0 (currentHP e - actualDamage)) e).

Definition heal (e : t) (amount : Z) : Z * t :=
  let actualHeal := Z.min amount (maxHP e - currentHP e) in
  (actualHeal, setHP (Z.min (maxHP e) (currentHP e + actualHeal)) e).

Definition isAlive (e : t) : bool := 0 <? currentHP e.

Definition addEffect (e : t) (eff : Effect.t) : t := setEffects (effects e ++ [eff]) e.

Definition removeEffect (e : t) (n : string) : t :=
  setEffects (List.filter (fun x => negb (Effect.nameIs n x)) (effects e)) e.

Definition hasEffect (e : t) (n : string) : bool := existsb (Effect.nameIs n) (effects e).

(** The body of the [forEach] in [updateEffects], for one effect. *)
Definition applyTick (e : t) (eff : Effect.t) : t :=
  let e1 := if JS.truthy (Effect.int eff "damage")
            then snd (takeDamage e (default 0 (Effect.int eff "damage")))
            else e in
  if JS.truthy (Effect.int eff "healing")
  then snd (heal e1 (default 0 (Effect.int eff "healing")))
  else e1.

Definition updateEffects (e : t) : t :=
  let e1 := fold_left applyTick (effects e) e in
  setEffects (Effect.tickAll (effects e1)) e1.

(** [(this.currentHP / this.maxHP) * 100] *)
Definition getHPPercentage (e : t) : JS.double :=
  JS.mul (JS.div (JS.of_Z (currentHP e)) (JS.of_Z (maxHP e))) (JS.of_Z 100).

(** [getTotalAttack] and [getTotalDefense]: the base value and the
    [attackBonus] (the [defenseBonus]) of every effect that carries one. *)
Definition getTotalAttack (e : t) : Z :=
  fold_left (fun total effect =>
      if JS.truthy (Effect.int effect "attackBonus")
      then total + default 0 (Effect.int effect "attackBonus") else total)
    (effects e) (attack e).

Definition getTotalDefense (e : t) : Z :=
  fold_left (fun total effect =>
      if JS.truthy (Effect.int effect "defenseBonus")
      then total + default 0 (Effect.int effect "defenseBonus") else total)
    (effects e) (defense e).

End Enemy.

(** ** Enemy.js: behaviours, action execution and the EnemyFactory *)

Module EnemyFactory.

Definition times := JS.times.

(** [self.turnCounter % k === 0] *)
Definition everyNth (k : Z) (self : Enemy.t) : bool :=
  Z.rem (Enemy.turnCounter self) k =? 0.

(** [self.getHPPercentage() < p] *)
Definition hpBelow (p : Z) (self : Enemy.t) : bool :=
  JS.ltb (Enemy.getHPPercentage self) (JS.of_Z p).

Definition withPoison (n : Z) (a : Action.t) : Action.t :=
  {| Action.type := Action.type a; Action.value := Action.value a;
     Action.message := Action.message a; Action.poison := Some n;
     Action.burn := Action.burn a; Action.lifeSteal := Action.lifeSteal a |}.

Definition withBurn (n : Z) (a : Action.t) : Action.t :=
  {| Action.type := Action.type a; Action.value := Action.value a;
     Action.message := Action.message a; Action.poison := Action.poison a;
     Action.burn := Some n; Action.lifeSteal := Action.lifeSteal a |}.

Definition withLifeSteal (f : JS.double) (a : Action.t) : Action.t :=
  {| Action.type := Action.type a; Action.value := Action.value a;
     Action.message := Action.message a; Action.poison := Action.poison a;
     Action.burn := Action.burn a; Action.lifeSteal := Some f |}.

Definition healing (v : Z) (m : option string) : Action.t :=
  Action.mk Action.heal v m None None None.

(** The charge pattern of the Cultist, the Minotaur and the Titan Golem:
    [self.chargeCounter++; if (self.chargeCounter >= n) { self.chargeCounter = 0; ... }] *)
Definition charge (n : Z) (self : Enemy.t) (released idle : Action.t) : Action.t * Enemy.t :=
  let c := Enemy.chargeCounter self + 1 in
  if n <=? c then (released, Enemy.setChargeCounter 0 self)
  else (idle, Enemy.setChargeCounter c self).

(** [enemy.behavior(self)]; [u] is the draw of the Imp's [Math.random()]. *)
Definition behave (b : Archetype) (self : Enemy.t) (u : JS.double) : Action.t * Enemy.t :=
  let atk := Enemy.attack self in
  let plain := Action.strike atk in
  match b with
  | Goblin | Skeleton | Rat | Zombie | Bandit | Wisp | Crab | Gremlin
  | Shadowling | IceElemental | WindElemental | EarthElemental
  | CorruptedKnight => (plain, self)
  | Bat => (withLifeSteal (JS.dec 3 10) plain, self)
  | Slime =>
      if hpBelow 30 self && negb (Enemy.hasSplit self)
      then (healing 10 None,
            Enemy.setMarks true (Enemy.phase self) (Enemy.hasRevived self) self)
      else (plain, self)
  | Wolf =>
      if everyNth 2 self
      then (Action.strikeMsg (times atk (JS.dec 15 10)) "Savage Bite!", self)
      else (plain, self)
  | Spider =>
      if everyNth 3 self
      then (withPoison 3 (Action.strikeMsg atk "Poison Bite!"), self)
      else (plain, self)
  | Cultist =>
      charge 3 self (Action.strikeMsg (atk * 2) "Dark Ritual!")
                    (Action.strikeMsg (times atk (JS.dec 5 10)) "Charging...")
  | Imp =>
      let variance := JS.randomIndex u 6 - 3 in
      (Action.strike (atk + variance), self)
  | Ghost =>
      if everyNth 4 self
      then (Action.mk Action.defend 10 (Some "Ethereal Form") None None None, self)
      else (plain, self)
  | Mushroom => (withPoison 2 plain, self)
  | Snake =>
      if everyNth 2 self
      then (withPoison 4 (Action.strikeMsg atk "Venomous Strike!"), self)
      else (plain, self)
  | Scorpion => (withPoison 2 plain, self)
  | Harpy =>
      if everyNth 3 self
      then (Action.strikeMsg (times atk (JS.dec 16 10)) "Dive Bomb!", self)
      else (plain, self)
  | FireElemental => (withBurn 2 plain, self)
  | StoneGolem =>
      if everyNth 3 self
      then (Action.strikeMsg (times atk (JS.of_Z 2)) "Boulder Smash!", self)
      else (plain, self)
  | DarkMage =>
      if everyNth 2 self
      then (Action.strikeMsg (times atk (JS.dec 13 10)) "Dark Blast!", self)
      else (Action.strikeMsg atk "Curse!", self)
  | Berserker =>
      let rageBonus := if hpBelow 50 self then times atk (JS.dec 5 10) else 0 in
      (Action.strike (atk + rageBonus), self)
  | Necromancer =>
      if everyNth 4 self
      then (healing 20 (Some "Death Siphon!"), self)
      else (plain, self)
  | Assassin =>
      if everyNth 3 self
      then (Action.strikeMsg (times atk (JS.dec 18 10)) "Backstab!", self)
      else (plain, self)
  | Warlock =>
      if everyNth 2 self
      then (withPoison 5 (Action.strikeMsg atk "Curse of Pain!"), self)
      else (plain, self)
  | Vampire => (withLifeSteal (JS.dec 5 10) plain, self)
  | Werewolf =>
      if everyNth 3 self
      then (Action.strikeMsg (times atk (JS.dec 17 10)) "Feral Frenzy!", self)
      else (plain, self)
  | Minotaur =>
      charge 3 self (Action.strikeMsg (times atk (JS.dec 25 10)) "CHARGE!") plain
  | Hydra => (Action.strikeMsg (times atk (JS.dec 15 10)) "Multiple heads strike!", self)
  | Phoenix =>
      if (Enemy.currentHP self <=? 0) && negb (Enemy.hasRevived self)
      then (Action.mk Action.revive 0 (Some "Phoenix rises from ashes!") None None None,
            Enemy.setHP (times (Enemy.maxHP self) (JS.dec 5 10))
              (Enemy.setMarks (Enemy.hasSplit self) (Enemy.phase self) true self))
      else (withBurn 3 plain, self)
  | FrostGiant =>
      if everyNth 3 self
      then (Action.strikeMsg (times atk (JS.dec 18 10)) "Glacial Slam!", self)
      else (plain, self)
  | DemonLord =>
      if everyNth 2 self
      then (Action.strikeMsg (times atk (JS.dec 15 10)) "Hellfire!", self)
      else (plain, self)
  | DragonKnight =>
      if everyNth 4 self
      then (withBurn 5 (Action.strikeMsg (times atk (JS.of_Z 2)) "Dragon Breath!"), self)
      else (plain, self)
  | Lich =>
      if everyNth 3 self
      then (healing 15 (Some "Life Drain!"), self)
      else (withPoison 4 plain, self)
  | Dragon =>
      if hpBelow 50 self && bool_decide (Enemy.phase self = Some 1)
      then (withBurn 10 (Action.strikeMsg (times atk (JS.of_Z 3)) "MEGA DRAGON BREATH!"),
            Enemy.setMarks (Enemy.hasSplit self) (Some 2) (Enemy.hasRevived self) self)
      else if everyNth 3 self
      then (withBurn 5 (Action.strikeMsg (times atk (JS.of_Z 2)) "Dragon Breath!"), self)
      else (plain, self)
  | DemonKing =>
      if everyNth 4 self
      then (Action.strikeMsg (times atk (JS.dec 25 10)) "Infernal Judgment!", self)
      else (plain, self)
  | AncientLich =>
      if everyNth 3 self
      then (healing 25 (Some "Soul Harvest!"), self)
      else (withPoison 6 plain, self)
  | TitanGolem =>
      charge 4 self (Action.strikeMsg (times atk (JS.dec 35 10)) "EARTHQUAKE!") plain
  | VoidLord =>
      if everyNth 2 self
      then (Action.strikeMsg (times atk (JS.dec 18 10)) "Void Blast!", self)
      else (plain, self)
  | Archmage =>
      let spells := ["Fireball"; "Lightning"; "Ice Storm"; "Arcane Missiles"] in
      let spell := default "undefined"
                     (spells !! Z.to_nat (Z.rem (Enemy.turnCounter self) 4)) in
      (Action.strikeMsg (times atk (JS.dec 15 10)) (spell +:+ "!"), self)
  | DarkOverlord =>
      if everyNth 5 self
      then (Action.strikeMsg (times atk (JS.of_Z 3)) "DARK OBLITERATION!", self)
      else (plain, self)
  | CelestialBeing =>
      if everyNth 3 self
      then (healing 20 (Some "Divine Regeneration!"), self)
      else (plain, self)
  | EldritchHorror =>
      if everyNth 4 self
      then (withPoison 8 (Action.strikeMsg (times atk (JS.dec 25 10)) "Maddening Gaze!"), self)
      else (plain, self)
  | PrimordialBeast =>
      if hpBelow 30 self
      then (Action.strikeMsg (times atk (JS.dec 25 10)) "Primal Rage!", self)
      else if everyNth 3 self
      then (Action.strikeMsg (times atk (JS.dec 18 10)) "Savage Roar!", self)
      else (plain, self)
  end.

Definition getNextAction (e : Enemy.t) (u : JS.double) : Action.t * Enemy.t :=
  match Enemy.behavior e with
  | Some b => behave b e u
  | None => (Action.strike (Enemy.attack e), e)
  end.

(** [Enemy.executeAction]: count the turn, ask the behaviour, then let a
    Frozen effect cut the value of an attack. *)
Definition executeAction (e : Enemy.t) (u : JS.double) : Action.t * Enemy.t :=
  let e1 := Enemy.setTurnCounter (Enemy.turnCounter e + 1) e in
  let '(action, e2) := getNextAction e1 u in
  if Action.isAttack action && Enemy.hasEffect e2 "Frozen" then
    match List.find (Effect.nameIs "Frozen") (Enemy.effects e2) with
    | Some frozenEffect =>
        match Effect.frac frozenEffect "attackReduction" with
        | Some r =>
            if JS.truthy_frac (Some r)
            then (Action.setValue
                    (JS.floor (JS.mul (JS.of_Z (Action.value action))
                                      (JS.sub (JS.of_Z 1) r))) action, e2)
            else (action, e2)
        | None => (action, e2)
        end
    | None => (action, e2)
    end
  else (action, e2).

Record Stats := mkStats { hp : Z; attack : Z }.

Definition scaleStats (baseHP baseAttack roundNumber : Z) : Stats :=
  let multiplier := JS.add (JS.of_Z 1) (JS.mul (JS.of_Z roundNumber) (JS.dec 15 100)) in
  {| hp := JS.floor (JS.mul (JS.of_Z baseHP) multiplier);
     attack := JS.floor (JS.mul (JS.of_Z baseAttack) multiplier) |}.

Definition createGoblin (roundNumber : Z) : Enemy.t :=
  let stats := scaleStats 30 8 roundNumber in
  Enemy.setBehavior Goblin (Enemy.new "Goblin" Enemy.minion (hp stats) (attack stats) 0).

Definition createSkeleton (roundNumber : Z) : Enemy.t :=
  let stats := scaleStats 25 10 roundNumber in
  Enemy.setBehavior Skeleton (Enemy.new "Skeleton" Enemy.minion (hp stats) (attack stats) 2).

Definition createRat (roundNumber : Z) : Enemy.t :=
  let stats := scaleStats 20 6 roundNumber in
  Enemy.setBehavior Rat (Enemy.new "Giant Rat" Enemy.minion (hp stats) (attack stats) 0).

Definition createBat (roundNumber : Z) : Enemy.t :=
  let stats := scaleStats 22 7 roundNumber in
  Enemy.setBehavior Bat (Enemy.new "Vampire Bat" Enemy.minion (hp stats) (attack stats) 0).

Definition createSlime (roundNumber : Z) : Enemy.t :=
  let stats := scaleStats 35 5 roundNumber in
  Enemy.setBehavior Slime (Enemy.new "Slime" Enemy.minion (hp stats) (attack stats) 1).

Definition createZombie (roundNumber : Z) : Enemy.t :=
  let stats := scaleStats 40 9 roundNumber in
  Enemy.setBehavior Zombie (Enemy.new "Zombie" Enemy.minion (hp stats) (attack stats) 1).

Definition createWolf (roundNumber : Z) : Enemy.t :=
  let stats := scaleStats 28 11 roundNumber in
  Enemy.setBehavior Wolf (Enemy.new "Dire Wolf" Enemy.minion (hp stats) (attack stats) 0).

Definition createSpider (roundNumber : Z) : Enemy.t :=
  let stats := scaleStats 26 8 roundNumber in
  Enemy.setBehavior Spider (Enemy.new "Giant Spider" Enemy.minion (hp stats) (attack stats) 1).

Definition createBandit (roundNumber : Z) : Enemy.t :=
  let stats := scaleStats 32 10 roundNumber in
  Enemy.setBehavior Bandit (Enemy.new "Bandit" Enemy.minion (hp stats) (attack stats) 0).

Definition createCultist (roundNumber : Z) : Enemy.t :=
  let stats := scaleStats 27 7 roundNumber in
  Enemy.setBehavior Cultist (Enemy.new "Cultist" Enemy.minion (hp stats) (attack stats) 0).

Definition createImp (roundNumber : Z) : Enemy.t :=
  let stats := scaleStats 24 9 roundNumber in
  Enemy.setBehavior Imp (Enemy.new "Imp" Enemy.minion (hp stats) (attack stats) 0).

Definition createGhost (roundNumber : Z) : Enemy.t :=
  let stats := scaleStats 23 8 roundNumber in
  Enemy.setBehavior Ghost (Enemy.new "Ghost" Enemy.minion (hp stats) (attack stats) 0).

Definition createWisp (roundNumber : Z) : Enemy.t :=
  let stats := scaleStats 20 7 roundNumber in
  Enemy.setBehavior Wisp (Enemy.new "Wisp" Enemy.minion (hp stats) (attack stats) 0).

Definition createMushroom (roundNumber : Z) : Enemy.t :=
  let stats := scaleStats 38 6 roundNumber in
  Enemy.setBehavior Mushroom (Enemy.new "Poison Mushroom" Enemy.minion (hp stats) (attack stats) 2).

Definition createCrab (roundNumber : Z) : Enemy.t :=
  let stats := scaleStats 33 8 roundNumber in
  Enemy.setBehavior Crab (Enemy.new "Giant Crab" Enemy.minion (hp stats) (attack stats) 3).

Definition createSnake (roundNumber : Z) : Enemy.t :=
  let stats := scaleStats 25 9 roundNumber in
  Enemy.setBehavior Snake (Enemy.new "Viper" Enemy.minion (hp stats) (attack stats) 0).

Definition createScorpion (roundNumber : Z) : Enemy.t :=
  let stats := scaleStats 29 10 roundNumber in
  Enemy.setBehavior Scorpion (Enemy.new "Giant Scorpion" Enemy.minion (hp stats) (attack stats) 1).

Definition createHarpy (roundNumber : Z) : Enemy.t :=
  let stats := scaleStats 27 11 roundNumber in
  Enemy.setBehavior Harpy (Enemy.new "Harpy" Enemy.minion (hp stats) (attack stats) 0).

Definition createGremlin (roundNumber : Z) : Enemy.t :=
  let stats := scaleStats 26 9 roundNumber in
  Enemy.setBehavior Gremlin (Enemy.new "Gremlin" Enemy.minion (hp stats) (attack stats) 0).

Definition createShadowling (roundNumber : Z) : Enemy.t :=
  let stats := scaleStats 24 10 roundNumber in
  Enemy.setBehavior Shadowling (Enemy.new "Shadowling" Enemy.minion (hp stats) (attack stats) 0).

Definition createFireElemental (roundNumber : Z) : Enemy.t :=
  let stats := scaleStats 30 12 roundNumber in
  Enemy.setBehavior FireElemental (Enemy.new "Fire Elemental" Enemy.minion (hp stats) (attack stats) 0).

Definition createIceElemental (roundNumber : Z) : Enemy.t :=
  let stats := scaleStats 32 9 roundNumber in
  Enemy.setBehavior IceElemental (Enemy.new "Ice Elemental" Enemy.minion (hp stats) (attack stats) 2).

Definition createWindElemental (roundNumber : Z) : Enemy.t :=
  let stats := scaleStats 28 11 roundNumber in
  Enemy.setBehavior WindElemental (Enemy.new "Wind Elemental" Enemy.minion (hp stats) (attack stats) 0).

Definition createEarthElemental (roundNumber : Z) : Enemy.t :=
  let stats := scaleStats 45 8 roundNumber in
  Enemy.setBehavior EarthElemental (Enemy.new "Earth Elemental" Enemy.minion (hp stats) (attack stats) 4).

Definition createCorruptedKnight (roundNumber : Z) : Enemy.t :=
  let stats := scaleStats 35 11 roundNumber in
  Enemy.setBehavior CorruptedKnight (Enemy.new "Corrupted Knight" Enemy.minion (hp stats) (attack stats) 3).

Definition createStoneGolem (roundNumber : Z) : Enemy.t :=
  let stats := scaleStats 80 12 roundNumber in
  Enemy.setBehavior StoneGolem (Enemy.new "Stone Golem" Enemy.elite (hp stats) (attack stats) 5).

Definition createDarkMage (roundNumber : Z) : Enemy.t :=
  let stats := scaleStats 60 18 roundNumber in
  Enemy.setBehavior DarkMage (Enemy.new "Dark Mage" Enemy.elite (hp stats) (attack stats) 2).

Definition createBerserker (roundNumber : Z) : Enemy.t :=
  let stats := scaleStats 70 20 roundNumber in
  Enemy.setBehavior Berserker (Enemy.new "Berserker" Enemy.elite (hp stats) (attack stats) 1).

Definition createNecromancer (roundNumber : Z) : Enemy.t :=
  let stats := scaleStats 55 14 roundNumber in
  Enemy.setBehavior Necromancer (Enemy.new "Necromancer" Enemy.elite (hp stats) (attack stats) 2).

Definition createAssassin (roundNumber : Z) : Enemy.t :=
  let stats := scaleStats 50 25 roundNumber in
  Enemy.setBehavior Assassin (Enemy.new "Shadow Assassin" Enemy.elite (hp stats) (attack stats) 0).

Definition createWarlock (roundNumber : Z) : Enemy.t :=
  let stats := scaleStats 65 16 roundNumber in
  Enemy.setBehavior Warlock (Enemy.new "Warlock" Enemy.elite (hp stats) (attack stats) 3).

Definition createVampire (roundNumber : Z) : Enemy.t :=
  let stats := scaleStats 60 17 roundNumber in
  Enemy.setBehavior Vampire (Enemy.new "Vampire Lord" Enemy.elite (hp stats) (attack stats) 2).

Definition createWerewolf (roundNumber : Z) : Enemy.t :=
  let stats := scaleStats 75 19 roundNumber in
  Enemy.setBehavior Werewolf (Enemy.new "Werewolf" Enemy.elite (hp stats) (attack stats) 2).

Definition createMinotaur (roundNumber : Z) : Enemy.t :=
  let stats := scaleStats 85 18 roundNumber in
  Enemy.setBehavior Minotaur (Enemy.new "Minotaur" Enemy.elite (hp stats) (attack stats) 4).

Definition createHydra (roundNumber : Z) : Enemy.t :=
  let stats := scaleStats 70 15 roundNumber in
  Enemy.setBehavior Hydra (Enemy.new "Hydra" Enemy.elite (hp stats) (attack stats) 3).

Definition createPhoenix (roundNumber : Z) : Enemy.t :=
  let stats := scaleStats 55 20 roundNumber in
  Enemy.setBehavior Phoenix (Enemy.new "Phoenix" Enemy.elite (hp stats) (attack stats) 1).

Definition createFrostGiant (roundNumber : Z) : Enemy.t :=
  let stats := scaleStats 90 16 roundNumber in
  Enemy.setBehavior FrostGiant (Enemy.new "Frost Giant" Enemy.elite (hp stats) (attack stats) 5).

Definition createDemonLord (roundNumber : Z) : Enemy.t :=
  let stats := scaleStats 75 22 roundNumber in
  Enemy.setBehavior DemonLord (Enemy.new "Demon Lord" Enemy.elite (hp stats) (attack stats) 3).

Definition createDragonKnight (roundNumber : Z) : Enemy.t :=
  let stats := scaleStats 80 20 roundNumber in
  Enemy.setBehavior DragonKnight (Enemy.new "Dragon Knight" Enemy.elite (hp stats) (attack stats) 6).

Definition createLich (roundNumber : Z) : Enemy.t :=
  let stats := scaleStats 65 18 roundNumber in
  Enemy.setBehavior Lich (Enemy.new "Lich" Enemy.elite (hp stats) (attack stats) 4).

Definition createDragon (roundNumber : Z) : Enemy.t :=
  let stats := scaleStats 150 25 roundNumber in
  Enemy.setMarks false (Some 1) false (Enemy.setBehavior Dragon (Enemy.new "Ancient Dragon" Enemy.boss (hp stats) (attack stats) 8)).

Definition createDemonKing (roundNumber : Z) : Enemy.t :=
  let stats := scaleStats 140 28 roundNumber in
  Enemy.setBehavior DemonKing (Enemy.new "Demon King" Enemy.boss (hp stats) (attack stats) 6).

Definition createAncientLich (roundNumber : Z) : Enemy.t :=
  let stats := scaleStats 120 22 roundNumber in
  Enemy.setBehavior AncientLich (Enemy.new "Ancient Lich" Enemy.boss (hp stats) (attack stats) 7).

Definition createTitanGolem (roundNumber : Z) : Enemy.t :=
  let stats := scaleStats 180 20 roundNumber in
  Enemy.setBehavior TitanGolem (Enemy.new "Titan Golem" Enemy.boss (hp stats) (attack stats) 10).

Definition createVoidLord (roundNumber : Z) : Enemy.t :=
  let stats := scaleStats 130 26 roundNumber in
  Enemy.setBehavior VoidLord (Enemy.new "Void Lord" Enemy.boss (hp stats) (attack stats) 7).

Definition createArchmage (roundNumber : Z) : Enemy.t :=
  let stats := scaleStats 110 30 roundNumber in
  Enemy.setBehavior Archmage (Enemy.new "Archmage" Enemy.boss (hp stats) (attack stats) 5).

Definition createDarkOverlord (roundNumber : Z) : Enemy.t :=
  let stats := scaleStats 145 27 roundNumber in
  Enemy.setBehavior DarkOverlord (Enemy.new "Dark Overlord" Enemy.boss (hp stats) (attack stats) 8).

Definition createCelestialBeing (roundNumber : Z) : Enemy.t :=
  let stats := scaleStats 125 24 roundNumber in
  Enemy.setBehavior CelestialBeing (Enemy.new "Celestial Being" Enemy.boss (hp stats) (attack stats) 6).

Definition createEldritchHorror (roundNumber : Z) : Enemy.t :=
  let stats := scaleStats 135 29 roundNumber in
  Enemy.setBehavior EldritchHorror (Enemy.new "Eldritch Horror" Enemy.boss (hp stats) (attack stats) 7).

Definition createPrimordialBeast (roundNumber : Z) : Enemy.t :=
  let stats := scaleStats 160 23 roundNumber in
  Enemy.setBehavior PrimordialBeast (Enemy.new "Primordial Beast" Enemy.boss (hp stats) (attack stats) 9).

Definition minions : list (Z -> Enemy.t) :=
  [createGoblin; createSkeleton; createRat; createBat; createSlime;
   createZombie; createWolf; createSpider; createBandit; createCultist;
   createImp; createGhost; createWisp; createMushroom; createCrab; createSnake;
   createScorpion; createHarpy; createGremlin; createShadowling;
   createFireElemental; createIceElemental; createWindElemental;
   createEarthElemental; createCorruptedKnight].

Definition elites : list (Z -> Enemy.t) :=
  [createStoneGolem; createDarkMage; createBerserker; createNecromancer;
   createAssassin; createWarlock; createVampire; createWerewolf;
   createMinotaur; createHydra; createPhoenix; createFrostGiant;
   createDemonLord; createDragonKnight; createLich].

Definition bosses : list (Z -> Enemy.t) :=
  [createDragon; createDemonKing; createAncientLich; createTitanGolem;
   createVoidLord; createArchmage; createDarkOverlord; createCelestialBeing;
   createEldritchHorror; createPrimordialBeast].

(** [roster[Math.floor(Math.random() * roster.length)].call(this, roundNumber)] *)
Definition pickFrom (roster : list (Z -> Enemy.t)) (roundNumber : Z) (u : JS.double)
    : option Enemy.t :=
  creator ← JS.at_ roster (JS.randomIndex u (Z.of_nat (length roster)));
  Some (creator roundNumber).

Definition createMinion := pickFrom minions.
Definition createElite := pickFrom elites.
Definition createBoss := pickFrom bosses.

Definition createEnemy (roundNumber : Z) (u : JS.double) : option Enemy.t :=
  let isBossRound := (Z.rem roundNumber 10 =? 0) && (0 <? roundNumber) in
  let isEliteRound := (Z.rem roundNumber 5 =? 0) && negb isBossRound && (0 <? roundNumber) in
  if isBossRound then createBoss roundNumber u
  else if isEliteRound then createElite roundNumber u
  else createMinion roundNumber u.

(** The length of the roster of each category, and the base hit points and
    base attack that the creator of each archetype passes to [scaleStats]. *)
Definition rosterSize (ty : Enemy.EnemyType) : Z :=
  match ty with Enemy.minion => 25 | Enemy.elite => 15 | Enemy.boss => 10 end.

Definition baseStats (b : Archetype) : Z * Z :=
  match b with
  | Goblin => (30, 8)
  | Skeleton => (25, 10)
  | Rat => (20, 6)
  | Bat => (22, 7)
  | Slime => (35, 5)
  | Zombie => (40, 9)
  | Wolf => (28, 11)
  | Spider => (26, 8)
  | Bandit => (32, 10)
  | Cultist => (27, 7)
  | Imp => (24, 9)
  | Ghost => (23, 8)
  | Wisp => (20, 7)
  | Mushroom => (38, 6)
  | Crab => (33, 8)
  | Snake => (25, 9)
  | Scorpion => (29, 10)
  | Harpy => (27, 11)
  | Gremlin => (26, 9)
  | Shadowling => (24, 10)
  | FireElemental => (30, 12)
  | IceElemental => (32, 9)
  | WindElemental => (28, 11)
  | EarthElemental => (45, 8)
  | CorruptedKnight => (35, 11)
  | StoneGolem => (80, 12)
  | DarkMage => (60, 18)
  | Berserker => (70, 20)
  | Necromancer => (55, 14)
  | Assassin => (50, 25)
  | Warlock => (65, 16)
  | Vampire => (60, 17)
  | Werewolf => (75, 19)
  | Minotaur => (85, 18)
  | Hydra => (70, 15)
  | Phoenix => (55, 20)
  | FrostGiant => (90, 16)
  | DemonLord => (75, 22)
  | DragonKnight => (80, 20)
  | Lich => (65, 18)
  | Dragon => (150, 25)
  | DemonKing => (140, 28)
  | AncientLich => (120, 22)
  | TitanGolem => (180, 20)
  | VoidLord => (130, 26)
  | Archmage => (110, 30)
  | DarkOverlord => (145, 27)
  | CelestialBeing => (125, 24)
  | EldritchHorror => (135, 29)
  | PrimordialBeast => (160, 23)
  end.

End EnemyFactory.

(** ** Item.js: the catalogue of items

    One constructor for each subclass of [Item]; an item object carries its
    class and its cost, which some merchants rewrite. *)

Module Item.

Inductive Rarity := common | rare | epic | legendary.

Inductive Kind :=
    SharpenedEdge | BlessedBarrier | IronPlate | PowerGauntlets
  | VampiricBlade | BerserkersRage | TurtleShell | HealthPotion
  | GreaterHealthPotion | MaxHealthUpgrade | PhoenixFeather | RerollToken
  | LuckyDie | DiceFaceUpgrade | LoadedDice | CriticalEdge | SavageBlow
  | GuaranteedCrit | MagicAmplifier | SymbolCollector | DoubleSymbol
  | ThornArmor | ShieldOfFaith | Evasion | GoldMagnet | ExtraGold
  | MerchantDiscount | BalancedBlade | ChaosCrystal | BloodPact
  | RegenerationRing | FocusedMind | TimeWarpAmulet | DragonScale | PoisonVial.

Definition name (k : Kind) : string :=
  match k with
  | SharpenedEdge => "Sharpened Edge"
  | BlessedBarrier => "Blessed Barrier"
  | IronPlate => "Iron Plate"
  | PowerGauntlets => "Power Gauntlets"
  | VampiricBlade => "Vampiric Blade"
  | BerserkersRage => "Berserker's Rage"
  | TurtleShell => "Turtle Shell"
  | HealthPotion => "Health Potion"
  | GreaterHealthPotion => "Greater Health Potion"
  | MaxHealthUpgrade => "Vitality Boost"
  | PhoenixFeather => "Phoenix Feather"
  | RerollToken => "Reroll Token"
  | LuckyDie => "Lucky Die"
  | DiceFaceUpgrade => "Dice Upgrade Kit"
  | LoadedDice => "Loaded Dice"
  | CriticalEdge => "Critical Edge"
  | SavageBlow => "Savage Blow"
  | GuaranteedCrit => "Assassin's Mark"
  | MagicAmplifier => "Magic Amplifier"
  | SymbolCollector => "Symbol Collector"
  | DoubleSymbol => "Twin Rune"
  | ThornArmor => "Thorn Armor"
  | ShieldOfFaith => "Shield of Faith"
  | Evasion => "Evasion Cloak"
  | GoldMagnet => "Gold Magnet"
  | ExtraGold => "Treasure Chest"
  | MerchantDiscount => "Merchant's Favor"
  | BalancedBlade => "Balanced Blade"
  | ChaosCrystal => "Chaos Crystal"
  | BloodPact => "Blood Pact"
  | RegenerationRing => "Regeneration Ring"
  | FocusedMind => "Focused Mind"
  | TimeWarpAmulet => "Time Warp Amulet"
  | DragonScale => "Dragon Scale"
  | PoisonVial => "Poison Vial"
  end.

Definition baseCost (k : Kind) : Z :=
  match k with
  | SharpenedEdge => 15
  | BlessedBarrier => 15
  | IronPlate => 25
  | PowerGauntlets => 25
  | VampiricBlade => 30
  | BerserkersRage => 20
  | TurtleShell => 20
  | HealthPotion => 12
  | GreaterHealthPotion => 20
  | MaxHealthUpgrade => 25
  | PhoenixFeather => 50
  | RerollToken => 18
  | LuckyDie => 20
  | DiceFaceUpgrade => 30
  | LoadedDice => 40
  | CriticalEdge => 22
  | SavageBlow => 30
  | GuaranteedCrit => 25
  | MagicAmplifier => 20
  | SymbolCollector => 28
  | DoubleSymbol => 35
  | ThornArmor => 25
  | ShieldOfFaith => 30
  | Evasion => 35
  | GoldMagnet => 20
  | ExtraGold => 10
  | MerchantDiscount => 25
  | BalancedBlade => 25
  | ChaosCrystal => 30
  | BloodPact => 20
  | RegenerationRing => 28
  | FocusedMind => 32
  | TimeWarpAmulet => 60
  | DragonScale => 35
  | PoisonVial => 30
  end.

Definition rarity (k : Kind) : Rarity :=
  match k with
  | SharpenedEdge => common
  | BlessedBarrier => common
  | IronPlate => rare
  | PowerGauntlets => rare
  | VampiricBlade => epic
  | BerserkersRage => rare
  | TurtleShell => rare
  | HealthPotion => common
  | GreaterHealthPotion => rare
  | MaxHealthUpgrade => rare
  | PhoenixFeather => legendary
  | RerollToken => common
  | LuckyDie => rare
  | DiceFaceUpgrade => epic
  | LoadedDice => epic
  | CriticalEdge => rare
  | SavageBlow => epic
  | GuaranteedCrit => rare
  | MagicAmplifier => rare
  | SymbolCollector => epic
  | DoubleSymbol => epic
  | ThornArmor => rare
  | ShieldOfFaith => epic
  | Evasion => epic
  | GoldMagnet => rare
  | ExtraGold => common
  | MerchantDiscount => rare
  | BalancedBlade => rare
  | ChaosCrystal => epic
  | BloodPact => rare
  | RegenerationRing => epic
  | FocusedMind => epic
  | TimeWarpAmulet => legendary
  | DragonScale => epic
  | PoisonVial => epic
  end.

Record t := mk { kind : Kind; cost : Z }.

(** [new ItemClass()] *)
Definition new (k : Kind) : t := {| kind := k; cost := baseCost k |}.

Definition setCost (c : Z) (i : t) : t := {| kind := kind i; cost := c |}.

(** [ItemFactory.getAllItems()] *)
Definition getAllItems : list Kind :=
  [SharpenedEdge; BlessedBarrier; IronPlate; PowerGauntlets; VampiricBlade;
   BerserkersRage; TurtleShell; HealthPotion; GreaterHealthPotion;
   MaxHealthUpgrade; PhoenixFeather; RerollToken; LuckyDie; DiceFaceUpgrade;
   LoadedDice; CriticalEdge; SavageBlow; GuaranteedCrit; MagicAmplifier;
   SymbolCollector; DoubleSymbol; ThornArmor; ShieldOfFaith; Evasion;
   GoldMagnet; ExtraGold; MerchantDiscount; BalancedBlade; ChaosCrystal;
   BloodPact; RegenerationRing; FocusedMind; TimeWarpAmulet; DragonScale;
   PoisonVial].

End Item.

(** ** Player.js: the Player class *)

Module Player.

Record t := mk {
  className : string;
  diceSet : list Dice.t;
  maxHP : Z;
  currentHP : Z;
  gold : Z;
  attackBonus : Z;
  defenseBonus : Z;
  critChance : Z;
  critMultiplier : JS.double;
  effects : list Effect.t;
  items : list Item.t;
  rerollsPerRound : Z;
  rerollsUsed : Z;
  specialCounters : gmap string Z
}.

Definition setMaxHP (v : Z) (p : t) : t :=
  {| className := className p; diceSet := diceSet p; maxHP := v; currentHP :=
     currentHP p; gold := gold p; attackBonus := attackBonus p; defenseBonus
     := defenseBonus p; critChance := critChance p; critMultiplier :=
     critMultiplier p; effects := effects p; items := items p;
     rerollsPerRound := rerollsPerRound p; rerollsUsed := rerollsUsed p;
     specialCounters := specialCounters p |}.

Definition setCurrentHP (v : Z) (p : t) : t :=
  {| className := className p; diceSet := diceSet p; maxHP := maxHP p;
     currentHP := v; gold := gold p; attackBonus := attackBonus p;
     defenseBonus := defenseBonus p; critChance := critChance p;
     critMultiplier := critMultiplier p; effects := effects p; items := items
     p; rerollsPerRound := rerollsPerRound p; rerollsUsed := rerollsUsed p;
     specialCounters := specialCounters p |}.

Definition setGold (v : Z) (p : t) : t :=
  {| className := className p; diceSet := diceSet p; maxHP := maxHP p;
     currentHP := currentHP p; gold := v; attackBonus := attackBonus p;
     defenseBonus := defenseBonus p; critChance := critChance p;
     critMultiplier := critMultiplier p; effects := effects p; items := items
     p; rerollsPerRound := rerollsPerRound p; rerollsUsed := rerollsUsed p;
     specialCounters := specialCounters p |}.

Definition setAttackBonus (v : Z) (p : t) : t :=
  {| className := className p; diceSet := diceSet p; maxHP := maxHP p;
     currentHP := currentHP p; gold := gold p; attackBonus := v; defenseBonus
     := defenseBonus p; critChance := critChance p; critMultiplier :=
     critMultiplier p; effects := effects p; items := items p;
     rerollsPerRound := rerollsPerRound p; rerollsUsed := rerollsUsed p;
     specialCounters := specialCounters p |}.

Definition setDefenseBonus (v : Z) (p : t) : t :=
  {| className := className p; diceSet := diceSet p; maxHP := maxHP p;
     currentHP := currentHP p; gold := gold p; attackBonus := attackBonus p;
     defenseBonus := v; critChance := critChance p; critMultiplier :=
     critMultiplier p; effects := effects p; items := items p;
     rerollsPerRound := rerollsPerRound p; rerollsUsed := rerollsUsed p;
     specialCounters := specialCounters p |}.

Definition setCritChance (v : Z) (p : t) : t :=
  {| className := className p; diceSet := diceSet p; maxHP := maxHP p;
     currentHP := currentHP p; gold := gold p; attackBonus := attackBonus p;
     defenseBonus := defenseBonus p; critChance := v; critMultiplier :=
     critMultiplier p; effects := effects p; items := items p;
     rerollsPerRound := rerollsPerRound p; rerollsUsed := rerollsUsed p;
     specialCounters := specialCounters p |}.

Definition setCritMultiplier (v : JS.double) (p : t) : t :=
  {| className := className p; diceSet := diceSet p; maxHP := maxHP p;
     currentHP := currentHP p; gold := gold p; attackBonus := attackBonus p;
     defenseBonus := defenseBonus p; critChance := critChance p;
     critMultiplier := v; effects := effects p; items := items p;
     rerollsPerRound := rerollsPerRound p; rerollsUsed := rerollsUsed p;
     specialCounters := specialCounters p |}.

Definition setEffects (v : list Effect.t) (p : t) : t :=
  {| className := className p; diceSet := diceSet p; maxHP := maxHP p;
     currentHP := currentHP p; gold := gold p; attackBonus := attackBonus p;
     defenseBonus := defenseBonus p; critChance := critChance p;
     critMultiplier := critMultiplier p; effects := v; items := items p;
     rerollsPerRound := rerollsPerRound p; rerollsUsed := rerollsUsed p;
     specialCounters := specialCounters p |}.

Definition setItems (v : list Item.t) (p : t) : t :=
  {| className := className p; diceSet := diceSet p; maxHP := maxHP p;
     currentHP := currentHP p; gold := gold p; attackBonus := attackBonus p;
     defenseBonus := defenseBonus p; critChance := critChance p;
     critMultiplier := critMultiplier p; effects := effects p; items := v;
     rerollsPerRound := rerollsPerRound p; rerollsUsed := rerollsUsed p;
     specialCounters := specialCounters p |}.

Definition setRerollsPerRound (v : Z) (p : t) : t :=
  {| className := className p; diceSet := diceSet p; maxHP := maxHP p;
     currentHP := currentHP p; gold := gold p; attackBonus := attackBonus p;
     defenseBonus := defenseBonus p; critChance := critChance p;
     critMultiplier := critMultiplier p; effects := effects p; items := items
     p; rerollsPerRound := v; rerollsUsed := rerollsUsed p; specialCounters
     := specialCounters p |}.

Definition setRerollsUsed (v : Z) (p : t) : t :=
  {| className := className p; diceSet := diceSet p; maxHP := maxHP p;
     currentHP := currentHP p; gold := gold p; attackBonus := attackBonus p;
     defenseBonus := defenseBonus p; critChance := critChance p;
     critMultiplier := critMultiplier p; effects := effects p; items := items
     p; rerollsPerRound := rerollsPerRound p; rerollsUsed := v;
     specialCounters := specialCounters p |}.

Definition setSpecialCounters (v : gmap string Z) (p : t) : t :=
  {| className := className p; diceSet := diceSet p; maxHP := maxHP p;
     currentHP := currentHP p; gold := gold p; attackBonus := attackBonus p;
     defenseBonus := defenseBonus p; critChance := critChance p;
     critMultiplier := critMultiplier p; effects := effects p; items := items
     p; rerollsPerRound := rerollsPerRound p; rerollsUsed := rerollsUsed p;
     specialCounters := v |}.

(** The result object of a passive or special ability; a field that the
    source leaves out is [None] (or [false]). *)
Record Outcome := mkOutcome {
  bonusDamage : option Z;
  damage : option Z;
  bonusDefense : option Z;
  selfDamage : option Z;
  isCrit : bool;
  success : option bool;
  message : option JS.text;
  applyEffect : option Effect.t;
  skipEnemyTurn : bool
}.

(** [{}] *)
Definition noOutcome : Outcome :=
  mkOutcome None None None None false None None None false.

(** [{ success: false }] *)
Definition failure : Outcome :=
  mkOutcome None None None None false (Some false) None None false.

(** [{ message }] *)
Definition said (m : JS.text) : Outcome :=
  mkOutcome None None None None false None (Some m) None false.

(** [{ message, success: true }] *)
Definition activated (m : JS.text) : Outcome :=
  mkOutcome None None None None false (Some true) (Some m) None false.

Definition withBonusDamage (n : Z) (o : Outcome) : Outcome :=
  mkOutcome (Some n) (damage o) (bonusDefense o) (selfDamage o) (isCrit o)
            (success o) (message o) (applyEffect o) (skipEnemyTurn o).

Definition withBonusDefense (n : Z) (o : Outcome) : Outcome :=
  mkOutcome (bonusDamage o) (damage o) (Some n) (selfDamage o) (isCrit o)
            (success o) (message o) (applyEffect o) (skipEnemyTurn o).

Definition withDamage (n : Z) (o : Outcome) : Outcome :=
  mkOutcome (bonusDamage o) (Some n) (bonusDefense o) (selfDamage o) (isCrit o)
            (success o) (message o) (applyEffect o) (skipEnemyTurn o).

Definition withSelfDamage (n : Z) (o : Outcome) : Outcome :=
  mkOutcome (bonusDamage o) (damage o) (bonusDefense o) (Some n) (isCrit o)
            (success o) (message o) (applyEffect o) (skipEnemyTurn o).

Definition withCrit (o : Outcome) : Outcome :=
  mkOutcome (bonusDamage o) (damage o) (bonusDefense o) (selfDamage o) true
            (success o) (message o) (applyEffect o) (skipEnemyTurn o).

Definition withEffect (e : Effect.t) (o : Outcome) : Outcome :=
  mkOutcome (bonusDamage o) (damage o) (bonusDefense o) (selfDamage o) (isCrit o)
            (success o) (message o) (Some e) (skipEnemyTurn o).

Definition withSkip (o : Outcome) : Outcome :=
  mkOutcome (bonusDamage o) (damage o) (bonusDefense o) (selfDamage o) (isCrit o)
            (success o) (message o) (applyEffect o) true.

(** [specialResult.success] as a condition *)
Definition succeeded (o : Outcome) : bool :=
  match success o with Some b => b | None => false end.

(** The combat context that GameManager hands to the abilities. *)
Record Context := mkContext {
  attackValue : Z;
  defenseValue : Z;
  specialDice : list Dice.t;
  round : Z
}.

Definition classCounters (cn : string) : gmap string Z :=
  if String.eqb cn "Blade Dancer" then list_to_map [("momentum", 0)]
  else if String.eqb cn "Geomancer"
       then list_to_map [("earthCount", 0); ("stoneCount", 0); ("crystalCount", 0)]
  else if String.eqb cn "Shadow Priest" then list_to_map [("darknessStacks", 0); ("voidPower", 0)]
  else if String.eqb cn "Pyromantic" then list_to_map [("flameStacks", 0); ("burnDamage", 0)]
  else if String.eqb cn "Frost Weaver" then list_to_map [("frostStacks", 0); ("chillDuration", 0)]
  else if String.eqb cn "Storm Caller" then list_to_map [("lightningCharge", 0); ("windStacks", 0)]
  else if String.eqb cn "Nature Shaman" then list_to_map [("growthStacks", 0); ("healingPower", 0)]
  else if String.eqb cn "Blood Knight" then list_to_map [("bloodStacks", 0); ("lifeSteal", 0)]
  else if String.eqb cn "Holy Paladin" then list_to_map [("holyPower", 0); ("divineShield", 0)]
  else if String.eqb cn "Chaos Mage" then list_to_map [("chaosStacks", 0); ("wildMagic", 0)]
  else if String.eqb cn "Time Weaver" then list_to_map [("timeStacks", 0); ("hasteEffect", 0)]
  else if String.eqb cn "Spirit Summoner" then list_to_map [("spiritCount", 0); ("summonPower", 0)]
  else ∅.

(** [new Player(className, diceSet)].  The fields [momentum],
    [unspentSymbols], [consecutiveAttacks] and [permanentUpgrades], which
    nothing reads, are left out. *)
Definition new (cn : string) (dice : list Dice.t) : t :=
  {| className := cn; diceSet := dice; maxHP := 100; currentHP := 100; gold := 0;
     attackBonus := 0; defenseBonus := 0; critChance := 0;
     critMultiplier := JS.of_Z 2; effects := []; items := [];
     rerollsPerRound := 0; rerollsUsed := 0;
     specialCounters := classCounters cn |}.

(** [this.specialCounters.k]; the constructor defines every counter that the
    abilities of the class touch, an absent one compares like 0. *)
Definition counter (p : t) (k : string) : Z := default 0 (specialCounters p !! k).

Definition setCounter (k : string) (v : Z) (p : t) : t :=
  setSpecialCounters (<[k := v]> (specialCounters p)) p.

Definition takeDamage (p : t) (amount : Z) : Z * t :=
  let actualDamage := Z.max 0 amount in
  (actualDamage, setCurrentHP (Z.max 0 (currentHP p - actualDamage)) p).

Definition heal (p : t) (amount : Z) : Z * t :=
  let actualHeal := Z.min amount (maxHP p - currentHP p) in
  (actualHeal, setCurrentHP (Z.min (maxHP p) (currentHP p + actualHeal)) p).

Definition addGold (p : t) (amount : Z) : t := setGold (gold p + amount) p.

Definition spendGold (p : t) (amount : Z) : bool * t :=
  if amount <=? gold p then (true, setGold (gold p - amount) p) else (false, p).

Definition addEffect (p : t) (eff : Effect.t) : t := setEffects (effects p ++ [eff]) p.

Definition removeEffect (p : t) (n : string) : t :=
  setEffects (List.filter (fun x => negb (Effect.nameIs n x)) (effects p)) p.

Definition hasEffect (p : t) (n : string) : bool := existsb (Effect.nameIs n) (effects p).

(** [this.effects.find(e => e.name === n)] *)
Definition findEffect (p : t) (n : string) : option Effect.t :=
  List.find (Effect.nameIs n) (effects p).

Definition updateEffects (p : t) : t := setEffects (Effect.tickAll (effects p)) p.

Definition resetRerolls (p : t) : t := setRerollsUsed 0 p.

Definition canReroll (p : t) : bool := rerollsUsed p <? rerollsPerRound p.

Definition useReroll (p : t) : bool * t :=
  if canReroll p then (true, setRerollsUsed (rerollsUsed p + 1) p) else (false, p).

Definition isAlive (p : t) : bool := 0 <? currentHP p.

Definition getTotalAttackBonus (p : t) : Z :=
  fold_left (fun total effect =>
      let total := if JS.truthy (Effect.int effect "attack")
                   then total + default 0 (Effect.int effect "attack") else total in
      if JS.truthy (Effect.int effect "bonusAttack")
      then total + default 0 (Effect.int effect "bonusAttack") else total)
    (effects p) (attackBonus p).

Definition getTotalDefenseBonus (p : t) : Z :=
  let total :=
    fold_left (fun total effect =>
        let total := if JS.truthy (Effect.int effect "defense")
                     then total + default 0 (Effect.int effect "defense") else total in
        if JS.truthy (Effect.int effect "bonusDefense")
        then total + default 0 (Effect.int effect "bonusDefense") else total)
      (effects p) (defenseBonus p) in
  if 0 <? counter p "divineShield" then total + counter p "divineShield" else total.

(** *** The abilities of the twelve classes *)

Definition countSymbol (s : string) (context : Context) : Z :=
  Dice.countSymbol s (specialDice context).

Definition bladeDancerPassive (p : t) (context : Context) : Outcome * t :=
  if 0 <? attackValue context then
    let p := setCounter "momentum" (counter p "momentum" + 1) p in
    let bonusDamage := counter p "momentum" in
    (withBonusDamage bonusDamage
       (said [JS.Txt "Momentum +"; JS.Num bonusDamage; JS.Txt " damage!"]), p)
  else (noOutcome, setCounter "momentum" 0 p).

Definition bladeDancerSpecial (p : t) (context : Context) : Outcome * t :=
  let critCount :=
    Z.of_nat (length (List.filter (Dice.faceTypeIs Dice.crit) (specialDice context))) in
  if 2 <=? critCount then
    let damage := JS.times (attackValue context) (JS.of_Z 3) in
    (withDamage damage (activated [JS.Txt "Cyclone Slash! 300% damage!"]), p)
  else (failure, p).

Definition geomancerPassive (p : t) (context : Context) : Outcome * t :=
  let hasEarth := existsb (Dice.symbolIs "earth") (specialDice context) in
  let hasStone := existsb (Dice.symbolIs "stone") (specialDice context) in
  let hasCrystal := existsb (Dice.symbolIs "crystal") (specialDice context) in
  if hasEarth && hasStone && hasCrystal then
    (withBonusDamage 10 (withBonusDefense 10
       (said [JS.Txt "Earthshatter! +10 attack and defense!"])), p)
  else (noOutcome, p).

Definition geomancerSpecial (p : t) (context : Context) : Outcome * t :=
  let stoneCount := countSymbol "stone" context in
  if 1 <=? stoneCount then
    (activated [JS.Txt "Stoneform! +25 defense next round!"],
     addEffect p (Effect.lit "Stoneform" (Some 1) [("defense", 25)] [] []))
  else (failure, p).

Definition shadowPriestPassive (p : t) (context : Context) : Outcome * t :=
  let unspentDarkness :=
    Z.of_nat (length (List.filter
      (fun d => Dice.symbolIs "darkness" d || Dice.symbolIs "void" d
                || Dice.symbolIs "shadow" d) (specialDice context))) in
  if 0 <? unspentDarkness then
    let p := setCounter "darknessStacks"
               (counter p "darknessStacks" + unspentDarkness * 2) p in
    (said [JS.Txt "Deepening Void: +"; JS.Num (unspentDarkness * 2);
           JS.Txt " power stored (Total: "; JS.Num (counter p "darknessStacks");
           JS.Txt ")"], p)
  else (noOutcome, p).

Definition shadowPriestSpecial (p : t) (context : Context) : Outcome * t :=
  if 5 <=? counter p "darknessStacks" then
    let p := snd (takeDamage p 5) in
    let bonusDamage := 20 + counter p "darknessStacks" in
    let p := setCounter "darknessStacks" 0 p in
    (withBonusDamage bonusDamage
       (activated [JS.Txt "Sacrifice! Lost 5 HP, +"; JS.Num bonusDamage; JS.Txt " damage!"]), p)
  else (failure, p).

Definition pyromanticPassive (p : t) (context : Context) : Outcome * t :=
  let flameCount := countSymbol "flame" context in
  if 0 <? flameCount then
    let p := setCounter "flameStacks" (counter p "flameStacks" + flameCount) p in
    (withBonusDamage (flameCount * 2)
       (said [JS.Txt "Burning Fury: +"; JS.Num (flameCount * 2); JS.Txt " fire damage!"]), p)
  else (noOutcome, p).

Definition pyromanticSpecial (p : t) (context : Context) : Outcome * t :=
  let flameCount := countSymbol "flame" context in
  if 3 <=? flameCount then
    let damage := 40 in
    let p := setCounter "burnDamage" 10 p in
    (withBonusDamage damage
       (withEffect (Effect.lit "Burn" (Some 3) [("damage", 10)] [] [])
          (activated [JS.Txt "INFERNO! 40 instant damage + 10 burn damage for 3 rounds!"])), p)
  else (failure, p).

Definition frostWeaverPassive (p : t) (context : Context) : Outcome * t :=
  let frostCount := countSymbol "frost" context in
  if 0 <? frostCount then
    let p := setCounter "frostStacks" (counter p "frostStacks" + frostCount) p in
    (withBonusDefense (frostCount * 3)
       (said [JS.Txt "Frost Armor: +"; JS.Num (frostCount * 3); JS.Txt " defense!"]), p)
  else (noOutcome, p).

Definition frostWeaverSpecial (p : t) (context : Context) : Outcome * t :=
  let frostCount := countSymbol "frost" context in
  if 2 <=? frostCount then
    (withEffect (Effect.lit "Frozen" (Some 2) [] [("attackReduction", JS.dec 5 10)] [])
       (activated [JS.Txt "Frozen Prison! Enemy attack reduced by 50% for 2 rounds!"]), p)
  else (failure, p).

Definition stormCallerPassive (p : t) (context : Context) : Outcome * t :=
  let lightningCount := countSymbol "lightning" context in
  if 0 <? lightningCount then
    let p := setCounter "lightningCharge" (counter p "lightningCharge" + lightningCount) p in
    let p := setCritChance (critChance p + lightningCount * 10) p in
    (said [JS.Txt "Lightning Charge: +"; JS.Num (lightningCount * 10);
           JS.Txt "% crit chance!"], p)
  else (noOutcome, p).

Definition stormCallerSpecial (p : t) (context : Context) : Outcome * t :=
  let lightningCount := countSymbol "lightning" context in
  if 2 <=? lightningCount then
    let damage := 35 in
    (withBonusDamage damage
       (withCrit (activated [JS.Txt "THUNDERSTRIKE! 35 guaranteed critical damage!"])), p)
  else (failure, p).

Definition natureShamanPassive (p : t) (context : Context) : Outcome * t :=
  let natureCount := countSymbol "nature" context in
  if 0 <? natureCount then
    let healAmount := natureCount * 3 in
    let p := snd (heal p healAmount) in
    (said [JS.Txt "Nature's Blessing: Healed "; JS.Num healAmount; JS.Txt " HP!"], p)
  else (noOutcome, p).

Definition natureShamanSpecial (p : t) (context : Context) : Outcome * t :=
  let natureCount := countSymbol "nature" context in
  if 3 <=? natureCount then
    let healAmount := 25 in
    let p := snd (heal p healAmount) in
    let p := addEffect p (Effect.lit "Regeneration" (Some 3) [("healing", 5)] [] []) in
    (activated [JS.Txt "Wild Growth! Healed "; JS.Num healAmount;
            JS.Txt " HP + 5 HP regen for 3 rounds!"], p)
  else (failure, p).

Definition bloodKnightPassive (p : t) (context : Context) : Outcome * t :=
  let bloodCount := countSymbol "blood" context in
  if (0 <? bloodCount) && (0 <? attackValue context) then
    let lifeSteal :=
      JS.floor (JS.mul (JS.mul (JS.of_Z (attackValue context)) (JS.dec 3 10))
                       (JS.of_Z bloodCount)) in
    let p := snd (heal p lifeSteal) in
    (said [JS.Txt "Blood Pact: Healed "; JS.Num lifeSteal;
           JS.Txt " HP from life steal!"], p)
  else (noOutcome, p).

Definition bloodKnightSpecial (p : t) (context : Context) : Outcome * t :=
  let bloodCount := countSymbol "blood" context in
  if 2 <=? bloodCount then
    let sacrifice := 15 in
    let bonusDamage := 50 in
    let p := snd (takeDamage p sacrifice) in
    (withBonusDamage bonusDamage
       (activated [JS.Txt "Blood Sacrifice! Lost "; JS.Num sacrifice; JS.Txt " HP for ";
               JS.Num bonusDamage; JS.Txt " extra damage!"]), p)
  else (failure, p).

Definition holyPaladinPassive (p : t) (context : Context) : Outcome * t :=
  let holyCount := countSymbol "holy" context in
  if 0 <? holyCount then
    let p := setCounter "holyPower" (counter p "holyPower" + holyCount) p in
    (withBonusDefense (holyCount * 4)
       (said [JS.Txt "Divine Protection: +"; JS.Num (holyCount * 4); JS.Txt " defense!"]), p)
  else (noOutcome, p).

Definition holyPaladinSpecial (p : t) (context : Context) : Outcome * t :=
  let holyCount := countSymbol "holy" context in
  if (2 <=? holyCount) && (5 <=? counter p "holyPower") then
    let healAmount := 20 in
    let p := snd (heal p healAmount) in
    let p := setCounter "divineShield" 30 p in
    let p := setCounter "holyPower" 0 p in
    (activated [JS.Txt "Divine Shield! Healed "; JS.Num healAmount;
            JS.Txt " HP + absorb 30 damage!"], p)
  else (failure, p).

(** The four outcomes that the Chaos Mage's passive draws from. *)
Definition randomEffects : list Outcome :=
  [ withBonusDamage 15 (said [JS.Txt "Chaos Surge: +15 damage!"]);
    withBonusDefense 15 (said [JS.Txt "Chaos Ward: +15 defense!"]);
    withBonusDamage 25 (withSelfDamage 5 (said [JS.Txt "Wild Magic: +25 damage, -5 HP!"]));
    withBonusDefense 20 (withBonusDamage 10
      (said [JS.Txt "Chaos Balance: +10 damage, +20 defense!"])) ].

Definition chaosMagePassive (p : t) (context : Context) (u : JS.double)
    : option (Outcome * t) :=
  let chaosCount := countSymbol "chaos" context in
  if 0 <? chaosCount then
    effect ← JS.at_ randomEffects
                (JS.randomIndex u (Z.of_nat (length randomEffects)));
    let p := if JS.truthy (selfDamage effect)
             then snd (takeDamage p (default 0 (selfDamage effect))) else p in
    Some (effect, p)
  else Some (noOutcome, p).

Definition chaosMageSpecial (p : t) (context : Context) (u : JS.double) : Outcome * t :=
  let chaosCount := countSymbol "chaos" context in
  if 2 <=? chaosCount then
    let randomValue := JS.randomIndex u 60 + 20 in
    (withBonusDamage randomValue
       (activated [JS.Txt "CHAOS BOLT! "; JS.Num randomValue; JS.Txt " random damage!"]), p)
  else (failure, p).

Definition timeWeaverPassive (p : t) (context : Context) : Outcome * t :=
  let timeCount := countSymbol "time" context in
  if 0 <? timeCount then
    let p := setCounter "timeStacks" (counter p "timeStacks" + timeCount) p in
    (said [JS.Txt "Time Dilation: Stored "; JS.Num timeCount;
           JS.Txt " time stacks (Total: "; JS.Num (counter p "timeStacks"); JS.Txt ")"], p)
  else (noOutcome, p).

Definition timeWeaverSpecial (p : t) (context : Context) : Outcome * t :=
  let timeCount := countSymbol "time" context in
  if (3 <=? timeCount) && (6 <=? counter p "timeStacks") then
    let p := setCounter "timeStacks" 0 p in
    let p := addEffect p (Effect.lit "Haste" (Some 2)
                            [("bonusAttack", 10); ("bonusDefense", 10)] [] []) in
    (withSkip (activated [JS.Txt
       "TIME WARP! +10 attack and defense for 2 rounds + enemy skip next turn!"]), p)
  else (failure, p).

Definition spiritSummonerPassive (p : t) (context : Context) : Outcome * t :=
  let spiritCount := countSymbol "spirit" context in
  if 0 <? spiritCount then
    let p := setCounter "spiritCount" (counter p "spiritCount" + spiritCount) p in
    (withBonusDamage (counter p "spiritCount" * 2)
       (said [JS.Txt "Spirit Power: +"; JS.Num (counter p "spiritCount" * 2);
              JS.Txt " damage from "; JS.Num (counter p "spiritCount");
              JS.Txt " spirits!"]), p)
  else (noOutcome, p).

Definition spiritSummonerSpecial (p : t) (context : Context) : Outcome * t :=
  let spiritCount := countSymbol "spirit" context in
  if 3 <=? spiritCount then
    let damage := 30 in
    let p := addEffect p (Effect.lit "Spirit Guardian" (Some 2)
                            [("defense", 15); ("attack", 8)] [] []) in
    (withBonusDamage damage (activated [JS.Txt
       "SPIRIT GUARDIAN! 30 damage + summon guardian (+8 attack, +15 defense for 2 rounds)!"]),
     p)
  else (failure, p).

(** [applyPassiveAbility]: the lookup [passives[this.className]], and [{}]
    for a name that the lookup does not find.  Under a name inherited from
    [Object.prototype] the lookup finds a value that is no ability and the
    engine calls it: the call throws ([None]), except that what "constructor"
    and "toString" hand back (the context, a string) carries none of the
    fields that the turn reads, like [{}]. *)
Definition applyPassiveAbility (p : t) (context : Context) (u : JS.double)
    : option (Outcome * t) :=
  let cn := className p in
  if String.eqb cn "Blade Dancer" then Some (bladeDancerPassive p context)
  else if String.eqb cn "Geomancer" then Some (geomancerPassive p context)
  else if String.eqb cn "Shadow Priest" then Some (shadowPriestPassive p context)
  else if String.eqb cn "Pyromantic" then Some (pyromanticPassive p context)
  else if String.eqb cn "Frost Weaver" then Some (frostWeaverPassive p context)
  else if String.eqb cn "Storm Caller" then Some (stormCallerPassive p context)
  else if String.eqb cn "Nature Shaman" then Some (natureShamanPassive p context)
  else if String.eqb cn "Blood Knight" then Some (bloodKnightPassive p context)
  else if String.eqb cn "Holy Paladin" then Some (holyPaladinPassive p context)
  else if String.eqb cn "Chaos Mage" then chaosMagePassive p context u
  else if String.eqb cn "Time Weaver" then Some (timeWeaverPassive p context)
  else if String.eqb cn "Spirit Summoner" then Some (spiritSummonerPassive p context)
  else if JS.inheritedCallThrows cn then None
  else Some (noOutcome, p).

(** [activateSpecial]: the lookup [specials[this.className]], with the same
    cases for a name that the table does not list. *)
Definition activateSpecial (p : t) (context : Context) (u : JS.double)
    : option (Outcome * t) :=
  let cn := className p in
  if String.eqb cn "Blade Dancer" then Some (bladeDancerSpecial p context)
  else if String.eqb cn "Geomancer" then Some (geomancerSpecial p context)
  else if String.eqb cn "Shadow Priest" then Some (shadowPriestSpecial p context)
  else if String.eqb cn "Pyromantic" then Some (pyromanticSpecial p context)
  else if String.eqb cn "Frost Weaver" then Some (frostWeaverSpecial p context)
  else if String.eqb cn "Storm Caller" then Some (stormCallerSpecial p context)
  else if String.eqb cn "Nature Shaman" then Some (natureShamanSpecial p context)
  else if String.eqb cn "Blood Knight" then Some (bloodKnightSpecial p context)
  else if String.eqb cn "Holy Paladin" then Some (holyPaladinSpecial p context)
  else if String.eqb cn "Chaos Mage" then Some (chaosMageSpecial p context u)
  else if String.eqb cn "Time Weaver" then Some (timeWeaverSpecial p context)
  else if String.eqb cn "Spirit Summoner" then Some (spiritSummonerSpecial p context)
  else if JS.inheritedCallThrows cn then None
  else Some (noOutcome, p).

(** [(this.currentHP / this.maxHP) * 100] *)
Definition getHPPercentage (p : t) : JS.double :=
  JS.mul (JS.div (JS.of_Z (currentHP p)) (JS.of_Z (maxHP p))) (JS.of_Z 100).

End Player.

Module PlayerFactory.

(** [createPlayer(className)]: a new player over the dice of the class. *)
Definition createPlayer (ids : nat -> string) (className : string) : option Player.t :=
  diceSet ← DiceFactory.createDiceForClass ids className;
  Some (Player.new className (DiceSet.dice diceSet)).

End PlayerFactory.

(** ** Item.js: what an item does to its buyer, and the ItemFactory *)

Module ItemFactory.

(** A permanent effect [{ name, k: v, permanent: true }] with one integer field *)
Definition permInt (n k : string) (v : Z) : Effect.t :=
  Effect.lit n None [(k, v)] [] ["permanent"].

(** The same with one fractional field *)
Definition permFrac (n k : string) (v : JS.double) : Effect.t :=
  Effect.lit n None [] [(k, v)] ["permanent"].

(** The same with one flag *)
Definition permFlag (n k : string) : Effect.t :=
  Effect.lit n None [] [] [k; "permanent"].

(** [item.apply(player)], class by class *)
Definition apply (k : Item.Kind) (player : Player.t) : Player.t :=
  match k with
  | Item.SharpenedEdge => Player.setAttackBonus (Player.attackBonus player + 3) player
  | Item.BlessedBarrier => Player.setDefenseBonus (Player.defenseBonus player + 2) player
  | Item.IronPlate => Player.setDefenseBonus (Player.defenseBonus player + 5) player
  | Item.PowerGauntlets => Player.setAttackBonus (Player.attackBonus player + 5) player
  | Item.VampiricBlade => Player.addEffect player (permInt "Vampiric" "healing" 2)
  | Item.BerserkersRage =>
      let player := Player.setAttackBonus (Player.attackBonus player + 8) player in
      Player.setDefenseBonus (Player.defenseBonus player - 3) player
  | Item.TurtleShell =>
      let player := Player.setDefenseBonus (Player.defenseBonus player + 10) player in
      Player.setAttackBonus (Player.attackBonus player - 2) player
  | Item.HealthPotion => snd (Player.heal player 30)
  | Item.GreaterHealthPotion => snd (Player.heal player 50)
  | Item.MaxHealthUpgrade =>
      let player := Player.setMaxHP (Player.maxHP player + 20) player in
      Player.setCurrentHP (Player.currentHP player + 20) player
  | Item.PhoenixFeather =>
      Player.addEffect player
        (Effect.lit "Phoenix Feather" None [] [("reviveHP", JS.dec 5 10)]
                    ["revive"; "permanent"])
  | Item.RerollToken => Player.setRerollsPerRound (Player.rerollsPerRound player + 1) player
  | Item.LuckyDie => Player.addEffect player (permInt "Lucky" "diceBonus" 2)
  | Item.DiceFaceUpgrade => player
  | Item.LoadedDice => Player.addEffect player (permFlag "Loaded Dice" "firstRollMax")
  | Item.CriticalEdge => Player.setCritChance (Player.critChance player + 10) player
  | Item.SavageBlow => Player.setCritMultiplier (JS.dec 25 10) player
  | Item.GuaranteedCrit =>
      Player.addEffect player (Effect.lit "Guaranteed Crit" (Some 1) [] [] ["guaranteedCrit"])
  | Item.MagicAmplifier => Player.addEffect player (permInt "Magic Amplifier" "magicBonus" 5)
  | Item.SymbolCollector =>
      Player.addEffect player (permFrac "Symbol Collector" "symbolChance" (JS.dec 2 10))
  | Item.DoubleSymbol => Player.addEffect player (permFlag "Twin Rune" "doubleSymbols")
  | Item.ThornArmor => Player.addEffect player (permFrac "Thorns" "reflectDamage" (JS.dec 3 10))
  | Item.ShieldOfFaith => Player.addEffect player (permInt "Shield of Faith" "blockDamage" 5)
  | Item.Evasion => Player.addEffect player (permFrac "Evasion" "dodgeChance" (JS.dec 2 10))
  | Item.GoldMagnet =>
      Player.addEffect player (permFrac "Gold Magnet" "goldMultiplier" (JS.dec 15 10))
  | Item.ExtraGold => Player.addGold player 50
  | Item.MerchantDiscount =>
      Player.addEffect player (permFrac "Discount" "priceMultiplier" (JS.dec 8 10))
  | Item.BalancedBlade =>
      let player := Player.setAttackBonus (Player.attackBonus player + 3) player in
      Player.setDefenseBonus (Player.defenseBonus player + 3) player
  | Item.ChaosCrystal => Player.addEffect player (permFlag "Chaos Crystal" "randomEffect")
  | Item.BloodPact =>
      let player := Player.setMaxHP (Player.maxHP player - 5) player in
      let player := Player.setCurrentHP
                      (Z.min (Player.currentHP player) (Player.maxHP player)) player in
      Player.setAttackBonus (Player.attackBonus player + 10) player
  | Item.RegenerationRing => Player.addEffect player (permInt "Regeneration" "healPerTurn" 3)
  | Item.FocusedMind => Player.addEffect player (permFrac "Focus" "abilityBonus" (JS.dec 3 10))
  | Item.TimeWarpAmulet =>
      Player.addEffect player (Effect.lit "Time Warp" (Some 1) [] [] ["extraTurn"])
  | Item.DragonScale =>
      let player := Player.setDefenseBonus (Player.defenseBonus player + 8) player in
      Player.addEffect player (permFlag "Dragon Scale" "burnImmune")
  | Item.PoisonVial => Player.addEffect player (permInt "Poison Vial" "poisonDamage" 3)
  end.

(** [Player.addItem]: [this.items.push(item); item.apply(this)] *)
Definition addItem (player : Player.t) (item : Item.t) : Player.t :=
  apply (Item.kind item) (Player.setItems (Player.items player ++ [item]) player).

Definition Rarity_eqb (a b : Item.Rarity) : bool :=
  match a, b with
  | Item.common, Item.common | Item.rare, Item.rare
  | Item.epic, Item.epic | Item.legendary, Item.legendary => true
  | _, _ => false
  end.

Definition getItemsByRarity (r : Item.Rarity) : list Item.Kind :=
  List.filter (fun k => Rarity_eqb (Item.rarity k) r) Item.getAllItems.

(** The source of random numbers of a longer computation: the draws in the
    order in which the calls of [Math.random()] return them. *)
Definition Draws : Type := nat -> JS.double.

(** [createRandomItem(playerGold)], reading its two draws at positions
    [n] and [n + 1]. *)
Definition createRandomItem (playerGold : Z) (rand : Draws) (n : nat) : option Item.t :=
  let rarityPool :=
    (repeat Item.common 50%nat
     ++ (if 20 <=? playerGold then repeat Item.rare 30%nat else [])
     ++ (if 30 <=? playerGold then repeat Item.epic 15%nat else [])
     ++ (if 50 <=? playerGold then repeat Item.legendary 5%nat else []))%list in
  let selectedRarity :=
    JS.at_ rarityPool (JS.randomIndex (rand n) (Z.of_nat (length rarityPool))) in
  let itemsOfRarity :=
    match selectedRarity with Some r => getItemsByRarity r | None => [] end in
  let from :=
    if (length itemsOfRarity =? 0)%nat then getItemsByRarity Item.common
    else itemsOfRarity in
  ItemClass ← JS.at_ from (JS.randomIndex (rand (S n)) (Z.of_nat (length from)));
  Some (Item.new ItemClass).

(** The loop of [createMerchantInventory]: [count] rounds at most, one
    draw each, every class drawn is taken out of [availableItems]. *)
Fixpoint drawDistinct (count : nat) (availableItems : list Item.Kind)
    (rand : Draws) (n : nat) : option (list Item.t) :=
  match count, availableItems with
  | O, _ | _, [] => Some []
  | S count', _ =>
      let randomIndex := JS.randomIndex (rand n) (Z.of_nat (length availableItems)) in
      ItemClass ← JS.at_ availableItems randomIndex;
      rest ← drawDistinct count' (delete (Z.to_nat randomIndex) availableItems)
                          rand (S n);
      Some (Item.new ItemClass :: rest)
  end.

Definition createMerchantInventory (playerGold : Z) (count : nat) (rand : Draws)
    : option (list Item.t) :=
  drawDistinct count Item.getAllItems rand 0.

Definition applyDiscount (item : Item.t) (player : Player.t) : Z :=
  match Player.findEffect player "Discount" with
  | Some discountEffect =>
      match Effect.frac discountEffect "priceMultiplier" with
      | Some m => if JS.truthy_frac (Some m) then JS.times (Item.cost item) m
                  else Item.cost item
      | None => Item.cost item
      end
  | None => Item.cost item
  end.

(** The rarities in the pool that [createRandomItem] draws from, by the
    gold it is given: common always, rare from 20, epic from 30, legendary
    from 50. *)
Definition unlocked (playerGold : Z) (r : Item.Rarity) : bool :=
  match r with
  | Item.common => true
  | Item.rare => 20 <=? playerGold
  | Item.epic => 30 <=? playerGold
  | Item.legendary => 50 <=? playerGold
  end.

End ItemFactory.

(** ** Merchant.js *)

Module Merchant.

(** The class of the merchant object: [Merchant] or one of its subclasses. *)
Inductive Variant := Normal | BlackMarket | Discount | Mysterious.

Record t := mk {
  variant : Variant;
  inventory : list Item.t;
  soldItems : list Z;
  encounterCount : Z
}.

(** [new Merchant()], [new BlackMarketMerchant()], ... *)
Definition new (v : Variant) : t :=
  {| variant := v; inventory := []; soldItems := []; encounterCount := 0 |}.

(** [Math.floor(item.cost * c)] written back to the item *)
Definition reprice (c : JS.double) (item : Item.t) : Item.t :=
  Item.setCost (JS.times (Item.cost item) c) item.

(** [itemCount] calls of [createRandomItem(gold)], each followed by [price],
    which may take a third draw. *)
Fixpoint randomItems (itemCount : nat) (gold : Z) (perItem : nat)
    (price : JS.double -> Item.t -> Item.t) (rand : ItemFactory.Draws) (n : nat)
    : option (list Item.t) :=
  match itemCount with
  | O => Some []
  | S k =>
      item ← ItemFactory.createRandomItem gold rand n;
      rest ← randomItems k gold perItem price rand (n + perItem)%nat;
      Some (price (rand (n + 2)%nat) item :: rest)
  end.

(** [generateInventory(player)] with the default [itemCount] of each class *)
Definition generateInventory (m : t) (player : Player.t) (rand : ItemFactory.Draws)
    : option t :=
  inv ← match variant m with
        | Normal => ItemFactory.createMerchantInventory (Player.gold player) 3 rand
        | BlackMarket =>
            randomItems 3 (Player.gold player + 50) 2
                        (fun _ => reprice (JS.dec 12 10)) rand 0
        | Discount =>
            List.map (reprice (JS.dec 8 10)) <$>
              ItemFactory.createMerchantInventory (Player.gold player) 4 rand
        | Mysterious =>
            randomItems 3 (Player.gold player) 3
              (fun u => reprice (JS.add (JS.dec 7 10) (JS.mul u (JS.dec 6 10)))) rand 0
        end;
  Some {| variant := variant m; inventory := inv; soldItems := [];
          encounterCount := encounterCount m + 1 |}.

Record Purchase := mkPurchase {
  success : bool;
  message : JS.text;
  item : option Item.t
}.

Definition purchaseItem (m : t) (itemIndex : Z) (player : Player.t)
    : Purchase * t * Player.t :=
  if (itemIndex <? 0) || (Z.of_nat (length (inventory m)) <=? itemIndex) then
    (mkPurchase false [JS.Txt "Invalid item."] None, m, player)
  else if existsb (Z.eqb itemIndex) (soldItems m) then
    (mkPurchase false [JS.Txt "Item already sold."] None, m, player)
  else
    match JS.at_ (inventory m) itemIndex with
    | None => (mkPurchase false [JS.Txt "Invalid item."] None, m, player)
    | Some item =>
        let actualCost := ItemFactory.applyDiscount item player in
        if Player.gold player <? actualCost then
          (mkPurchase false [JS.Txt "Not enough gold!"] None, m, player)
        else
          let player := snd (Player.spendGold player actualCost) in
          let player := ItemFactory.addItem player item in
          (mkPurchase true [JS.Txt "Purchased "; JS.Txt (Item.name (Item.kind item));
                            JS.Txt " for "; JS.Num actualCost; JS.Txt " gold!"]
                      (Some item),
           {| variant := variant m; inventory := inventory m;
              soldItems := soldItems m ++ [itemIndex];
              encounterCount := encounterCount m |},
           player)
    end.

Definition isItemSold (m : t) (itemIndex : Z) : bool :=
  existsb (Z.eqb itemIndex) (soldItems m).

(** [this.inventory.filter((item, index) => !this.soldItems.includes(index))] *)
Definition getAvailableItems (m : t) : list Item.t :=
  omap (fun ix => if isItemSold m (Z.of_nat (fst ix)) then None else Some (snd ix))
       (imap pair (inventory m)).

Definition hasAvailableItems (m : t) : bool :=
  (0 <? length (getAvailableItems m))%nat.

Definition getTotalSales (m : t) : Z := Z.of_nat (length (soldItems m)).

Definition reset (m : t) : t :=
  {| variant := variant m; inventory := []; soldItems := []; encounterCount := 0 |}.

Definition greetings : list string :=
  [ "Welcome, brave adventurer! What catches your eye?";
    "Ah, a customer! I have just what you need!";
    "These wares won't last long at these prices!";
    "Looking for something special? You've come to the right place!";
    "My goods are the finest in the land!";
    "Step right up! Everything must go!";
    "Treasures from far and wide, all for you!";
    "Your gold is welcome here, friend!";
    "I've been waiting for someone like you!";
    "Rare items, fair prices!" ].

(** [getGreeting()], which the three subclasses override; [None] is the
    [undefined] that an index outside the table reads. *)
Definition getGreeting (m : t) (u : JS.double) : option string :=
  match variant m with
  | Normal => JS.at_ greetings (JS.randomIndex u (Z.of_nat (length greetings)))
  | BlackMarket =>
      Some "Psst... looking for something special? I've got the goods... for the right price."
  | Discount => Some "Special sale today! Everything at a discount!"
  | Mysterious =>
      Some "Fate has brought you to me... Let's see what destiny has in store."
  end.

Definition getContextualDialogue (m : t) (player : Player.t) (u : JS.double)
    : option string :=
  if JS.ltb (JS.of_Z (Player.currentHP player))
            (JS.mul (JS.of_Z (Player.maxHP player)) (JS.dec 3 10))
  then Some "You look hurt! Perhaps a healing potion?"
  else if 100 <? Player.gold player
  then Some "My, my! Someone's been successful! Let me show you my premium items!"
  else if Player.gold player <? 15
  then Some "A bit short on gold, eh? Come back when you've had more luck!"
  else if encounterCount m =? 1
  then Some "First time seeing you! Let me show you what I've got!"
  else getGreeting m u.

End Merchant.

Module MerchantFactory.

Definition createMerchant (encounterNumber : Z) : Merchant.t :=
  if (Z.rem encounterNumber 9 =? 0) && (0 <? encounterNumber)
  then Merchant.new Merchant.BlackMarket
  else if (Z.rem encounterNumber 6 =? 0) && (0 <? encounterNumber)
  then Merchant.new Merchant.Discount
  else if (Z.rem encounterNumber 12 =? 0) && (0 <? encounterNumber)
  then Merchant.new Merchant.Mysterious
  else Merchant.new Merchant.Normal.

Definition getMerchantAppearanceRounds : Z := 3.

End MerchantFactory.

(** ** GameManager.js *)

Module Log.

Inductive Kind := player | special | info | enemy.

Record t := mk { type : Kind; message : JS.text }.

End Log.

Module Stats.

Record t := mk {
  enemiesDefeated : Z;
  totalDamageDealt : Z;
  totalDamageTaken : Z;
  goldEarned : Z;
  itemsPurchased : Z;
  highestRound : Z;
  className : option string
}.

Definition zero (cn : option string) : t := mk 0 0 0 0 0 0 cn.

Definition setEnemiesDefeated (v : Z) (s : t) : t :=
  {| enemiesDefeated := v; totalDamageDealt := totalDamageDealt s;
     totalDamageTaken := totalDamageTaken s; goldEarned := goldEarned s;
     itemsPurchased := itemsPurchased s; highestRound := highestRound s;
     className := className s |}.

Definition setTotalDamageDealt (v : Z) (s : t) : t :=
  {| enemiesDefeated := enemiesDefeated s; totalDamageDealt := v;
     totalDamageTaken := totalDamageTaken s; goldEarned := goldEarned s;
     itemsPurchased := itemsPurchased s; highestRound := highestRound s;
     className := className s |}.

Definition setTotalDamageTaken (v : Z) (s : t) : t :=
  {| enemiesDefeated := enemiesDefeated s; totalDamageDealt :=
     totalDamageDealt s; totalDamageTaken := v; goldEarned := goldEarned s;
     itemsPurchased := itemsPurchased s; highestRound := highestRound s;
     className := className s |}.

Definition setGoldEarned (v : Z) (s : t) : t :=
  {| enemiesDefeated := enemiesDefeated s; totalDamageDealt :=
     totalDamageDealt s; totalDamageTaken := totalDamageTaken s; goldEarned
     := v; itemsPurchased := itemsPurchased s; highestRound := highestRound
     s; className := className s |}.

Definition setItemsPurchased (v : Z) (s : t) : t :=
  {| enemiesDefeated := enemiesDefeated s; totalDamageDealt :=
     totalDamageDealt s; totalDamageTaken := totalDamageTaken s; goldEarned
     := goldEarned s; itemsPurchased := v; highestRound := highestRound s;
     className := className s |}.

Definition setHighestRound (v : Z) (s : t) : t :=
  {| enemiesDefeated := enemiesDefeated s; totalDamageDealt :=
     totalDamageDealt s; totalDamageTaken := totalDamageTaken s; goldEarned
     := goldEarned s; itemsPurchased := itemsPurchased s; highestRound := v;
     className := className s |}.

End Stats.

(** A summary in the best-runs store. *)
Module RunData.

Record t := mk {
  className : option string;
  round : Z;
  enemiesDefeated : Z;
  damageDealt : Z;
  gold : Z;
  date : string
}.

(** The comparator [(a, b) => b.round - a.round] *)
Definition compare (a b : t) : Z := round b - round a.

(** [Array.prototype.sort] is stable, and under a consistent comparator a
    stable sort has one result: the one that inserting the elements from
    the right, each before the first element that it does not follow,
    produces. *)
Fixpoint insert (x : t) (l : list t) : list t :=
  match l with
  | [] => [x]
  | y :: l' => if compare x y <=? 0 then x :: y :: l' else y :: insert x l'
  end.

Fixpoint sort (l : list t) : list t :=
  match l with
  | [] => []
  | x :: l' => insert x (sort l')
  end.

End RunData.

Module GameState.

Inductive t := menu | combat | merchant | gameOver.

Definition eqb (a b : t) : bool :=
  match a, b with
  | menu, menu | combat, combat | merchant, merchant | gameOver, gameOver => true
  | _, _ => false
  end.

End GameState.

Module GameManager.

Record Assigned := mkAssigned {
  attack : option Dice.t;
  defense : option Dice.t;
  special : list Dice.t
}.

(** The fields of the manager and, next to them, what it keeps in
    [localStorage] under the key of the best runs: [None] before the first
    save.  [JSON.parse] gives back the list that [JSON.stringify] wrote. *)
Record t := mk {
  player : option Player.t;
  enemy : option Enemy.t;
  merchant : option Merchant.t;
  currentRound : Z;
  gameState : GameState.t;
  merchantEncounterCount : Z;
  rolledDice : list Dice.t;
  assignedDice : Assigned;
  hasRolled : bool;
  stats : Stats.t;
  bestRuns : option (list RunData.t)
}.

(** What a turn takes from outside the manager: the draws of the calls of
    [Math.random()] that a turn can make, each call site at most once, and
    the date that [new Date().toLocaleDateString()] gives. *)
Record Ambient := mkAmbient {
  chaosPassiveDraw : JS.double;
  chaosSpecialDraw : JS.double;
  critDraw : JS.double;
  behaviorDraw : JS.double;
  dodgeDraw : JS.double;
  spawnDraw : JS.double;
  stockDraws : ItemFactory.Draws;
  today : string
}.

(** The shapes of the object that [executeTurn] returns. *)
Inductive TurnResult :=
  | Rejected (message : string)
  | Resolved (combatLog : list Log.t) (playerHP enemyHP : Z)
  | EnemyDefeated (combatLog : list Log.t) (nextState : GameState.t)
  | PlayerDefeated (combatLog : list Log.t) (finalStats : Stats.t).

Definition success (r : TurnResult) : bool :=
  match r with Rejected _ => false | _ => true end.

Definition noDice : Assigned := mkAssigned None None [].

Definition new : t :=
  {| player := None; enemy := None; merchant := None; currentRound := 0;
     gameState := GameState.menu; merchantEncounterCount := 0; rolledDice := [];
     assignedDice := noDice; hasRolled := false; stats := Stats.zero None;
     bestRuns := None |}.

Definition setPlayer (v : option Player.t) (g : t) : t :=
  {| player := v; enemy := enemy g; merchant := merchant g; currentRound :=
     currentRound g; gameState := gameState g; merchantEncounterCount :=
     merchantEncounterCount g; rolledDice := rolledDice g; assignedDice :=
     assignedDice g; hasRolled := hasRolled g; stats := stats g; bestRuns :=
     bestRuns g |}.

Definition setEnemy (v : option Enemy.t) (g : t) : t :=
  {| player := player g; enemy := v; merchant := merchant g; currentRound :=
     currentRound g; gameState := gameState g; merchantEncounterCount :=
     merchantEncounterCount g; rolledDice := rolledDice g; assignedDice :=
     assignedDice g; hasRolled := hasRolled g; stats := stats g; bestRuns :=
     bestRuns g |}.

Definition setMerchant (v : option Merchant.t) (g : t) : t :=
  {| player := player g; enemy := enemy g; merchant := v; currentRound :=
     currentRound g; gameState := gameState g; merchantEncounterCount :=
     merchantEncounterCount g; rolledDice := rolledDice g; assignedDice :=
     assignedDice g; hasRolled := hasRolled g; stats := stats g; bestRuns :=
     bestRuns g |}.

Definition setCurrentRound (v : Z) (g : t) : t :=
  {| player := player g; enemy := enemy g; merchant := merchant g;
     currentRound := v; gameState := gameState g; merchantEncounterCount :=
     merchantEncounterCount g; rolledDice := rolledDice g; assignedDice :=
     assignedDice g; hasRolled := hasRolled g; stats := stats g; bestRuns :=
     bestRuns g |}.

Definition setGameState (v : GameState.t) (g : t) : t :=
  {| player := player g; enemy := enemy g; merchant := merchant g;
     currentRound := currentRound g; gameState := v; merchantEncounterCount
     := merchantEncounterCount g; rolledDice := rolledDice g; assignedDice :=
     assignedDice g; hasRolled := hasRolled g; stats := stats g; bestRuns :=
     bestRuns g |}.

Definition setMerchantEncounterCount (v : Z) (g : t) : t :=
  {| player := player g; enemy := enemy g; merchant := merchant g;
     currentRound := currentRound g; gameState := gameState g;
     merchantEncounterCount := v; rolledDice := rolledDice g; assignedDice :=
     assignedDice g; hasRolled := hasRolled g; stats := stats g; bestRuns :=
     bestRuns g |}.

Definition setRolledDice (v : list Dice.t) (g : t) : t :=
  {| player := player g; enemy := enemy g; merchant := merchant g;
     currentRound := currentRound g; gameState := gameState g;
     merchantEncounterCount := merchantEncounterCount g; rolledDice := v;
     assignedDice := assignedDice g; hasRolled := hasRolled g; stats := stats
     g; bestRuns := bestRuns g |}.

Definition setAssignedDice (v : Assigned) (g : t) : t :=
  {| player := player g; enemy := enemy g; merchant := merchant g;
     currentRound := currentRound g; gameState := gameState g;
     merchantEncounterCount := merchantEncounterCount g; rolledDice :=
     rolledDice g; assignedDice := v; hasRolled := hasRolled g; stats :=
     stats g; bestRuns := bestRuns g |}.

Definition setHasRolled (v : bool) (g : t) : t :=
  {| player := player g; enemy := enemy g; merchant := merchant g;
     currentRound := currentRound g; gameState := gameState g;
     merchantEncounterCount := merchantEncounterCount g; rolledDice :=
     rolledDice g; assignedDice := assignedDice g; hasRolled := v; stats :=
     stats g; bestRuns := bestRuns g |}.

Definition setStats (v : Stats.t) (g : t) : t :=
  {| player := player g; enemy := enemy g; merchant := merchant g;
     currentRound := currentRound g; gameState := gameState g;
     merchantEncounterCount := merchantEncounterCount g; rolledDice :=
     rolledDice g; assignedDice := assignedDice g; hasRolled := hasRolled g;
     stats := v; bestRuns := bestRuns g |}.

Definition setBestRuns (v : option (list RunData.t)) (g : t) : t :=
  {| player := player g; enemy := enemy g; merchant := merchant g;
     currentRound := currentRound g; gameState := gameState g;
     merchantEncounterCount := merchantEncounterCount g; rolledDice :=
     rolledDice g; assignedDice := assignedDice g; hasRolled := hasRolled g;
     stats := stats g; bestRuns := v |}.

Definition loadBestRuns (g : t) : list RunData.t := default [] (bestRuns g).

(** The object [runData] that [saveBestRun] builds. *)
Definition runData (date : string) (g : t) : RunData.t :=
  {| RunData.className := Stats.className (stats g);
     RunData.round := currentRound g - 1;
     RunData.enemiesDefeated := Stats.enemiesDefeated (stats g);
     RunData.damageDealt := Stats.totalDamageDealt (stats g);
     RunData.gold := Stats.goldEarned (stats g);
     RunData.date := date |}.

Definition saveBestRun (date : string) (g : t) : t :=
  let bestRuns := loadBestRuns g in
  let bestRuns := RunData.sort (bestRuns ++ [runData date g]) in
  let top10 := take 10 bestRuns in
  setBestRuns (Some top10) g.

Definition canExecuteTurn (g : t) : bool :=
  hasRolled g
  && (bool_decide (is_Some (attack (assignedDice g)))
      || bool_decide (is_Some (defense (assignedDice g)))
      || (0 <? Z.of_nat (length (special (assignedDice g))))).

Definition resetDiceAssignments (g : t) : t := setAssignedDice noDice g.

(** [spawnEnemy]; [None] when the factory's pick falls outside its roster. *)
Definition spawnEnemy (u : JS.double) (g : t) : option t :=
  e ← EnemyFactory.createEnemy (currentRound g) u;
  Some (resetDiceAssignments (setHasRolled false (setEnemy (Some e) g))).

(** [startNewRun(className)]; [dice] is what
    [DiceFactory.createDiceForClass(className)] builds. *)
Definition startNewRun (cn : string) (dice : list Dice.t) (u : JS.double) (g : t)
    : option t :=
  let g := setPlayer (Some (Player.new cn dice)) g in
  let g := setCurrentRound 1 g in
  let g := setGameState GameState.combat g in
  let g := setMerchantEncounterCount 0 g in
  let g := setHasRolled false g in
  let g := setStats (Stats.zero (Some cn)) g in
  spawnEnemy u g.

(** [diceSet.rollAll()]: the die at position [i] takes the draw [rand i]. *)
Definition rollAll (dice : list Dice.t) (rand : ItemFactory.Draws) : list Dice.t :=
  imap (fun i d => Dice.roll d (rand i)) dice.

Definition rollDice (rand : ItemFactory.Draws) (g : t) : bool * t :=
  match player g with
  | Some p =>
      if GameState.eqb (gameState g) GameState.combat then
        let g := resetDiceAssignments (setRolledDice [] g) in
        let dice := rollAll (Player.diceSet p) rand in
        let p := {| Player.className := Player.className p; Player.diceSet := dice;
                    Player.maxHP := Player.maxHP p; Player.currentHP := Player.currentHP p;
                    Player.gold := Player.gold p; Player.attackBonus := Player.attackBonus p;
                    Player.defenseBonus := Player.defenseBonus p;
                    Player.critChance := Player.critChance p;
                    Player.critMultiplier := Player.critMultiplier p;
                    Player.effects := Player.effects p; Player.items := Player.items p;
                    Player.rerollsPerRound := Player.rerollsPerRound p;
                    Player.rerollsUsed := Player.rerollsUsed p;
                    Player.specialCounters := Player.specialCounters p |} in
        (true, setHasRolled true (setRolledDice dice (setPlayer (Some p) g)))
      else (false, g)
  | None => (false, g)
  end.

Definition rerollDice (rand : ItemFactory.Draws) (g : t) : option (bool * t) :=
  p ← player g;
  if Player.canReroll p
  then Some (rollDice rand (setPlayer (Some (snd (Player.useReroll p))) g))
  else Some (false, g).

Definition idIs (dieId : string) (d : Dice.t) : bool := String.eqb (Dice.id d) dieId.

Definition removeDieFromAllSlots (dieId : string) (g : t) : t :=
  let a := assignedDice g in
  let keep (slot : option Dice.t) :=
    match slot with
    | Some d => if idIs dieId d then None else Some d
    | None => None
    end in
  setAssignedDice
    {| attack := keep (attack a); defense := keep (defense a);
       special := List.filter (fun d => negb (idIs dieId d)) (special a) |} g.

Definition assignDie (dieId slot : string) (g : t) : bool * t :=
  match List.find (idIs dieId) (rolledDice g) with
  | Some die =>
      if Dice.isRolled die then
        let g := removeDieFromAllSlots dieId g in
        let a := assignedDice g in
        let a :=
          if String.eqb slot "attack"
          then {| attack := Some die; defense := defense a; special := special a |}
          else if String.eqb slot "defense"
          then {| attack := attack a; defense := Some die; special := special a |}
          else if String.eqb slot "special"
          then {| attack := attack a; defense := defense a; special := special a ++ [die] |}
          else a in
        (true, setAssignedDice a g)
      else (false, g)
  | None => (false, g)
  end.

(** [executeTurn], in the order of the source. *)

(** The value of a slot: the face of its die when the face is of the
    slot's kind, 0 otherwise. *)
Definition slotValue (ty : Dice.FaceType) (slot : option Dice.t) : Z :=
  match slot with
  | Some die => if Dice.faceTypeIs ty die then Dice.getFaceValue die else 0
  | None => 0
  end.

(** [if (r.k) total += r.k] *)
Definition addIf (total : Z) (o : option Z) : Z :=
  if JS.truthy o then total + default 0 o else total.

Definition say (k : Log.Kind) (m : JS.text) (log : list Log.t) : list Log.t :=
  log ++ [Log.mk k m].

(** The running totals of a turn. *)
Record Tally := mkTally {
  attackValue : Z;
  defenseValue : Z;
  combatLog : list Log.t
}.

(** Folding the passive's result into the totals. *)
Definition foldPassive (r : Player.Outcome) (c : Tally) : Tally :=
  let log := match Player.message r with
             | Some m => say Log.player m (combatLog c)
             | None => combatLog c
             end in
  {| attackValue := addIf (attackValue c) (Player.bonusDamage r);
     defenseValue := addIf (defenseValue c) (Player.bonusDefense r);
     combatLog := log |}.

(** Folding the result of a special that succeeded: the totals, and the
    enemy with the effect that the special applies. *)
Definition foldSpecial (r : Player.Outcome) (critMultiplier : JS.double)
    (e : Enemy.t) (c : Tally) : Tally * Enemy.t :=
  let log := say Log.special (default [] (Player.message r)) (combatLog c) in
  let av := addIf (attackValue c) (Player.bonusDamage r) in
  let av := if JS.truthy (Player.damage r) then default 0 (Player.damage r) else av in
  let dv := addIf (defenseValue c) (Player.bonusDefense r) in
  let av := if Player.isCrit r then JS.times av critMultiplier else av in
  let e := match Player.applyEffect r with
           | Some eff => Enemy.addEffect e eff
           | None => e
           end in
  let log := if Player.skipEnemyTurn r
             then say Log.info [JS.Txt "Enemy is frozen in time!"] log else log in
  ({| attackValue := av; defenseValue := dv; combatLog := log |}, e).

(** The values of the Attack and Defense slots with the player's bonuses,
    and the context built from them. *)
Definition combatContext (assigned : Assigned) (round : Z) (p : Player.t)
    : Player.Context :=
  let attackValue := slotValue Dice.attack (attack assigned)
                     + Player.getTotalAttackBonus p in
  let defenseValue := slotValue Dice.defense (defense assigned)
                      + Player.getTotalDefenseBonus p in
  {| Player.attackValue := attackValue; Player.defenseValue := defenseValue;
     Player.specialDice := special assigned; Player.round := round |}.

(** The passive, then the special when the Special slot holds dice. *)
Definition resolveAbilities (a : Ambient) (assigned : Assigned)
    (round : Z) (p : Player.t) (e : Enemy.t)
    : option (Tally * bool * Player.t * Enemy.t) :=
  let combatContext := combatContext assigned round p in
  let attackValue := Player.attackValue combatContext in
  let defenseValue := Player.defenseValue combatContext in
  '(passiveResult, p) ← Player.applyPassiveAbility p combatContext (chaosPassiveDraw a);
  let c := foldPassive passiveResult (mkTally attackValue defenseValue []) in
  if 0 <? Z.of_nat (length (special assigned)) then
    '(specialResult, p) ← Player.activateSpecial p combatContext (chaosSpecialDraw a);
    if Player.succeeded specialResult then
      let '(c, e) := foldSpecial specialResult (Player.critMultiplier p) e c in
      Some (c, true, p, e)
    else Some (c, false, p, e)
  else Some (c, false, p, e).

(** The critical strike roll. *)
Definition rollCritical (a : Ambient) (p : Player.t) (c : Tally) : Tally :=
  let critRoll := JS.mul (critDraw a) (JS.of_Z 100) in
  if JS.ltb critRoll (JS.of_Z (Player.critChance p)) && (0 <? attackValue c) then
    {| attackValue := JS.times (attackValue c) (Player.critMultiplier p);
       defenseValue := defenseValue c;
       combatLog := say Log.special [JS.Txt "CRITICAL HIT!"] (combatLog c) |}
  else c.

(** The player's attack on the enemy; the second component is the damage
    dealt, for the statistics. *)
Definition strikeEnemy (p : Player.t) (e : Enemy.t) (c : Tally)
    : list Log.t * Z * Enemy.t :=
  if 0 <? attackValue c then
    let '(damageDealt, e) := Enemy.takeDamage e (attackValue c) in
    let log := say Log.player [JS.Txt "You deal "; JS.Num damageDealt; JS.Txt " damage!"]
                   (combatLog c) in
    let log :=
      match Player.findEffect p "Thorns" with
      | Some thornEffect =>
          match Effect.frac thornEffect "reflectDamage" with
          | Some r =>
              if JS.truthy_frac (Some r) then
                say Log.player [JS.Txt "Thorns reflect "; JS.Num (JS.times damageDealt r);
                                JS.Txt " damage!"] log
              else log
          | None => log
          end
      | None => log
      end in
    (log, damageDealt, e)
  else (say Log.info [JS.Txt "You defend."] (combatLog c), 0, e).

(** [m || d] for an optional string *)
Definition orElse (m : option string) (d : string) : string :=
  match m with
  | Some EmptyString | None => d
  | Some t => t
  end.

(** The enemy's attack on the player: defence, Shield of Faith, Evasion,
    the divine shield, then [takeDamage].  The result carries the damage
    taken, for the statistics. *)
Definition sufferAttack (a : Ambient) (enemyAction : Action.t) (enemyName : string)
    (defenseValue : Z) (p : Player.t) (log : list Log.t)
    : list Log.t * Z * Player.t :=
  let enemyDamage := Action.value enemyAction in
  let mitigatedDamage := Z.max 0 (enemyDamage - defenseValue) in
  let mitigatedDamage :=
    match Player.findEffect p "Shield of Faith" with
    | Some shieldEffect =>
        if JS.truthy (Effect.int shieldEffect "blockDamage")
        then Z.max 0 (mitigatedDamage - default 0 (Effect.int shieldEffect "blockDamage"))
        else mitigatedDamage
    | None => mitigatedDamage
    end in
  let '(log, mitigatedDamage) :=
    match Player.findEffect p "Evasion" with
    | Some evasionEffect =>
        match Effect.frac evasionEffect "dodgeChance" with
        | Some chance =>
            if JS.truthy_frac (Some chance) && JS.ltb (dodgeDraw a) chance
            then (say Log.player [JS.Txt "You dodged the attack!"] log, 0)
            else (log, mitigatedDamage)
        | None => (log, mitigatedDamage)
        end
    | None => (log, mitigatedDamage)
    end in
  if 0 <? mitigatedDamage then
    let '(log, mitigatedDamage, p) :=
      if 0 <? Player.counter p "divineShield" then
        let absorbed := Z.min mitigatedDamage (Player.counter p "divineShield") in
        (say Log.player [JS.Txt "Divine Shield absorbs "; JS.Num absorbed; JS.Txt " damage!"]
             log,
         mitigatedDamage - absorbed,
         Player.setCounter "divineShield" (Player.counter p "divineShield" - absorbed) p)
      else (log, mitigatedDamage, p) in
    let '(actualDamage, p) := Player.takeDamage p mitigatedDamage in
    let actionMessage := orElse (Action.message enemyAction) (enemyName +:+ " attacks") in
    (say Log.enemy [JS.Txt actionMessage; JS.Txt " for "; JS.Num actualDamage;
                    JS.Txt " damage!"] log,
     actualDamage, p)
  else (say Log.player [JS.Txt "You blocked all damage!"] log, 0, p).

(** The enemy's turn: [executeAction] and the branch on the action's type. *)
Definition enemyTurn (a : Ambient) (defenseValue : Z) (p : Player.t) (e : Enemy.t)
    (log : list Log.t) : list Log.t * Z * Player.t * Enemy.t :=
  let '(enemyAction, e) := EnemyFactory.executeAction e (behaviorDraw a) in
  match Action.type enemyAction with
  | Action.attack =>
      let '(log, taken, p) :=
        sufferAttack a enemyAction (Enemy.name e) defenseValue p log in
      let '(log, p) :=
        if JS.truthy (Action.poison enemyAction) then
          let n := default 0 (Action.poison enemyAction) in
          (say Log.enemy [JS.Txt "You are poisoned! ("; JS.Num n; JS.Txt " damage/turn)"] log,
           Player.addEffect p (Effect.lit "Poison" (Some 3) [("damage", n)] [] []))
        else (log, p) in
      let '(log, p) :=
        if JS.truthy (Action.burn enemyAction) then
          let n := default 0 (Action.burn enemyAction) in
          (say Log.enemy [JS.Txt "You are burning! ("; JS.Num n; JS.Txt " damage/turn)"] log,
           Player.addEffect p (Effect.lit "Burn" (Some 3) [("damage", n)] [] []))
        else (log, p) in
      match Action.lifeSteal enemyAction with
      | Some f =>
          if JS.truthy_frac (Some f) then
            let healAmount := JS.times (Action.value enemyAction) f in
            (say Log.enemy [JS.Txt (Enemy.name e); JS.Txt " heals "; JS.Num healAmount;
                            JS.Txt " HP!"] log,
             taken, p, snd (Enemy.heal e healAmount))
          else (log, taken, p, e)
      | None => (log, taken, p, e)
      end
  | Action.heal =>
      let '(healAmount, e') := Enemy.heal e (Action.value enemyAction) in
      let actionMessage := orElse (Action.message enemyAction) (Enemy.name e +:+ " heals") in
      (say Log.enemy [JS.Txt actionMessage; JS.Txt " for "; JS.Num healAmount; JS.Txt " HP!"]
           log, 0, p, e')
  | Action.defend =>
      let actionMessage := orElse (Action.message enemyAction) (Enemy.name e +:+ " defends") in
      (say Log.enemy [JS.Txt actionMessage] log, 0, p, e)
  | Action.revive => (log, 0, p, e)
  end.

(** The tick of the player's effects and the Regeneration heal. *)
Definition playerUpkeep (p : Player.t) (log : list Log.t) : list Log.t * Player.t :=
  let p := Player.updateEffects p in
  match List.find (fun e => Effect.nameIs "Regeneration" e
                            && JS.truthy (Effect.int e "healPerTurn"))
                  (Player.effects p) with
  | Some regenEffect =>
      let '(healAmount, p) := Player.heal p (default 0 (Effect.int regenEffect "healPerTurn")) in
      if 0 <? healAmount
      then (say Log.player [JS.Txt "Regeneration heals "; JS.Num healAmount; JS.Txt " HP!"] log,
            p)
      else (log, p)
  | None => (log, p)
  end.

(** [handleEnemyDefeat(combatLog)]; [g] holds the player and the enemy as
    the turn left them. *)
Definition handleEnemyDefeat (a : Ambient) (p : Player.t) (e : Enemy.t)
    (combatLog : list Log.t) (g : t) : option (TurnResult * t) :=
  let st := Stats.setEnemiesDefeated (Stats.enemiesDefeated (stats g) + 1) (stats g) in
  let goldReward := Enemy.goldReward e in
  let goldReward :=
    match Player.findEffect p "Gold Magnet" with
    | Some goldMagnet =>
        match Effect.frac goldMagnet "goldMultiplier" with
        | Some m => if JS.truthy_frac (Some m) then JS.times goldReward m else goldReward
        | None => goldReward
        end
    | None => goldReward
    end in
  let p := Player.addGold p goldReward in
  let st := Stats.setGoldEarned (Stats.goldEarned st + goldReward) st in
  let combatLog :=
    say Log.special [JS.Txt (Enemy.name e); JS.Txt " defeated! +"; JS.Num goldReward;
                     JS.Txt " gold"] combatLog in
  let g := setCurrentRound (currentRound g + 1) g in
  let st := Stats.setHighestRound (Z.max (Stats.highestRound st) (currentRound g)) st in
  let g := setStats st (setPlayer (Some p) (setEnemy (Some e) g)) in
  '(combatLog, g) ←
    (if Z.rem (currentRound g) 3 =? 0 then
       let g := setGameState GameState.merchant g in
       let g := setMerchantEncounterCount (merchantEncounterCount g + 1) g in
       m ← Merchant.generateInventory
              (MerchantFactory.createMerchant (merchantEncounterCount g)) p (stockDraws a);
       Some (say Log.info [JS.Txt "A traveling merchant appears!"] combatLog,
             setMerchant (Some m) g)
     else
       g ← spawnEnemy (spawnDraw a) g;
       Some (combatLog, g));
  let g := resetDiceAssignments (setHasRolled false g) in
  let g := setPlayer (Some (Player.resetRerolls p)) g in
  Some (EnemyDefeated combatLog (gameState g), g).

(** [handlePlayerDefeat(combatLog)] *)
Definition handlePlayerDefeat (a : Ambient) (combatLog : list Log.t) (g : t)
    : TurnResult * t :=
  let g := setGameState GameState.gameOver g in
  let g := saveBestRun (today a) g in
  (PlayerDefeated (say Log.enemy [JS.Txt "You have been defeated..."] combatLog) (stats g),
   g).

Definition executeTurn (a : Ambient) (g : t) : option (TurnResult * t) :=
  if negb (canExecuteTurn g) then
    Some (Rejected "Assign at least one die before executing turn.", g)
  else
    p ← player g;
    e ← enemy g;
    '(c, specialActivated, p, e) ←
      resolveAbilities a (assignedDice g) (currentRound g) p e;
    let c := rollCritical a p c in
    let '(log, damageDealt, e) := strikeEnemy p e c in
    let g := setStats (Stats.setTotalDamageDealt
                         (Stats.totalDamageDealt (stats g) + damageDealt) (stats g)) g in
    if negb (Enemy.isAlive e) then handleEnemyDefeat a p e log g
    else
      let e := Enemy.updateEffects e in
      let skipEnemyTurn :=
        (0 <? Z.of_nat (length (special (assignedDice g))))
        && String.eqb (Player.className p) "Time Weaver" && specialActivated in
      let '(log, taken, p, e) :=
        if negb skipEnemyTurn then enemyTurn a (defenseValue c) p e log
        else (log, 0, p, e) in
      let g := setStats (Stats.setTotalDamageTaken
                           (Stats.totalDamageTaken (stats g) + taken) (stats g)) g in
      let '(log, p) := playerUpkeep p log in
      let g := setPlayer (Some p) (setEnemy (Some e) g) in
      if negb (Player.isAlive p) then Some (handlePlayerDefeat a log g)
      else
        let g := resetDiceAssignments (setHasRolled false g) in
        let g := setPlayer (Some (Player.resetRerolls p)) g in
        Some (Resolved log (Player.currentHP p) (Enemy.currentHP e), g).

Definition purchaseItem (itemIndex : Z) (g : t) : option (Merchant.Purchase * t) :=
  let noMerchant := Merchant.mkPurchase false [JS.Txt "No merchant available."] None in
  match merchant g with
  | Some m =>
      if GameState.eqb (gameState g) GameState.merchant then
        p ← player g;
        let '(result, m, p) := Merchant.purchaseItem m itemIndex p in
        let g := setPlayer (Some p) (setMerchant (Some m) g) in
        let g := if Merchant.success result
                 then setStats (Stats.setItemsPurchased
                                  (Stats.itemsPurchased (stats g) + 1) (stats g)) g
                 else g in
        Some (result, g)
      else Some (noMerchant, g)
  | None => Some (noMerchant, g)
  end.

Definition leaveMerchant (u : JS.double) (g : t) : option (bool * t) :=
  if negb (GameState.eqb (gameState g) GameState.merchant) then Some (false, g)
  else
    g ← spawnEnemy u (setGameState GameState.combat g);
    Some (true, g).

Definition resetGame (g : t) : t :=
  let g := setPlayer None (setEnemy None (setMerchant None g)) in
  let g := setCurrentRound 0 (setGameState GameState.menu g) in
  resetDiceAssignments (setHasRolled false (setMerchantEncounterCount 0 g)).

(** [slot && slot.id === dieId] *)
Definition slotHolds (dieId : string) (slot : option Dice.t) : bool :=
  match slot with
  | Some d => idIs dieId d
  | None => false
  end.

Definition unassignDie (dieId slot : string) (g : t) : bool * t :=
  let a := assignedDice g in
  if String.eqb slot "attack" && slotHolds dieId (attack a) then
    (true, setAssignedDice {| attack := None; defense := defense a; special := special a |} g)
  else if String.eqb slot "defense" && slotHolds dieId (defense a) then
    (true, setAssignedDice {| attack := attack a; defense := None; special := special a |} g)
  else if String.eqb slot "special" then
    match JS.findIndex (idIs dieId) (special a) with
    | Some index =>
        (true, setAssignedDice {| attack := attack a; defense := defense a;
                                  special := delete index (special a) |} g)
    | None => (false, g)
    end
  else (false, g).

Definition getBestRuns (g : t) : list RunData.t := loadBestRuns g.

Definition getAssignedDiceCount (g : t) : Z :=
  let a := assignedDice g in
  let count := 0 in
  let count := match attack a with Some _ => count + 1 | None => count end in
  let count := match defense a with Some _ => count + 1 | None => count end in
  count + Z.of_nat (length (special a)).

(** The list [assignedIds] that [getUnassignedDice] collects. *)
Definition assignedIds (a : Assigned) : list string :=
  option_list (Dice.id <$> attack a) ++ option_list (Dice.id <$> defense a)
  ++ (Dice.id <$> special a).

Definition getUnassignedDice (g : t) : list Dice.t :=
  let assignedIds := assignedIds (assignedDice g) in
  List.filter (fun d => negb (existsb (String.eqb (Dice.id d)) assignedIds)) (rolledDice g).

Definition calculateTotalAttackValue (g : t) : Z :=
  slotValue Dice.attack (attack (assignedDice g))
  + match player g with Some p => Player.getTotalAttackBonus p | None => 0 end.

Definition calculateTotalDefenseValue (g : t) : Z :=
  slotValue Dice.defense (defense (assignedDice g))
  + match player g with Some p => Player.getTotalDefenseBonus p | None => 0 end.

(** The object that [getGameState] returns. *)
Module PlayerView.
Record t := mk {
  className : string;
  currentHP : Z;
  maxHP : Z;
  gold : Z;
  attackBonus : Z;
  defenseBonus : Z;
  effects : list Effect.t;
  rerollsRemaining : Z;
  specialCounters : gmap string Z
}.
End PlayerView.

Module EnemyView.
Record t := mk {
  name : string;
  type : Enemy.EnemyType;
  currentHP : Z;
  maxHP : Z;
  attack : Z;
  defense : Z;
  effects : list Effect.t;
  nextAction : Action.t
}.
End EnemyView.

Module DiceView.
Record t := mk {
  rolled : list Dice.t;
  assigned : Assigned;
  hasRolled : bool
}.
End DiceView.

Module MerchantView.
Record t := mk {
  inventory : list Item.t;
  soldItems : list Z;
  greeting : option string
}.
End MerchantView.

Module View.
Record t := mk {
  state : GameState.t;
  round : Z;
  player : option PlayerView.t;
  enemy : option EnemyView.t;
  dice : DiceView.t;
  merchant : option MerchantView.t
}.
End View.

(** [getGameState()].  The entry [nextAction] of the enemy is a call of
    [this.enemy.getNextAction()], which runs the behaviour on the enemy
    ([u] is the draw that the Imp's behaviour takes) after the other
    entries were read; the result carries the manager with the enemy as
    that call leaves it.  [v] is the draw of the greeting.  The greeting of
    a merchant reads the player: [None] when there is a merchant and no
    player. *)
Definition getGameState (u v : JS.double) (g : t) : option (View.t * t) :=
  let playerView :=
    match player g with
    | Some p =>
        Some {| PlayerView.className := Player.className p;
                PlayerView.currentHP := Player.currentHP p;
                PlayerView.maxHP := Player.maxHP p;
                PlayerView.gold := Player.gold p;
                PlayerView.attackBonus := Player.getTotalAttackBonus p;
                PlayerView.defenseBonus := Player.getTotalDefenseBonus p;
                PlayerView.effects := Player.effects p;
                PlayerView.rerollsRemaining := Player.rerollsPerRound p - Player.rerollsUsed p;
                PlayerView.specialCounters := Player.specialCounters p |}
    | None => None
    end in
  let '(enemyView, enemy') :=
    match enemy g with
    | Some e =>
        let '(nextAction, e') := EnemyFactory.getNextAction e u in
        (Some {| EnemyView.name := Enemy.name e;
                 EnemyView.type := Enemy.type e;
                 EnemyView.currentHP := Enemy.currentHP e;
                 EnemyView.maxHP := Enemy.maxHP e;
                 EnemyView.attack := Enemy.getTotalAttack e;
                 EnemyView.defense := Enemy.getTotalDefense e;
                 EnemyView.effects := Enemy.effects e;
                 EnemyView.nextAction := nextAction |},
         Some e')
    | None => (None, None)
    end in
  let diceView :=
    {| DiceView.rolled := rolledDice g; DiceView.assigned := assignedDice g;
       DiceView.hasRolled := hasRolled g |} in
  merchantView ←
    match merchant g with
    | Some m =>
        p ← player g;
        Some (Some {| MerchantView.inventory := Merchant.inventory m;
                      MerchantView.soldItems := Merchant.soldItems m;
                      MerchantView.greeting := Merchant.getContextualDialogue m p v |})
    | None => Some None
    end;
  Some ({| View.state := gameState g; View.round := currentRound g;
           View.player := playerView; View.enemy := enemyView;
           View.dice := diceView; View.merchant := merchantView |},
        setEnemy enemy' g).

End GameManager.

(** ** The calls that the page makes on the manager

    main.js keeps one manager and calls its methods from the handlers of
    the page: [startNewRun] from the class cards, [rollDice], [assignDie],
    [unassignDie] and [executeTurn] from the combat screen, [purchaseItem]
    and [leaveMerchant] from the merchant's window, [handlePlayerDefeat]
    with an empty log from the surrender button, [resetGame] from the end
    and pause windows, and [getGameState] at every refresh of the page.
    A call that throws has no successor here. *)

Module Session.

Inductive Call :=
  | StartNewRun (className : string) (dice : list Dice.t) (u : JS.double)
  | RollDice (rand : ItemFactory.Draws)
  | RerollDice (rand : ItemFactory.Draws)
  | AssignDie (dieId slot : string)
  | UnassignDie (dieId slot : string)
  | ExecuteTurn (a : GameManager.Ambient)
  | PurchaseItem (itemIndex : Z)
  | LeaveMerchant (u : JS.double)
  | HandlePlayerDefeat (a : GameManager.Ambient)
  | GetGameState (u v : JS.double)
  | ResetGame.

Definition call (c : Call) (g : GameManager.t) : option GameManager.t :=
  match c with
  | StartNewRun className dice u => GameManager.startNewRun className dice u g
  | RollDice rand => Some (snd (GameManager.rollDice rand g))
  | RerollDice rand => snd <$> GameManager.rerollDice rand g
  | AssignDie dieId slot => Some (snd (GameManager.assignDie dieId slot g))
  | UnassignDie dieId slot => Some (snd (GameManager.unassignDie dieId slot g))
  | ExecuteTurn a => snd <$> GameManager.executeTurn a g
  | PurchaseItem itemIndex => snd <$> GameManager.purchaseItem itemIndex g
  | LeaveMerchant u => snd <$> GameManager.leaveMerchant u g
  | HandlePlayerDefeat a => Some (snd (GameManager.handlePlayerDefeat a [] g))
  | GetGameState u v => snd <$> GameManager.getGameState u v g
  | ResetGame => Some (GameManager.resetGame g)
  end.

(** The states of a session: the manager that the page builds on load,
    over whatever the store of best runs holds, and every state that a
    call leads to. *)
Inductive reachable : GameManager.t -> Prop :=
  | reachable_new (stored : option (list RunData.t)) :
      reachable (GameManager.setBestRuns stored GameManager.new)
  | reachable_call (c : Call) (g g' : GameManager.t) :
      reachable g -> call c g = Some g' -> reachable g'.

(** A sequence of calls, from the left. *)
Fixpoint calls (cs : list Call) (g : GameManager.t) : option GameManager.t :=
  match cs with
  | [] => Some g
  | c :: cs' => g' ← call c g; calls cs' g'
  end.

End Session.

(** ** Invariants of a session *)

Module Invariant.

(** What a call leaves alone when it does not end a fight: the round, the
    merchant and its counter, the dice rolled, and the two statistics that
    follow the round. *)
Definition sameRun (g g' : GameManager.t) : Prop :=
  GameManager.currentRound g' = GameManager.currentRound g
  /\ GameManager.merchantEncounterCount g' = GameManager.merchantEncounterCount g
  /\ GameManager.merchant g' = GameManager.merchant g
  /\ GameManager.rolledDice g' = GameManager.rolledDice g
  /\ Stats.enemiesDefeated (GameManager.stats g') = Stats.enemiesDefeated (GameManager.stats g)
  /\ Stats.highestRound (GameManager.stats g') = Stats.highestRound (GameManager.stats g).

(** The merchant counter follows the round, and a manager in the merchant
    state is at a round that 3 divides, with the merchant that the factory
    makes for the counter. *)
Definition cadence (g : GameManager.t) : Prop :=
  0 <= GameManager.currentRound g
  /\ GameManager.merchantEncounterCount g = GameManager.currentRound g / 3
  /\ (GameManager.gameState g = GameState.merchant ->
      3 <= GameManager.currentRound g
      /\ GameManager.currentRound g mod 3 = 0
      /\ exists m, GameManager.merchant g = Some m
           /\ Merchant.variant m
              = Merchant.variant
                  (MerchantFactory.createMerchant (GameManager.merchantEncounterCount g))).

(** While there is a player, the statistics follow the round. *)
Definition tally (g : GameManager.t) : Prop :=
  is_Some (GameManager.player g) ->
  1 <= GameManager.currentRound g
  /\ Stats.enemiesDefeated (GameManager.stats g) = GameManager.currentRound g - 1
  /\ Stats.highestRound (GameManager.stats g)
     = (if GameManager.currentRound g =? 1 then 0 else GameManager.currentRound g).

(** The sold list of a merchant names positions of its inventory, each
    once. *)
Definition stock (m : Merchant.t) : Prop :=
  NoDup (Merchant.soldItems m)
  /\ Forall (fun i => 0 <= i < Z.of_nat (length (Merchant.inventory m))) (Merchant.soldItems m).

(** The dice in the three slots. *)
Definition inSlots (a : GameManager.Assigned) : list Dice.t :=
  option_list (GameManager.attack a) ++ option_list (GameManager.defense a)
  ++ GameManager.special a.

(** No identifier sits in two slots, or twice in the Special slot, and
    every die in a slot is one of the dice rolled. *)
Definition slots (g : GameManager.t) : Prop :=
  NoDup (Dice.id <$> inSlots (GameManager.assignedDice g))
  /\ forall d, d ∈ inSlots (GameManager.assignedDice g) -> d ∈ GameManager.rolledDice g.

(** In the merchant state no roll is pending. *)
Definition idle (g : GameManager.t) : Prop :=
  GameManager.gameState g = GameState.merchant -> GameManager.hasRolled g = false.

Definition holds (g : GameManager.t) : Prop :=
  cadence g /\ tally g
  /\ (forall m, GameManager.merchant g = Some m -> stock m)
  /\ slots g /\ idle g.

(** What a fight leaves alone in the player: the class, the dice (up to
    their rolls), the maximum of the hit points, the flat bonuses, the
    multiplier of a critical strike, the items and the allowance of
    rerolls. *)
Definition sameKit (p p' : Player.t) : Prop :=
  Player.className p' = Player.className p
  /\ Player.maxHP p' = Player.maxHP p
  /\ Player.attackBonus p' = Player.attackBonus p
  /\ Player.defenseBonus p' = Player.defenseBonus p
  /\ Player.critMultiplier p' = Player.critMultiplier p
  /\ Player.items p' = Player.items p
  /\ Player.rerollsPerRound p' = Player.rerollsPerRound p.



End Invariant.

(** ** The wording of the specification

    Definitions that follow the sentences of the specification, to be
    compared with the functions above. *)

Module Spec.

(** "Discount when n is a multiple of 6, BlackMarket when n is a multiple of
    9, Mysterious when n is a multiple of 12, otherwise Normal", the first
    modulus in the enumerated order (6, then 9, then 12) winning. *)
Definition variantInEnumeratedOrder (n : Z) : Merchant.Variant :=
  if n mod 6 =? 0 then Merchant.Discount
  else if n mod 9 =? 0 then Merchant.BlackMarket
  else if n mod 12 =? 0 then Merchant.Mysterious
  else Merchant.Normal.

(** "Boss when r mod 10 == 0, else Elite when r mod 5 == 0, else Minion" *)
Definition categoryOfRound (r : Z) : Enemy.EnemyType :=
  if r mod 10 =? 0 then Enemy.boss
  else if r mod 5 =? 0 then Enemy.elite
  else Enemy.minion.

(** "floor(base × (1 + r×0.15))": the product is [base × (100 + 15 r) / 100],
    rounded down. *)
Definition scale (base r : Z) : Z := (base * (100 + 15 * r)) / 100.

(** "base × (1 + r×0.15)" is a whole number. *)
Definition wholeProduct (base r : Z) : Prop := (base * (100 + 15 * r)) mod 100 = 0.

(** A scaled value within one of the formula: the floor of the formula,
    or the number below it where the product is a whole number. *)
Definition scaledWithin (base r v : Z) : Prop :=
  v = scale base r \/ (v = scale base r - 1 /\ wholeProduct base r).

(** "an effect named Frozen with attackReduction=0.5 and duration=2" *)
Definition frozen : Effect.t :=
  Effect.lit "Frozen" (Some 2) [] [("attackReduction", JS.dec 5 10)] [].

(** "multiplied by (1 − 0.5) with integer floor" *)
Definition halved (v : Z) : Z :=
  JS.floor (JS.mul (JS.of_Z v) (JS.sub (JS.of_Z 1) (JS.dec 5 10))).




(** "stored ... += n", "heal n" (never above the maximum) and
    "self-damage n" (never below 0). *)
Definition stored (k : string) (n : Z) (p : Player.t) : Player.t :=
  Player.setCounter k (Player.counter p k + n) p.



(** "heal floor(attackValue×0.3×count)", the products taken from the left
    in the numbers of the engine. *)
Definition lifeSteal (attackValue count : Z) : Z :=
  JS.floor (JS.mul (JS.mul (JS.of_Z attackValue) (JS.dec 3 10)) (JS.of_Z count)).



(** "sorted descending by rounds-survived" *)
Definition sortedByRounds (l : list RunData.t) : Prop :=
  StronglySorted (fun a b => RunData.round b <= RunData.round a) l.

(** What one tick of an effect takes from an enemy of defence [d] at [h]
    hit points, as the specification words it: the damage per tick less the
    defence, and no more than the enemy has. *)
Definition tickedHP (d : Z) (h : Z) (eff : Effect.t) : Z :=
  Z.max 0 (h - Z.max 0 (default 0 (Effect.int eff "damage") - d)).

(** [scaledWithin], decided. *)
Definition scaledWithinb (base r v : Z) : bool :=
  (v =? scale base r)
  || ((v =? scale base r - 1) && ((base * (100 + 15 * r)) mod 100 =? 0)).

(** The archetypes of the three rosters. *)
Definition archetypes : list Archetype :=
  [Goblin; Skeleton; Rat; Bat; Slime; Zombie; Wolf; Spider; Bandit; Cultist; Imp; Ghost;
   Wisp; Mushroom; Crab; Snake; Scorpion; Harpy; Gremlin; Shadowling; FireElemental;
   IceElemental; WindElemental; EarthElemental; CorruptedKnight;
   StoneGolem; DarkMage; Berserker; Necromancer; Assassin; Warlock; Vampire; Werewolf;
   Minotaur; Hydra; Phoenix; FrostGiant; DemonLord; DragonKnight; Lich;
   Dragon; DemonKing; AncientLich; TitanGolem; VoidLord; Archmage; DarkOverlord;
   CelestialBeing; EldritchHorror; PrimordialBeast].

(** The rounds 1 to [n], and the check of [scaledWithin] on what
    [scaleStats] makes of every archetype in one round. *)
Definition rounds (n : nat) : list Z := Z.of_nat <$> seq 1 n.

Definition scaledWithinInRound (r : Z) : bool :=
  let multiplier := JS.add (JS.of_Z 1) (JS.mul (JS.of_Z r) (JS.dec 15 100)) in
  forallb (fun b =>
      let '(baseHP, baseAttack) := EnemyFactory.baseStats b in
      scaledWithinb baseHP r (JS.floor (JS.mul (JS.of_Z baseHP) multiplier))
      && scaledWithinb baseAttack r (JS.floor (JS.mul (JS.of_Z baseAttack) multiplier)))
    archetypes.

(** What [scaleStats] makes of the base stats of an archetype. *)
Definition scaledStats (b : Archetype) (r : Z) : EnemyFactory.Stats :=
  EnemyFactory.scaleStats (fst (EnemyFactory.baseStats b)) (snd (EnemyFactory.baseStats b)) r.

(** What the constructor and a creator leave in an enemy of category [ty]
    built for round [r] from the base stats of its archetype. *)
Definition builtFor (r : Z) (ty : Enemy.EnemyType) (e : Enemy.t) : Prop :=
  exists b,
    Enemy.behavior e = Some b
    /\ Enemy.type e = ty
    /\ Enemy.maxHP e = EnemyFactory.hp (scaledStats b r)
    /\ Enemy.currentHP e = EnemyFactory.hp (scaledStats b r)
    /\ Enemy.attack e = EnemyFactory.attack (scaledStats b r)
    /\ Enemy.baseAttack e = EnemyFactory.attack (scaledStats b r)
    /\ Enemy.goldReward e = Enemy.calculateGoldReward ty.

(** The runs of a store that survived at least as many rounds as [x]: the
    runs that the sort keeps in front of [x] when [x] is pushed last. *)
Definition notBelow (x : RunData.t) (l : list RunData.t) : list RunData.t :=
  List.filter (fun r => RunData.round x <=? RunData.round r) l.

End Spec.

(** ** Inputs of the scenarios *)

Module Scenario.

(** Dice of the catalogue in Dice.js.  A die of the catalogue gets its
    identifier from the clock, here it is its position; a Crit or Magic
    face is built without a value, here it holds 0 (the engine reads the
    value of Attack and Defense faces only). *)
Definition face (ty : Dice.FaceType) (v : Z) : Dice.DiceFace := Dice.mkFace ty v None.
Definition sym (s : string) : Dice.DiceFace := Dice.mkFace Dice.special 0 (Some s).
Definition die (i : string) (fs : list Dice.DiceFace) : Dice.t :=
  Dice.mkDice i fs None false.

(** [DiceFactory.createFrostWeaverDice()] *)
Definition frostWeaverDice : list Dice.t :=
  [ die "die_1" [sym "frost"; face Dice.defense 8; face Dice.attack 5; sym "frost";
                 face Dice.magic 0; face Dice.defense 7];
    die "die_2" [face Dice.attack 6; sym "frost"; face Dice.defense 9; face Dice.magic 0;
                 face Dice.attack 7; sym "frost"];
    die "die_3" [sym "frost"; face Dice.attack 6; face Dice.defense 8; face Dice.attack 7;
                 face Dice.magic 0; face Dice.defense 6] ].


(** Draws given as a list, 0 beyond its end. *)
Definition draws (l : list JS.double) : ItemFactory.Draws :=
  fun i => nth i l (JS.of_Z 0).

(** A turn in which no roll of the engine succeeds: the critical roll and
    the dodge roll draw 0.5, every pick draws 0. *)
Definition quiet : GameManager.Ambient :=
  {| GameManager.chaosPassiveDraw := JS.of_Z 0; GameManager.chaosSpecialDraw := JS.of_Z 0;
     GameManager.critDraw := JS.dec 5 10; GameManager.behaviorDraw := JS.of_Z 0;
     GameManager.dodgeDraw := JS.dec 5 10; GameManager.spawnDraw := JS.of_Z 0;
     GameManager.stockDraws := draws []; GameManager.today := "11/01/2026" |}.

(** One round of play: roll the dice with the given draws, assign dice to
    slots, execute the turn. *)
Definition play (rolls : list JS.double) (slots : list (string * string))
    (g : GameManager.t) : option (GameManager.TurnResult * GameManager.t) :=
  let g := snd (GameManager.rollDice (draws rolls) g) in
  let g := fold_left (fun g ds => snd (GameManager.assignDie (fst ds) (snd ds) g)) slots g in
  GameManager.executeTurn quiet g.

(** The three dice of the Frost Weaver all show their Magic face (the draw
    0.7 picks face 4 of 6) and the first goes to the Attack slot, where a
    Magic face counts 0: the player does nothing and the enemy acts. *)
Definition idle (g : GameManager.t) : option (GameManager.TurnResult * GameManager.t) :=
  play [JS.dec 7 10; JS.dec 7 10; JS.dec 7 10] [("die_1", "attack")] g.

Fixpoint idles (n : nat) (g : GameManager.t) : option GameManager.t :=
  match n with
  | O => Some g
  | S n => r ← idle g; idles n (snd r)
  end.

(** The first two dice show "frost" (the draws 0 and 0.2 pick the faces 0
    and 1) and go to the Special slot. *)
Definition freeze (g : GameManager.t) : option (GameManager.TurnResult * GameManager.t) :=
  play [JS.of_Z 0; JS.dec 2 10; JS.dec 7 10] [("die_1", "special"); ("die_2", "special")] g.

(** A new run of the Frost Weaver against the enemy that the draw [u]
    picks from the roster of minions: 0 the Goblin, 0.3 the Giant Spider,
    0.46 the Ghost. *)
Definition frostWeaverRun (u : JS.double) : option GameManager.t :=
  GameManager.startNewRun "Frost Weaver" frostWeaverDice u GameManager.new.

(** Twelve idle rounds against the Goblin of round 1, whose attack is 9:
    the twelfth takes the last hit point. *)
Definition defeated : option GameManager.t := g ← frostWeaverRun (JS.of_Z 0); idles 12 g.

(** Three idle rounds against the Ghost, then the Frozen Prison in the round
    in which the Ghost takes its Ethereal Form, then an idle round. *)
Definition frozenGhost : option (GameManager.TurnResult * GameManager.t) :=
  g ← frostWeaverRun (JS.dec 46 100); g ← idles 3 g; freeze g.

Definition afterFrozenGhost : option (GameManager.TurnResult * GameManager.t) :=
  r ← frozenGhost; idle (snd r).

(** What a scenario looks at: state, hit points of the player, hit points,
    attack and effects of the enemy. *)
Definition view (g : GameManager.t) :=
  (GameManager.gameState g, Player.currentHP <$> GameManager.player g,
   Enemy.currentHP <$> GameManager.enemy g, Enemy.attack <$> GameManager.enemy g,
   Enemy.effects <$> GameManager.enemy g).

(** The Stone Golem of round 1 (defence 5) brought down to 3 hit points. *)
Definition woundedGolem : Enemy.t := Enemy.setHP 3 (EnemyFactory.createStoneGolem 1).

(** A store that holds ten runs of five rounds each, and a manager whose
    run ends in its first round. *)
Definition fiveRounds : RunData.t :=
  RunData.mk (Some "Geomancer") 5 5 412 70 "10/31/2026".

Definition fullStore : list RunData.t := repeat fiveRounds 10.

Definition shortRun : GameManager.t :=
  GameManager.setBestRuns (Some fullStore)
    (GameManager.setStats (Stats.zero (Some "Chaos Mage"))
       (GameManager.setCurrentRound 1 GameManager.new)).

(** A store of eleven runs in no order, as another session or a hand may
    have left it, and a run of the Chaos Mage that ends in its seventh
    round, six rounds survived. *)
Definition runOf (rounds : Z) : RunData.t :=
  RunData.mk (Some "Geomancer") rounds rounds (80 * rounds) (10 * rounds) "10/31/2026".

Definition mixedStore : list RunData.t := runOf <$> [3; 9; 1; 7; 5; 8; 2; 6; 4; 10; 6].

Definition seventhRound : GameManager.t :=
  GameManager.setBestRuns (Some mixedStore)
    (GameManager.setStats (Stats.zero (Some "Chaos Mage"))
       (GameManager.setCurrentRound 7 GameManager.new)).

(** Three idle rounds against the Giant Spider, whose third action is the
    Poison Bite, and the round after. *)
Definition poisoned : option GameManager.t := g ← frostWeaverRun (JS.dec 3 10); idles 3 g.

Definition afterPoisoned : option (GameManager.TurnResult * GameManager.t) :=
  g ← poisoned; idle g.

(** The Poison that the bite leaves on the player, one tick later. *)
Definition poison (rounds : Z) : Effect.t :=
  Effect.lit "Poison" (Some rounds) [("damage", 3)] [] [].

(** A new player who buys the Blood Pact [n] times. *)
Definition bloodPacts (n : nat) : Player.t :=
  Nat.iter n (fun p => ItemFactory.addItem p (Item.new Item.BloodPact))
           (Player.new "Blade Dancer" []).



Definition chaosSurge : Player.Outcome :=
  Player.withBonusDamage 15 (Player.said [JS.Txt "Chaos Surge: +15 damage!"]).

(** The Titan Golem of round 10 (defence 10) under the Burn that the
    Pyromantic's special applies (10 damage per turn, 3 rounds). *)
Definition burn : Effect.t := Effect.lit "Burn" (Some 3) [("damage", 10)] [] [].

Definition burningTitan : Enemy.t :=
  Enemy.addEffect (EnemyFactory.createTitanGolem 10) burn.

(** The identifiers of the dice of a set, by position. *)
Definition ids (k : nat) : string := nth k ["die_1"; "die_2"; "die_3"] "die".

(** A run of the Blade Dancer to the first merchant.  The spawn draw 0.1
    picks the Rat, of 23 hit points in round 1; the rolls of 0.4 show the
    Attack 10 of the first die, which goes to the Attack slot; with the
    Momentum of the class two turns defeat the Rat, three more the Goblin
    of round 2, and the round counter reaches 3. *)
Definition bladeDancerDice : list Dice.t :=
  DiceSet.dice (DiceFactory.createBladeDancerDice ids).

Definition strike : list Session.Call :=
  [ Session.RollDice (draws [JS.dec 4 10; JS.dec 4 10; JS.dec 4 10]);
    Session.AssignDie "die_1" "attack";
    Session.ExecuteTurn quiet ].

Definition toMerchant : list Session.Call :=
  Session.StartNewRun "Blade Dancer" bladeDancerDice (JS.dec 1 10)
  :: strike ++ strike ++ strike ++ strike ++ strike.

Definition atMerchant : option GameManager.t := Session.calls toMerchant GameManager.new.

(** The merchant of that round, who offers the Sharpened Edge, the Blessed
    Barrier and the Iron Plate, and the player, who holds 20 gold. *)
Definition firstMerchant : Merchant.t :=
  default (Merchant.new Merchant.Normal) (g ← atMerchant; GameManager.merchant g).

Definition buyer : Player.t :=
  default (Player.new "Blade Dancer" bladeDancerDice) (g ← atMerchant; GameManager.player g).

End Scenario.

(** * Properties *)

(** ** The take-damage and heal primitives *)

Section Primitives.

Local Ltac hp_arith := cbn; lia.

Lemma Enemy_takeDamage_HP (e : Enemy.t) (x : Z) :
  Enemy.currentHP (snd (Enemy.takeDamage e x))
  = Z.max 0 (Enemy.currentHP e - Z.max 0 (x - Enemy.defense e)).
Proof. reflexivity. Qed.

Lemma Enemy_takeDamage_frame (e : Enemy.t) (x : Z) :
  let e' := snd (Enemy.takeDamage e x) in
  Enemy.maxHP e' = Enemy.maxHP e /\ Enemy.defense e' = Enemy.defense e
  /\ Enemy.effects e' = Enemy.effects e /\ Enemy.attack e' = Enemy.attack e.
Proof. cbn. auto. Qed.

Lemma Enemy_heal_HP (e : Enemy.t) (x : Z) :
  Enemy.currentHP (snd (Enemy.heal e x))
  = Z.min (Enemy.maxHP e)
          (Enemy.currentHP e + Z.min x (Enemy.maxHP e - Enemy.currentHP e)).
Proof. reflexivity. Qed.

Lemma Enemy_takeDamage_bounds (e : Enemy.t) (x : Z) :
  0 <= Enemy.currentHP e <= Enemy.maxHP e ->
  0 <= Enemy.currentHP (snd (Enemy.takeDamage e x)) <= Enemy.maxHP (snd (Enemy.takeDamage e x)).
Proof. hp_arith. Qed.

Lemma Enemy_heal_bounds (e : Enemy.t) (x : Z) :
  0 <= x -> 0 <= Enemy.currentHP e <= Enemy.maxHP e ->
  0 <= Enemy.currentHP (snd (Enemy.heal e x)) <= Enemy.maxHP (snd (Enemy.heal e x)).
Proof. hp_arith. Qed.

Lemma Player_takeDamage_bounds (p : Player.t) (x : Z) :
  0 <= Player.currentHP p <= Player.maxHP p ->
  0 <= Player.currentHP (snd (Player.takeDamage p x))
    <= Player.maxHP (snd (Player.takeDamage p x)).
Proof. hp_arith. Qed.

Lemma Player_heal_bounds (p : Player.t) (x : Z) :
  0 <= x -> 0 <= Player.currentHP p <= Player.maxHP p ->
  0 <= Player.currentHP (snd (Player.heal p x)) <= Player.maxHP (snd (Player.heal p x)).
Proof. hp_arith. Qed.

(** Negative damage is no damage, for the player and, under a defence that
    is not negative, for the enemy. *)
Lemma Player_takeDamage_negative (p : Player.t) (x : Z) :
  x < 0 -> Player.takeDamage p x = Player.takeDamage p 0.
Proof.
  intros Hx. unfold Player.takeDamage.
  replace (Z.max 0 x) with (Z.max 0 0) by lia. reflexivity.
Qed.

Lemma Enemy_takeDamage_negative (e : Enemy.t) (x : Z) :
  0 <= Enemy.defense e -> x < 0 -> Enemy.takeDamage e x = Enemy.takeDamage e 0.
Proof.
  intros Hd Hx. unfold Enemy.takeDamage.
  replace (Z.max 0 (x - Enemy.defense e)) with (Z.max 0 (0 - Enemy.defense e)) by lia.
  reflexivity.
Qed.

End Primitives.

(** C3. Raw damage [x >= 0] dealt to an enemy of defence [d] at [h] hit
    points: the primitive reports [max 0 (x - d)] and leaves
    [max 0 (h - max 0 (x - d))] hit points, never a negative number.  With
    [d = 5] and [x = 12] an enemy of at least 7 hit points loses exactly 7,
    and an enemy at 3 hit points ends at exactly 0. *)
Theorem enemy_damage_is_mitigated_and_floored (e : Enemy.t) (x : Z) :
  0 <= x ->
  let d := Enemy.defense e in
  let h := Enemy.currentHP e in
  let dealt := fst (Enemy.takeDamage e x) in
  let h' := Enemy.currentHP (snd (Enemy.takeDamage e x)) in
  dealt = Z.max 0 (x - d)
  /\ h' = Z.max 0 (h - Z.max 0 (x - d))
  /\ 0 <= h'
  /\ (d = 5 -> x = 12 -> 7 <= h -> h' = h - 7)
  /\ (d = 5 -> x = 12 -> h = 3 -> h' = 0).
Proof.
  intros Hx d h dealt h'. subst d h dealt h'. cbn.
  repeat split; intros; lia.
Qed.

Lemma enemy_damage_is_mitigated_and_floored_witness :
  fst (Enemy.takeDamage Scenario.woundedGolem 12) = 7
  /\ Enemy.currentHP (snd (Enemy.takeDamage Scenario.woundedGolem 12)) = 0.
Proof.
  destruct (enemy_damage_is_mitigated_and_floored Scenario.woundedGolem 12 ltac:(lia))
    as (Hdealt & _ & _ & _ & Hfloor).
  split; [exact Hdealt | apply Hfloor; reflexivity].
Defined.

(** ** Effect ticks on the enemy *)

Section EnemyTicks.

Lemma applyTick_frame (e : Enemy.t) (eff : Effect.t) :
  Enemy.defense (Enemy.applyTick e eff) = Enemy.defense e
  /\ Enemy.maxHP (Enemy.applyTick e eff) = Enemy.maxHP e
  /\ Enemy.effects (Enemy.applyTick e eff) = Enemy.effects e.
Proof.
  unfold Enemy.applyTick.
  destruct (JS.truthy (Effect.int eff "damage")), (JS.truthy (Effect.int eff "healing"));
    cbn; auto.
Qed.

Lemma fold_applyTick_frame (l : list Effect.t) (e : Enemy.t) :
  Enemy.defense (fold_left Enemy.applyTick l e) = Enemy.defense e
  /\ Enemy.maxHP (fold_left Enemy.applyTick l e) = Enemy.maxHP e
  /\ Enemy.effects (fold_left Enemy.applyTick l e) = Enemy.effects e.
Proof.
  revert e. induction l as [|eff l IH]; intros e; cbn [fold_left]; [auto|].
  destruct (IH (Enemy.applyTick e eff)) as (-> & -> & ->).
  apply applyTick_frame.
Qed.

Lemma Enemy_updateEffects_HP_fold (e : Enemy.t) :
  Enemy.currentHP (Enemy.updateEffects e)
  = Enemy.currentHP (fold_left Enemy.applyTick (Enemy.effects e) e).
Proof. reflexivity. Qed.

(** The pass of the enemy: damage and heal of every effect, in list order,
    and only then the durations. *)
Lemma enemy_tick_damage_heal_then_durations (e : Enemy.t) :
  Enemy.updateEffects e
  = Enemy.setEffects (Effect.tickAll (Enemy.effects e))
                     (fold_left Enemy.applyTick (Enemy.effects e) e).
Proof.
  unfold Enemy.updateEffects. cbv zeta.
  by destruct (fold_applyTick_frame (Enemy.effects e) e) as (_ & _ & ->).
Qed.

(** One effect without a heal: the tick is [takeDamage] of its damage. *)
Lemma applyTick_damage_only (e : Enemy.t) (eff : Effect.t) :
  0 <= Enemy.defense e -> 0 <= Enemy.currentHP e ->
  Effect.int eff "healing" = None ->
  Enemy.currentHP (Enemy.applyTick e eff)
  = Spec.tickedHP (Enemy.defense e) (Enemy.currentHP e) eff.
Proof.
  intros Hd Hh Hheal. unfold Enemy.applyTick, Spec.tickedHP. rewrite Hheal. cbn [JS.truthy].
  destruct (Effect.int eff "damage") as [a|]; cbn [JS.truthy default].
  - destruct (Z.eqb_spec a 0) as [->|Ha]; cbn [negb]; [cbn; lia | reflexivity].
  - lia.
Qed.

Lemma tickedHP_nonneg (d h : Z) (eff : Effect.t) : 0 <= Spec.tickedHP d h eff.
Proof. unfold Spec.tickedHP. lia. Qed.

Lemma fold_applyTick_damage_only (l : list Effect.t) (e : Enemy.t) :
  0 <= Enemy.defense e -> 0 <= Enemy.currentHP e ->
  Forall (fun eff => Effect.int eff "healing" = None) l ->
  Enemy.currentHP (fold_left Enemy.applyTick l e)
  = fold_left (Spec.tickedHP (Enemy.defense e)) l (Enemy.currentHP e).
Proof.
  intros Hd Hh Hl. revert e Hd Hh.
  induction Hl as [|eff l Heff _ IH]; intros e Hd Hh; cbn [fold_left]; [reflexivity|].
  destruct (applyTick_frame e eff) as (Hdef & _ & _).
  rewrite IH.
  - rewrite Hdef. f_equal. by apply applyTick_damage_only.
  - by rewrite Hdef.
  - rewrite applyTick_damage_only by done. apply tickedHP_nonneg.
Qed.

Lemma fold_tickedHP_absorbed (d : Z) (l : list Effect.t) (h : Z) :
  0 <= h ->
  Forall (fun eff => default 0 (Effect.int eff "damage") <= d) l ->
  fold_left (Spec.tickedHP d) l h = h.
Proof.
  intros Hh Hl. induction Hl as [|eff l Heff _ IH]; cbn [fold_left]; [reflexivity|].
  replace (Spec.tickedHP d h eff) with h by (unfold Spec.tickedHP; lia). exact IH.
Qed.

End EnemyTicks.

(** C10. On an enemy of defence [d], an effect with a damage-per-tick of [a]
    takes [max 0 (a - d)] hit points per tick pass and not [a], because the
    tick goes through the enemy's own take-damage primitive: a pass over
    effects that carry no heal leaves the hit points that the mitigated
    damages, taken in list order, leave; and when no damage exceeds the
    defence the pass takes nothing. *)
Theorem enemy_tick_damage_is_reduced_by_defense (e : Enemy.t) :
  0 <= Enemy.defense e -> 0 <= Enemy.currentHP e ->
  Forall (fun eff => Effect.int eff "healing" = None) (Enemy.effects e) ->
  let d := Enemy.defense e in
  let h := Enemy.currentHP e in
  Enemy.currentHP (Enemy.updateEffects e) = fold_left (Spec.tickedHP d) (Enemy.effects e) h
  /\ (forall eff a, Enemy.effects e = [eff] -> Effect.int eff "damage" = Some a ->
        Enemy.currentHP (Enemy.updateEffects e) = Z.max 0 (h - Z.max 0 (a - d)))
  /\ (Forall (fun eff => default 0 (Effect.int eff "damage") <= d) (Enemy.effects e) ->
        Enemy.currentHP (Enemy.updateEffects e) = h).
Proof.
  intros Hd Hh Hheal d h.
  assert (Hpass : Enemy.currentHP (Enemy.updateEffects e)
                  = fold_left (Spec.tickedHP d) (Enemy.effects e) h).
  { rewrite Enemy_updateEffects_HP_fold. by apply fold_applyTick_damage_only. }
  split; [exact Hpass|]. split.
  - intros eff a Hone Ha. rewrite Hpass, Hone. cbn [fold_left].
    unfold Spec.tickedHP. by rewrite Ha.
  - intros Hsmall. rewrite Hpass. by apply fold_tickedHP_absorbed.
Qed.

Lemma enemy_tick_damage_is_reduced_by_defense_witness :
  Enemy.effects Scenario.burningTitan = [Scenario.burn]
  /\ Enemy.defense Scenario.burningTitan = 10
  /\ Enemy.currentHP (Enemy.updateEffects Scenario.burningTitan)
     = Enemy.currentHP Scenario.burningTitan.
Proof.
  split; [reflexivity|]. split; [reflexivity|].
  destruct (enemy_tick_damage_is_reduced_by_defense Scenario.burningTitan)
    as (_ & _ & Habsorbed).
  - vm_compute; discriminate.
  - vm_compute; discriminate.
  - repeat constructor.
  - apply Habsorbed. repeat constructor. vm_compute; discriminate.
Defined.

(** ** The merchant cadence *)

Section MerchantCadence.

Lemma rem_zero_divide (n k : Z) : 0 < k -> Z.rem n k =? 0 <-> (k | n).
Proof.
  intros Hk. rewrite Is_true_true, Z.eqb_eq. apply Z.rem_divide. lia.
Qed.

Lemma rem_zero_cases (n k : Z) :
  0 < k -> ((k | n) /\ (Z.rem n k =? 0) = true) \/ (~ (k | n) /\ (Z.rem n k =? 0) = false).
Proof.
  intros Hk. pose proof (rem_zero_divide n k Hk) as H.
  destruct (Z.rem n k =? 0); [left | right]; split; try reflexivity.
  - by apply H.
  - intros Hd. by apply H in Hd.
Qed.

(** What the branch of [handleEnemyDefeat] for a round that is a multiple
    of 3 does with the counter and the factory. *)
Lemma handleEnemyDefeat_opens_merchant a p e log g r g' :
  Z.rem (GameManager.currentRound g + 1) 3 = 0 ->
  GameManager.handleEnemyDefeat a p e log g = Some (r, g') ->
  GameManager.gameState g' = GameState.merchant
  /\ GameManager.merchantEncounterCount g' = GameManager.merchantEncounterCount g + 1
  /\ exists m, GameManager.merchant g' = Some m
       /\ Merchant.variant m
          = Merchant.variant
              (MerchantFactory.createMerchant (GameManager.merchantEncounterCount g + 1)).
Proof.
  intros Hround. unfold GameManager.handleEnemyDefeat.
  cbn [GameManager.currentRound GameManager.setCurrentRound GameManager.setStats
       GameManager.setPlayer GameManager.setEnemy].
  rewrite Hround. cbn [Z.eqb].
  cbn [GameManager.merchantEncounterCount GameManager.setMerchantEncounterCount
       GameManager.setGameState].
  unfold Merchant.generateInventory.
  destruct (match Merchant.variant _ with Merchant.Normal => _ | _ => _ end)
    as [inv|] eqn:Hinv; cbn [mbind option_bind]; [|discriminate].
  intros [= <- <-]. cbn. repeat split. eexists. split; reflexivity.
Qed.

End MerchantCadence.

(** C5, as the code has it.  For an encounter count [n >= 1] the factory
    checks the moduli in the order 9, then 6, then 12: a multiple of 9 meets
    the Black Market, any other multiple of 6 the Discount merchant, and
    every other count the normal merchant (the check for 12 comes after the
    check for 6, which every multiple of 12 passes). *)
Theorem merchant_variant_checks_9_then_6_then_12 (n : Z) :
  1 <= n ->
  let v := Merchant.variant (MerchantFactory.createMerchant n) in
  ((9 | n) -> v = Merchant.BlackMarket)
  /\ (~ (9 | n) -> (6 | n) -> v = Merchant.Discount)
  /\ (~ (9 | n) -> ~ (6 | n) -> v = Merchant.Normal).
Proof.
  intros Hn v. subst v. unfold MerchantFactory.createMerchant.
  replace (0 <? n) with true by (symmetry; apply Z.ltb_lt; lia).
  rewrite !andb_true_r.
  destruct (rem_zero_cases n 9 ltac:(lia)) as [[H9 E9]|[H9 E9]];
    destruct (rem_zero_cases n 6 ltac:(lia)) as [[H6 E6]|[H6 E6]];
    destruct (rem_zero_cases n 12 ltac:(lia)) as [[H12 E12]|[H12 E12]];
    rewrite E9, ?E6, ?E12; cbn; repeat split; intros; try done.
  destruct H12 as [k Hk]. exfalso. apply H6. exists (2 * k). lia.
Qed.

Lemma merchant_variant_checks_9_then_6_then_12_witness :
  Merchant.variant (MerchantFactory.createMerchant 18) = Merchant.BlackMarket.
Proof.
  destruct (merchant_variant_checks_9_then_6_then_12 18 ltac:(lia)) as (H9 & _ & _).
  apply H9. exists 2. reflexivity.
Defined.

(** C5, as the specification states it, fails at the eighteenth encounter:
    6 and 9 both divide 18, the enumerated order gives the Discount
    merchant, the factory the Black Market. *)
Lemma merchant_variant_enumerated_order_counterexample :
  ~ (forall n, 1 <= n ->
       Merchant.variant (MerchantFactory.createMerchant n) = Spec.variantInEnumeratedOrder n).
Proof. intros H. specialize (H 18 ltac:(lia)). vm_compute in H. discriminate H. Qed.

(** ** Enemies scaled to the round *)

Section Scaling.

Local Ltac built := eexists; split; [reflexivity | repeat split].

Lemma pickFrom_minions (r : Z) (u : JS.double) :
  0 <= JS.randomIndex u 25 < 25 ->
  exists e, EnemyFactory.createMinion r u = Some e /\ Spec.builtFor r Enemy.minion e.
Proof.
  intros Hi. unfold EnemyFactory.createMinion, EnemyFactory.pickFrom, JS.at_.
  change (Z.of_nat (length EnemyFactory.minions)) with 25.
  destruct (Z.ltb_spec (JS.randomIndex u 25) 0) as [|_]; [lia|].
  assert (Hk : (Z.to_nat (JS.randomIndex u 25) < 25)%nat) by lia.
  revert Hk. generalize (Z.to_nat (JS.randomIndex u 25)). intros k Hk.
  do 25 (destruct k as [|k]; [eexists; split; [reflexivity | built] |]).
  lia.
Qed.

Lemma pickFrom_elites (r : Z) (u : JS.double) :
  0 <= JS.randomIndex u 15 < 15 ->
  exists e, EnemyFactory.createElite r u = Some e /\ Spec.builtFor r Enemy.elite e.
Proof.
  intros Hi. unfold EnemyFactory.createElite, EnemyFactory.pickFrom, JS.at_.
  change (Z.of_nat (length EnemyFactory.elites)) with 15.
  destruct (Z.ltb_spec (JS.randomIndex u 15) 0) as [|_]; [lia|].
  assert (Hk : (Z.to_nat (JS.randomIndex u 15) < 15)%nat) by lia.
  revert Hk. generalize (Z.to_nat (JS.randomIndex u 15)). intros k Hk.
  do 15 (destruct k as [|k]; [eexists; split; [reflexivity | built] |]).
  lia.
Qed.

Lemma pickFrom_bosses (r : Z) (u : JS.double) :
  0 <= JS.randomIndex u 10 < 10 ->
  exists e, EnemyFactory.createBoss r u = Some e /\ Spec.builtFor r Enemy.boss e.
Proof.
  intros Hi. unfold EnemyFactory.createBoss, EnemyFactory.pickFrom, JS.at_.
  change (Z.of_nat (length EnemyFactory.bosses)) with 10.
  destruct (Z.ltb_spec (JS.randomIndex u 10) 0) as [|_]; [lia|].
  assert (Hk : (Z.to_nat (JS.randomIndex u 10) < 10)%nat) by lia.
  revert Hk. generalize (Z.to_nat (JS.randomIndex u 10)). intros k Hk.
  do 10 (destruct k as [|k]; [eexists; split; [reflexivity | built] |]).
  lia.
Qed.

End Scaling.

Section ScalingInDoubles.

Lemma scaledWithinb_spec (base r v : Z) :
  Spec.scaledWithinb base r v = true -> Spec.scaledWithin base r v.
Proof.
  unfold Spec.scaledWithinb, Spec.scaledWithin, Spec.wholeProduct.
  intros H. apply orb_true_iff in H as [H|H].
  - left. by apply Z.eqb_eq.
  - right. apply andb_true_iff in H as [H1 H2]. split; by apply Z.eqb_eq.
Qed.

Lemma archetypes_complete (b : Archetype) : In b Spec.archetypes.
Proof. destruct b; cbn; tauto. Qed.

(** The check of the rounds 1 to 1000, by evaluation. *)
Lemma rounds_checked : forallb Spec.scaledWithinInRound (Spec.rounds 1000) = true.
Proof. vm_compute. reflexivity. Qed.

Lemma scaleStats_within (b : Archetype) (r : Z) :
  1 <= r <= 1000 ->
  Spec.scaledWithin (fst (EnemyFactory.baseStats b)) r (EnemyFactory.hp (Spec.scaledStats b r))
  /\ Spec.scaledWithin (snd (EnemyFactory.baseStats b)) r
       (EnemyFactory.attack (Spec.scaledStats b r)).
Proof.
  intros Hr. pose proof rounds_checked as Hall. rewrite forallb_forall in Hall.
  assert (Hin : In r (Spec.rounds 1000)).
  { unfold Spec.rounds. apply list_elem_of_In, list_elem_of_fmap.
    exists (Z.to_nat r). split; [lia|]. apply elem_of_seq. lia. }
  specialize (Hall r Hin). unfold Spec.scaledWithinInRound in Hall. cbv zeta in Hall.
  rewrite forallb_forall in Hall. specialize (Hall b (archetypes_complete b)).
  unfold Spec.scaledStats, EnemyFactory.scaleStats. cbn [EnemyFactory.hp EnemyFactory.attack].
  destruct (EnemyFactory.baseStats b) as [baseHP baseAttack]. cbn [fst snd].
  apply andb_true_iff in Hall as [Hhp Hattack]. split; by apply scaledWithinb_spec.
Qed.

End ScalingInDoubles.

(** C7, as the code has it.  For a round [r >= 1] and any draw that picks
    inside the roster, the factory returns an enemy whose category is Boss
    when [r mod 10 = 0], else Elite when [r mod 5 = 0], else Minion, and
    whose hit points (maximal and current) and attack (base and current)
    are what [scaleStats] computes from the base stats of its archetype,
    in binary64 arithmetic.  In the rounds up to 1000 these are
    [floor(baseHP × (1 + r×0.15))] and [floor(baseAttack × (1 + r×0.15))],
    or the number below that floor, and this only where the product is a
    whole number. *)
Theorem enemy_of_round_is_scaled (r : Z) (u : JS.double) :
  1 <= r ->
  let n := EnemyFactory.rosterSize (Spec.categoryOfRound r) in
  0 <= JS.randomIndex u n < n ->
  exists e b,
    EnemyFactory.createEnemy r u = Some e
    /\ Enemy.behavior e = Some b
    /\ Enemy.type e = Spec.categoryOfRound r
    /\ Enemy.maxHP e = EnemyFactory.hp (Spec.scaledStats b r)
    /\ Enemy.currentHP e = Enemy.maxHP e
    /\ Enemy.attack e = EnemyFactory.attack (Spec.scaledStats b r)
    /\ Enemy.baseAttack e = Enemy.attack e
    /\ (r <= 1000 ->
        Spec.scaledWithin (fst (EnemyFactory.baseStats b)) r (Enemy.maxHP e)
        /\ Spec.scaledWithin (snd (EnemyFactory.baseStats b)) r (Enemy.attack e)).
Proof.
  intros Hr n. subst n. unfold Spec.categoryOfRound, EnemyFactory.createEnemy.
  rewrite !Z.rem_mod_nonneg by lia.
  replace (0 <? r) with true by (symmetry; apply Z.ltb_lt; lia).
  rewrite !andb_true_r.
  destruct (r mod 10 =? 0); [|destruct (r mod 5 =? 0)]; cbn [negb andb EnemyFactory.rosterSize];
    intros Hi;
    [ destruct (pickFrom_bosses r u Hi) as (e & He & b & Hb & Hty & Hmax & Hcur & Hatt & Hbase & _)
    | destruct (pickFrom_elites r u Hi) as (e & He & b & Hb & Hty & Hmax & Hcur & Hatt & Hbase & _)
    | destruct (pickFrom_minions r u Hi)
        as (e & He & b & Hb & Hty & Hmax & Hcur & Hatt & Hbase & _) ];
    exists e, b; (split; [exact He|]); (split; [exact Hb|]); (split; [exact Hty|]);
    (split; [exact Hmax|]); (split; [congruence|]); (split; [exact Hatt|]);
    (split; [congruence|]); intros Hle; rewrite Hmax, Hatt; apply scaleStats_within; lia.
Qed.

Lemma enemy_of_round_is_scaled_witness :
  exists e,
    EnemyFactory.createEnemy 9 (JS.dec 1 10) = Some e
    /\ Enemy.behavior e = Some Rat
    /\ Enemy.type e = Enemy.minion
    /\ Enemy.maxHP e = 46 /\ Spec.scale 20 9 = 47 /\ Spec.wholeProduct 20 9
    /\ Enemy.attack e = 14 /\ Spec.scale 6 9 = 14.
Proof.
  destruct (enemy_of_round_is_scaled 9 (JS.dec 1 10)) as (e & b & He & Hb & Hty & Hrest);
    [lia | vm_compute; split; [discriminate | reflexivity] |].
  assert (Hrat : EnemyFactory.createEnemy 9 (JS.dec 1 10) = Some (EnemyFactory.createRat 9))
    by (vm_compute; reflexivity).
  rewrite Hrat in He. injection He as <-. exists (EnemyFactory.createRat 9).
  split; [exact Hrat|]. split; [reflexivity|]. split; [exact Hty|].
  repeat split; vm_compute; reflexivity.
Defined.

(** C7, as the specification states it, fails for the Giant Rat of round 9,
    of 20 base hit points: the formula gives [floor(20 × 2.35) = 47], the
    factory 46, since the double nearest to [1 + 9 × 0.15] lies below 2.35. *)
Lemma giant_rat_of_round_9_counterexample :
  ~ (forall r u e b,
       1 <= r -> EnemyFactory.createEnemy r u = Some e -> Enemy.behavior e = Some b ->
       Enemy.maxHP e = Spec.scale (fst (EnemyFactory.baseStats b)) r
       /\ Enemy.attack e = Spec.scale (snd (EnemyFactory.baseStats b)) r).
Proof.
  intros H.
  destruct (H 9 (JS.dec 1 10) (EnemyFactory.createRat 9) Rat) as [Hhp _];
    [lia | vm_compute; reflexivity | reflexivity |].
  vm_compute in Hhp. discriminate Hhp.
Qed.

(** The draw 0.5 in round 3 picks the Wisp, of 20 base hit points and 7 base
    attack: 29 hit points and 10 attack. *)
Example wisp_of_round_3 :
  (fun e => (Enemy.name e, Enemy.maxHP e, Enemy.attack e))
    <$> EnemyFactory.createEnemy 3 (JS.dec 5 10)
  = Some ("Wisp", 29, 10).
Proof. vm_compute. reflexivity. Qed.

(** In round 36 the factor [1 + 36 × 0.15] is the double just below 6.4,
    and an attack of base 10 (the Skeleton's) scales to 63 where the formula
    gives 64. *)
Remark scale_in_doubles_round_36 :
  EnemyFactory.attack (EnemyFactory.scaleStats 25 10 36) = 63 /\ Spec.scale 10 36 = 64.
Proof. vm_compute. split; reflexivity. Qed.

(** ** The best-runs store *)

Section BestRuns.

Implicit Types (x y : RunData.t) (l : list RunData.t).

Lemma insert_Forall (P : RunData.t -> Prop) x l :
  P x -> Forall P l -> Forall P (RunData.insert x l).
Proof.
  intros Hx Hl. induction Hl as [|y l Hy Hl IH]; cbn.
  - by constructor.
  - destruct (RunData.compare x y <=? 0); repeat constructor; done.
Qed.

Lemma insert_sorted x l :
  Spec.sortedByRounds l -> Spec.sortedByRounds (RunData.insert x l).
Proof.
  unfold Spec.sortedByRounds. intros Hl.
  induction Hl as [|y l Hl IH Hy]; cbn.
  - repeat constructor.
  - unfold RunData.compare at 1.
    destruct (Z.leb_spec (RunData.round y - RunData.round x) 0) as [Hle|Hgt].
    + constructor; [by constructor|]. constructor; [lia|].
      eapply Forall_impl; [exact Hy|]. cbn. intros z Hz. lia.
    + constructor; [exact IH|]. apply insert_Forall; [lia | exact Hy].
Qed.

Lemma sort_sorted l : Spec.sortedByRounds (RunData.sort l).
Proof.
  induction l as [|x l IH]; cbn; [constructor | by apply insert_sorted].
Qed.

Lemma take_sorted (n : nat) l :
  Spec.sortedByRounds l -> Spec.sortedByRounds (take n l).
Proof.
  unfold Spec.sortedByRounds. intros Hl. revert n.
  induction Hl as [|y l Hl IH Hy]; intros [|n]; cbn; try constructor.
  - apply IH.
  - by apply Forall_take.
Qed.

(** A run goes in front of a run that it does not follow ... *)
Lemma insert_before x y (front back : list RunData.t) :
  RunData.round y <= RunData.round x ->
  RunData.insert x (front ++ y :: back) = RunData.insert x front ++ y :: back.
Proof.
  intros Hxy. induction front as [|z front IH]; cbn.
  - unfold RunData.compare.
    destruct (Z.leb_spec (RunData.round y - RunData.round x) 0); [reflexivity | lia].
  - destruct (RunData.compare x z <=? 0); [reflexivity|]. by rewrite IH.
Qed.

(** ... and behind the runs that it follows. *)
Lemma insert_behind x y (front back : list RunData.t) :
  Forall (fun z => RunData.round x < RunData.round z) front ->
  RunData.round x < RunData.round y ->
  RunData.insert x (front ++ y :: back) = front ++ y :: RunData.insert x back.
Proof.
  intros Hfront Hxy. induction Hfront as [|z front Hz _ IH]; cbn.
  - unfold RunData.compare.
    destruct (Z.leb_spec (RunData.round y - RunData.round x) 0); [lia | reflexivity].
  - unfold RunData.compare at 1.
    destruct (Z.leb_spec (RunData.round z - RunData.round x) 0); [lia|]. by rewrite IH.
Qed.

(** Where the sort puts a run that was pushed last: behind the earlier runs
    that survived at least as long, as many as [Spec.notBelow] counts. *)
Lemma sort_pushed_last x l :
  exists front back,
    RunData.sort (l ++ [x]) = front ++ x :: back
    /\ length front = length (Spec.notBelow x l)
    /\ Forall (fun z => RunData.round x <= RunData.round z) front.
Proof.
  induction l as [|y l (front & back & Hsort & Hlen & Hfront)].
  - exists [], []. repeat split. constructor.
  - unfold Spec.notBelow in *. cbn [app RunData.sort List.filter]. rewrite Hsort.
    destruct (Z.leb_spec (RunData.round x) (RunData.round y)) as [Hle|Hlt].
    + exists (RunData.insert y front), back. rewrite insert_before by done.
      repeat split.
      * cbn [length]. rewrite <- Hlen. clear.
        induction front as [|z front IH]; cbn; [reflexivity|].
        destruct (RunData.compare y z <=? 0); cbn; [reflexivity | by rewrite IH].
      * by apply insert_Forall.
    + exists front, (RunData.insert y back). rewrite insert_behind; [done| |done].
      eapply Forall_impl; [exact Hfront|]. cbn. intros z Hz. lia.
Qed.

Lemma insert_Permutation x l : RunData.insert x l ≡ₚ x :: l.
Proof.
  induction l as [|y l IH]; cbn; [reflexivity|].
  destruct (RunData.compare x y <=? 0); [reflexivity|].
  rewrite IH. apply Permutation_swap.
Qed.

Lemma sort_Permutation l : RunData.sort l ≡ₚ l.
Proof.
  induction l as [|x l IH]; cbn; [reflexivity|]. by rewrite insert_Permutation, IH.
Qed.

(** In a sorted list no run of the back survived longer than a run of the
    front. *)
Lemma sorted_app (front back : list RunData.t) :
  Spec.sortedByRounds (front ++ back) ->
  Forall (fun d => Forall (fun k => RunData.round d <= RunData.round k) front) back.
Proof.
  unfold Spec.sortedByRounds. induction front as [|y front IH]; cbn; intros Hs.
  - apply Forall_forall. intros d _. constructor.
  - apply StronglySorted_inv in Hs as [Hs Hy]. specialize (IH Hs).
    apply Forall_app in Hy as [_ Hy].
    rewrite Forall_forall in IH, Hy |- *. intros d Hd. constructor; [exact (Hy d Hd)|].
    exact (IH d Hd).
Qed.

(** The runs in front of the run pushed last, and those behind it, are the
    runs of the store. *)
Lemma sort_pushed_last_store x l (front back : list RunData.t) :
  RunData.sort (l ++ [x]) = front ++ x :: back -> front ++ back ≡ₚ l.
Proof.
  intros Hsort. pose proof (sort_Permutation (l ++ [x])) as Hp. rewrite Hsort in Hp.
  rewrite <- Permutation_middle, <- Permutation_cons_append in Hp.
  by apply Permutation_cons_inv in Hp.
Qed.

End BestRuns.

(** C9, as the code has it.  Whatever the store holds, saving the summary
    of a run and loading the store gives a list that is sorted descending
    by rounds survived and holds the 10 first entries of the sorted store,
    or all of them if they are fewer: the entries loaded together with the
    entries cut off are the entries of the store and the new one, each as
    often as it was there, and no entry cut off survived longer than an
    entry loaded.  The list contains the entry just saved whenever fewer
    than 10 of the entries that were in the store survived at least as many
    rounds; otherwise every entry loaded is one of the store that survived
    at least as long, and the new entry, which the stable sort places
    behind them, has fallen to the truncation. *)
Theorem best_runs_saved_sorted_top_ten (date : string) (g : GameManager.t) :
  let stored := GameManager.loadBestRuns g in
  let saved := GameManager.runData date g in
  let loaded := GameManager.loadBestRuns (GameManager.saveBestRun date g) in
  Spec.sortedByRounds loaded
  /\ length loaded = Nat.min 10 (S (length stored))
  /\ (exists cut,
        loaded ++ cut ≡ₚ stored ++ [saved]
        /\ Forall (fun d => Forall (fun k => RunData.round d <= RunData.round k) loaded) cut)
  /\ ((length (Spec.notBelow saved stored) < 10)%nat -> In saved loaded)
  /\ ((10 <= length (Spec.notBelow saved stored))%nat ->
      Forall (fun k => In k stored /\ RunData.round saved <= RunData.round k) loaded).
Proof.
  intros stored saved loaded.
  assert (Hloaded : loaded = take 10 (RunData.sort (stored ++ [saved]))) by reflexivity.
  rewrite Hloaded. split; [|split; [|split; [|split]]].
  - apply take_sorted, sort_sorted.
  - rewrite length_take, (Permutation_length (sort_Permutation _)), length_app.
    cbn [length]. lia.
  - exists (drop 10 (RunData.sort (stored ++ [saved]))). split.
    + rewrite take_drop. apply sort_Permutation.
    + apply sorted_app. rewrite take_drop. apply sort_sorted.
  - intros Hfew.
    destruct (sort_pushed_last saved stored) as (front & back & -> & Hlen & _).
    rewrite take_app. apply in_or_app. right.
    replace (10 - length front)%nat with (S (9 - length front)) by lia.
    cbn. by left.
  - intros Hmany.
    destruct (sort_pushed_last saved stored) as (front & back & Hsort & Hlen & Hfront).
    pose proof (sort_pushed_last_store _ _ _ _ Hsort) as Hstore.
    rewrite Hsort, take_app_le by lia.
    apply Forall_take. rewrite Forall_forall in Hfront |- *. intros k Hk.
    split; [|exact (Hfront k Hk)].
    apply list_elem_of_In. rewrite <- Hstore. apply elem_of_app. by left.
Qed.

(** On the store of eleven runs in no order, for a run that survived six
    rounds: four runs of the store survived longer and two as long, the new
    entry is loaded behind them, and the runs of one and two rounds are cut
    off. *)
Lemma best_runs_saved_sorted_top_ten_witness :
  let saved := GameManager.runData "11/01/2026" Scenario.seventhRound in
  let loaded :=
    GameManager.loadBestRuns (GameManager.saveBestRun "11/01/2026" Scenario.seventhRound) in
  RunData.round <$> GameManager.loadBestRuns Scenario.seventhRound
  = [3; 9; 1; 7; 5; 8; 2; 6; 4; 10; 6]
  /\ RunData.round saved = 6
  /\ In saved loaded
  /\ Spec.sortedByRounds loaded
  /\ RunData.round <$> loaded = [10; 9; 8; 7; 6; 6; 6; 5; 4; 3]
  /\ loaded !! 6%nat = Some saved.
Proof.
  intros saved loaded.
  destruct (best_runs_saved_sorted_top_ten "11/01/2026" Scenario.seventhRound)
    as (Hsorted & _ & _ & Hin & _).
  split; [vm_compute; reflexivity|]. split; [vm_compute; reflexivity|].
  split; [apply Hin; vm_compute; lia|]. split; [exact Hsorted|].
  split; vm_compute; reflexivity.
Defined.

(** C9, as the specification states it, fails on a store that holds ten
    runs of five rounds: the summary of a run that ended in its first round
    is sorted behind them and cut off. *)
Lemma best_runs_low_run_counterexample :
  ~ (forall date g,
       In (GameManager.runData date g)
          (GameManager.loadBestRuns (GameManager.saveBestRun date g))).
Proof.
  intros H. specialize (H "11/01/2026" Scenario.shortRun).
  vm_compute in H. repeat (destruct H as [H|H]; [discriminate H|]). exact H.
Qed.

(** ** Turns after the defeat of the player *)

Section GameOver.

Lemma handleEnemyDefeat_result a p e log g r g' :
  GameManager.handleEnemyDefeat a p e log g = Some (r, g') ->
  exists log' s, r = GameManager.EnemyDefeated log' s.
Proof.
  unfold GameManager.handleEnemyDefeat.
  destruct (Z.rem _ 3 =? 0).
  - destruct (Merchant.generateInventory _ _ _); cbn [mbind option_bind]; [|discriminate].
    intros [= <- _]. eauto.
  - destruct (GameManager.spawnEnemy _ _); cbn [mbind option_bind]; [|discriminate].
    intros [= <- _]. eauto.
Qed.

(** The defeat of the player leaves the roll and the assignments in place:
    whenever a turn ends in the defeat, the manager is in the GameOver
    state and [canExecuteTurn] still holds. *)
Lemma defeat_keeps_the_turn_executable a g log st g' :
  GameManager.executeTurn a g = Some (GameManager.PlayerDefeated log st, g') ->
  GameManager.gameState g' = GameState.gameOver
  /\ GameManager.canExecuteTurn g' = true.
Proof.
  unfold GameManager.executeTurn.
  destruct (GameManager.canExecuteTurn g) eqn:Hcan; cbn [negb]; [|discriminate].
  destruct (GameManager.player g) as [p|]; cbn [mbind option_bind]; [|discriminate].
  destruct (GameManager.enemy g) as [e|]; cbn [mbind option_bind]; [|discriminate].
  destruct (GameManager.resolveAbilities _ _ _ _ _) as [[[[c activated] p1] e1]|];
    cbn [mbind option_bind]; [|discriminate].
  destruct (GameManager.strikeEnemy _ _ _) as [[log1 dealt] e2].
  destruct (negb (Enemy.isAlive e2)).
  - intros H. apply handleEnemyDefeat_result in H as (? & ? & [=]).
  - destruct (if negb _ then _ else _) as [[[log2 taken] p2] e3].
    destruct (GameManager.playerUpkeep p2 log2) as [log3 p3].
    destruct (negb (Player.isAlive p3)); [|discriminate].
    intros [= _ _ <-]. split; [reflexivity | exact Hcan].
Qed.

(** While [canExecuteTurn] holds, no call of [executeTurn] is rejected. *)
Lemma executable_turn_is_not_rejected a g m g' :
  GameManager.canExecuteTurn g = true ->
  GameManager.executeTurn a g <> Some (GameManager.Rejected m, g').
Proof.
  intros Hcan. unfold GameManager.executeTurn. rewrite Hcan. cbn [negb].
  destruct (GameManager.player g) as [p|]; cbn [mbind option_bind]; [|discriminate].
  destruct (GameManager.enemy g) as [e|]; cbn [mbind option_bind]; [|discriminate].
  destruct (GameManager.resolveAbilities _ _ _ _ _) as [[[[c activated] p1] e1]|];
    cbn [mbind option_bind]; [|discriminate].
  destruct (GameManager.strikeEnemy _ _ _) as [[log1 dealt] e2].
  destruct (negb (Enemy.isAlive e2)).
  - intros H. apply handleEnemyDefeat_result in H as (? & ? & [=]).
  - destruct (if negb _ then _ else _) as [[[log2 taken] p2] e3].
    destruct (GameManager.playerUpkeep p2 log2) as [log3 p3].
    destruct (negb (Player.isAlive p3)); discriminate.
Qed.

(** The defeat saves the summary of the run: what the store holds after it
    is the sorted, truncated list of [saveBestRun]. *)
Lemma defeat_saves_the_run a log g :
  GameManager.bestRuns (snd (GameManager.handlePlayerDefeat a log g))
  = Some (take 10 (RunData.sort
                     (GameManager.loadBestRuns g
                      ++ [GameManager.runData (GameManager.today a) g]))).
Proof. reflexivity. Qed.

End GameOver.

(** C1, at the end of a run.  Twelve idle rounds of a Frost Weaver against
    the Goblin of round 1 end the run: the state is GameOver and the player
    has no hit points left.  In that state [rollDice] is refused, but a
    further call of [executeTurn] is not: it reports success, lets the
    Goblin act a thirteenth time, adds to the damage statistics and saves
    the ended run a second time. *)
Theorem executeTurn_after_game_over_is_not_rejected :
  exists g r g',
    Scenario.defeated = Some g
    /\ GameManager.gameState g = GameState.gameOver
    /\ Player.currentHP <$> GameManager.player g = Some 0
    /\ fst (GameManager.rollDice (Scenario.draws []) g) = false
    /\ GameManager.executeTurn Scenario.quiet g = Some (r, g')
    /\ GameManager.success r = true
    /\ Enemy.turnCounter <$> GameManager.enemy g = Some 12
    /\ Enemy.turnCounter <$> GameManager.enemy g' = Some 13
    /\ Stats.totalDamageTaken (GameManager.stats g) = 108
    /\ Stats.totalDamageTaken (GameManager.stats g') = 117
    /\ length <$> GameManager.bestRuns g = Some 1%nat
    /\ length <$> GameManager.bestRuns g' = Some 2%nat.
Proof.
  pose (g := default GameManager.new Scenario.defeated).
  pose (rg := default (GameManager.Rejected "", g)
                      (GameManager.executeTurn Scenario.quiet g)).
  exists g, (fst rg), (snd rg).
  repeat match goal with |- _ /\ _ => split end; vm_compute; reflexivity.
Qed.

(** ** Specials below their threshold *)

Section Thresholds.






Lemma counter_setCounter (k : string) (v : Z) (p : Player.t) :
  Player.counter (Player.setCounter k v p) k = v.
Proof. unfold Player.counter, Player.setCounter. cbn. by rewrite lookup_insert_eq. Qed.





End Thresholds.




(** ** The Frozen Prison *)

Section Frozen.

(** With two "frost" symbols in the Special slot the special of the Frost
    Weaver succeeds and carries the Frozen effect. *)
Lemma frostWeaverSpecial_freezes (p : Player.t) (context : Player.Context) :
  2 <= Dice.countSymbol "frost" (Player.specialDice context) ->
  Player.frostWeaverSpecial p context
  = (Player.withEffect Spec.frozen
       (Player.activated [JS.Txt "Frozen Prison! Enemy attack reduced by 50% for 2 rounds!"]),
     p).
Proof.
  intros Hfrost. unfold Player.frostWeaverSpecial, Player.countSymbol. cbv zeta.
  destruct (Z.leb_spec 2 (Dice.countSymbol "frost" (Player.specialDice context)));
    [reflexivity | lia].
Qed.

(** In the turn of a Frost Weaver with two "frost" symbols in the Special
    slot the special is counted as activated and the enemy receives the
    Frozen effect, at the end of its list. *)
Lemma frozen_prison_reaches_the_enemy a assigned round (p : Player.t) (e : Enemy.t) :
  Player.className p = "Frost Weaver" ->
  2 <= Dice.countSymbol "frost" (GameManager.special assigned) ->
  exists c p',
    GameManager.resolveAbilities a assigned round p e
    = Some (c, true, p', Enemy.addEffect e Spec.frozen).
Proof.
  intros Hcn Hfrost. unfold GameManager.resolveAbilities. cbv zeta.
  unfold Player.applyPassiveAbility, Player.activateSpecial.
  assert (Hcn' : Player.className (snd (Player.frostWeaverPassive p
                   (GameManager.combatContext assigned round p))) = "Frost Weaver").
  { unfold Player.frostWeaverPassive. cbv zeta. by destruct (0 <? _). }
  rewrite Hcn. cbn [String.eqb Ascii.eqb Bool.eqb mbind option_bind].
  destruct (Player.frostWeaverPassive p _) as [r p'] eqn:Hp. cbn [snd] in Hcn'.
  rewrite Hcn'. cbn [String.eqb Ascii.eqb Bool.eqb].
  rewrite frostWeaverSpecial_freezes by exact Hfrost.
  assert (Hsome : (0 <? Z.of_nat (length (GameManager.special assigned))) = true).
  { apply Z.ltb_lt. unfold Dice.countSymbol in Hfrost.
    pose proof (filter_length_le (Dice.symbolIs "frost") (GameManager.special assigned)).
    lia. }
  rewrite Hsome. cbn. eauto.
Qed.

(** On an enemy whose first Frozen effect carries a reduction [r], an
    attack that the behaviour values at [v] is executed with the value
    [floor (v × (1 − r))]. *)
Lemma frozen_cuts_the_attack (e : Enemy.t) (u : JS.double) (action : Action.t)
    (e' : Enemy.t) (frozenEffect : Effect.t) (r : JS.double) :
  EnemyFactory.getNextAction (Enemy.setTurnCounter (Enemy.turnCounter e + 1) e) u
    = (action, e') ->
  Action.isAttack action = true ->
  List.find (Effect.nameIs "Frozen") (Enemy.effects e') = Some frozenEffect ->
  Effect.frac frozenEffect "attackReduction" = Some r ->
  JS.truthy_frac (Some r) = true ->
  EnemyFactory.executeAction e u
  = (Action.setValue
       (JS.floor (JS.mul (JS.of_Z (Action.value action)) (JS.sub (JS.of_Z 1) r))) action,
     e').
Proof.
  intros Hnext Hattack Hfind Hfrac Htruthy. unfold EnemyFactory.executeAction.
  rewrite Hnext, Hattack. unfold Enemy.hasEffect.
  assert (Hhas : existsb (Effect.nameIs "Frozen") (Enemy.effects e') = true).
  { apply existsb_exists. exists frozenEffect. apply find_some in Hfind. tauto. }
  rewrite Hhas, Hfind, Hfrac, Htruthy. reflexivity.
Qed.

End Frozen.

(** C6, where the enemy does not attack at once.  A Frost Weaver plays
    three idle rounds against the Ghost of round 1 (attack 9) and casts the
    Frozen Prison in the fourth, with two "frost" symbols in the Special
    slot.  The special activates and the Ghost receives the Frozen effect,
    which the tick of the same turn leaves at duration 1; the Ghost's
    fourth action is its Ethereal Form, not an attack.  The tick of the next
    turn removes the effect before the Ghost acts, and the very next attack
    of the Ghost lands with its full value 9, not with [floor (9 × 0.5)]. *)
Theorem frozen_expires_before_a_delayed_attack :
  exists g1 g2,
    Scenario.frozenGhost
    = Some (GameManager.Resolved
              [ Log.mk Log.player [JS.Txt "Frost Armor: +"; JS.Num 6; JS.Txt " defense!"];
                Log.mk Log.special
                  [JS.Txt "Frozen Prison! Enemy attack reduced by 50% for 2 rounds!"];
                Log.mk Log.info [JS.Txt "You defend."];
                Log.mk Log.enemy [JS.Txt "Ethereal Form"] ]
              73 26, g1)
    /\ Enemy.effects <$> GameManager.enemy g1 = Some (Effect.tickAll [Spec.frozen])
    /\ Enemy.attack <$> GameManager.enemy g1 = Some 9
    /\ Spec.halved 9 = 4
    /\ Scenario.afterFrozenGhost
       = Some (GameManager.Resolved
                 [ Log.mk Log.info [JS.Txt "You defend."];
                   Log.mk Log.enemy [JS.Txt "Ghost attacks"; JS.Txt " for "; JS.Num 9;
                                     JS.Txt " damage!"] ]
                 64 26, g2)
    /\ Enemy.effects <$> GameManager.enemy g2 = Some [].
Proof.
  pose (g1 := default GameManager.new (snd <$> Scenario.frozenGhost)).
  pose (g2 := default GameManager.new (snd <$> Scenario.afterFrozenGhost)).
  exists g1, g2.
  repeat match goal with |- _ /\ _ => split end; vm_compute; reflexivity.
Qed.

(** ** Effect ticks on the player *)

Section PlayerTicks.

(** The tick of the player's effects reads durations only. *)
Lemma Player_updateEffects_keeps_HP (p : Player.t) :
  Player.currentHP (Player.updateEffects p) = Player.currentHP p
  /\ Player.effects (Player.updateEffects p) = Effect.tickAll (Player.effects p).
Proof. split; reflexivity. Qed.

End PlayerTicks.

(** C2, on the player.  A Frost Weaver plays three idle rounds against the
    Giant Spider of round 1 (attack 9); the Spider's third action is the
    Poison Bite, which leaves a Poison of 3 damage per turn on the player,
    at duration 2 after the tick of that turn.  The round after, the player
    loses the 9 hit points of the Spider's attack and nothing to the
    Poison; the tick only shortens it. *)
Theorem player_poison_takes_no_hit_points :
  exists g3 g4,
    Scenario.poisoned = Some g3
    /\ Player.currentHP <$> GameManager.player g3 = Some 73
    /\ Player.effects <$> GameManager.player g3 = Some [Scenario.poison 2]
    /\ Scenario.afterPoisoned
       = Some (GameManager.Resolved
                 [ Log.mk Log.info [JS.Txt "You defend."];
                   Log.mk Log.enemy [JS.Txt "Giant Spider attacks"; JS.Txt " for ";
                                     JS.Num 9; JS.Txt " damage!"] ]
                 64 29, g4)
    /\ Player.currentHP <$> GameManager.player g4 = Some (73 - 9)
    /\ Player.effects <$> GameManager.player g4 = Some [Scenario.poison 1].
Proof.
  pose (g3 := default GameManager.new Scenario.poisoned).
  pose (g4 := default GameManager.new (snd <$> Scenario.afterPoisoned)).
  exists g3, g4.
  repeat match goal with |- _ /\ _ => split end; vm_compute; reflexivity.
Qed.

(** ** Hit points and items *)

Section Items.

(** Every item keeps the hit points within their bounds, the Blood Pact as
    long as the maximum it lowers is 5 at least. *)
Lemma items_keep_the_bounds (k : Item.Kind) (p : Player.t) :
  0 <= Player.currentHP p <= Player.maxHP p ->
  (k = Item.BloodPact -> 5 <= Player.maxHP p) ->
  0 <= Player.currentHP (ItemFactory.apply k p) <= Player.maxHP (ItemFactory.apply k p).
Proof.
  intros Hp Hpact. destruct k; cbn; try lia.
  specialize (Hpact eq_refl). lia.
Qed.

End Items.

(** C4, at the Blood Pact.  The item lowers the maximal hit points by 5 and
    caps the current hit points at the new maximum, with no floor: a new
    player of 100 hit points who buys it twenty times stands at 0 of 0, and
    the twenty-first purchase leaves -5 of -5. *)
Theorem blood_pacts_leave_the_bounds :
  Player.maxHP (Scenario.bloodPacts 20) = 0
  /\ Player.currentHP (Scenario.bloodPacts 20) = 0
  /\ Player.maxHP (Scenario.bloodPacts 21) = -5
  /\ Player.currentHP (Scenario.bloodPacts 21) = -5
  /\ Player.attackBonus (Scenario.bloodPacts 21) = 210.
Proof.
  repeat match goal with |- _ /\ _ => split end; vm_compute; reflexivity.
Qed.

(** * Further properties of the engine

    Properties of the functions that the claims above leave aside, read
    off the code: the dice, the merchant and its stock, the catalogue of
    items, the slots of a turn, the behaviours of the enemies, and the
    states that a session of the page can reach. *)

Import Invariant.

(** ** Lists *)

Section Lists.

Lemma at_Some {A} (l : list A) (i : Z) (x : A) :
  JS.at_ l i = Some x -> 0 <= i /\ l !! Z.to_nat i = Some x.
Proof.
  unfold JS.at_. destruct (Z.ltb_spec i 0); [discriminate|]. auto.
Qed.

Lemma at_elem_of {A} (l : list A) (i : Z) (x : A) : JS.at_ l i = Some x -> x ∈ l.
Proof. intros H. apply at_Some in H as [_ H]. by eapply list_elem_of_lookup_2. Qed.

Lemma at_in_range {A} (l : list A) (i : Z) :
  0 <= i < Z.of_nat (length l) -> exists x, JS.at_ l i = Some x /\ l !! Z.to_nat i = Some x.
Proof.
  intros Hi. unfold JS.at_. destruct (Z.ltb_spec i 0); [lia|].
  destruct (lookup_lt_is_Some_2 l (Z.to_nat i)) as [x Hx]; [lia|]. eauto.
Qed.

Lemma NoDup_delete_lookup {A} (l : list A) (i : nat) (x : A) :
  NoDup l -> l !! i = Some x -> NoDup (delete i l) /\ (x ∉ delete i l)
  /\ (forall y, y ∈ delete i l -> y ∈ l).
Proof.
  intros Hl Hx. rewrite delete_take_drop.
  rewrite <- (take_drop_middle l i x Hx) in Hl.
  apply NoDup_app in Hl as (Ht & Hd & Hr). apply NoDup_cons in Hr as (Hx' & Hr).
  split; [|split].
  - apply NoDup_app. repeat split; [done| |done].
    intros y Hy Hy'. apply (Hd y Hy). by right.
  - rewrite elem_of_app. intros [H|H]; [|done]. apply (Hd x H). by left.
  - intros y Hy. rewrite <- (take_drop_middle l i x Hx).
    rewrite elem_of_app in *. destruct Hy; [by left | right; by right].
Qed.

Lemma filter_elem_of {A} (f : A -> bool) (l : list A) (x : A) :
  x ∈ List.filter f l <-> x ∈ l /\ f x = true.
Proof. rewrite !list_elem_of_In. apply filter_In. Qed.

Lemma filter_NoDup_fmap {A B} (h : A -> B) (f : A -> bool) (l : list A) :
  NoDup (h <$> l) -> NoDup (h <$> List.filter f l).
Proof.
  induction l as [|x l IH]; cbn; [done|].
  rewrite NoDup_cons. intros [Hx Hl]. destruct (f x); cbn; [|by apply IH].
  apply NoDup_cons. split; [|by apply IH].
  intros Hin. apply Hx. apply list_elem_of_fmap in Hin as (y & -> & Hy).
  apply list_elem_of_fmap. exists y. split; [done|]. apply filter_elem_of in Hy. tauto.
Qed.

(** The elements of a list whose key is in a duplicate-free list of keys
    of the list are as many as the keys. *)
Lemma filter_length_keys {X B} (h : X -> B) (mem : B -> bool) (keys : list B) (l : list X) :
  (forall b, mem b = true <-> b ∈ keys) ->
  NoDup (h <$> l) -> NoDup keys -> (forall b, b ∈ keys -> b ∈ h <$> l) ->
  length (List.filter (fun x => mem (h x)) l) = length keys.
Proof.
  intros Hmem Hl Hkeys Hsub.
  rewrite <- (length_fmap h). apply Permutation_length, NoDup_Permutation.
  - by apply filter_NoDup_fmap.
  - exact Hkeys.
  - intros b. rewrite list_elem_of_fmap. split.
    + intros (x & -> & Hx). apply filter_elem_of in Hx as [_ Hx]. by apply Hmem.
    + intros Hb. destruct (proj1 (list_elem_of_fmap _ _ _) (Hsub b Hb)) as (x & -> & Hx).
      exists x. split; [done|]. apply filter_elem_of. split; [done|]. by apply Hmem.
Qed.

Lemma existsb_Zeqb (i : Z) (l : list Z) : existsb (Z.eqb i) l = true <-> i ∈ l.
Proof.
  rewrite existsb_exists, list_elem_of_In. split.
  - intros (x & Hx & Heq). apply Z.eqb_eq in Heq. by subst.
  - intros Hi. exists i. split; [done | apply Z.eqb_refl].
Qed.

Lemma GameState_eqb_eq (x y : GameState.t) : GameState.eqb x y = true <-> x = y.
Proof. destruct x, y; cbn; split; congruence. Qed.

End Lists.

(** ** The stock of a merchant *)

Section Stock.

Lemma drawDistinct_S (count : nat) (avail : list Item.Kind) rand (n : nat) :
  avail <> [] ->
  ItemFactory.drawDistinct (S count) avail rand n
  = (let randomIndex := JS.randomIndex (rand n) (Z.of_nat (length avail)) in
     ItemClass ← JS.at_ avail randomIndex;
     rest ← ItemFactory.drawDistinct count (delete (Z.to_nat randomIndex) avail) rand (S n);
     Some (Item.new ItemClass :: rest)).
Proof. destruct avail; [done | reflexivity]. Qed.

(** Drawing without replacement: as many items as asked for (as many as
    there are), of pairwise distinct classes, each at its base cost. *)
Lemma drawDistinct_spec (count : nat) : forall (avail : list Item.Kind) rand (n : nat),
  NoDup avail ->
  (forall k, (k < Nat.min count (length avail))%nat ->
     0 <= JS.randomIndex (rand (n + k)%nat) (Z.of_nat (length avail - k))
       < Z.of_nat (length avail - k)) ->
  exists inv,
    ItemFactory.drawDistinct count avail rand n = Some inv
    /\ length inv = Nat.min count (length avail)
    /\ NoDup (Item.kind <$> inv)
    /\ Forall (fun i => Item.kind i ∈ avail /\ i = Item.new (Item.kind i)) inv.
Proof.
  induction count as [|count IH]; intros avail rand n Hnd Hdraws.
  - exists []. cbn. repeat split; constructor.
  - destruct (decide (avail = [])) as [->|Hne].
    { exists []. cbn. repeat split; constructor. }
    assert (Hlen : (0 < length avail)%nat) by (destruct avail; [done | cbn; lia]).
    rewrite drawDistinct_S by done. cbv zeta.
    pose proof (Hdraws O ltac:(lia)) as H0.
    rewrite Nat.add_0_r, Nat.sub_0_r in H0.
    destruct (at_in_range avail _ H0) as (k & -> & Hk). cbn [mbind option_bind].
    destruct (NoDup_delete_lookup avail _ k Hnd Hk) as (Hnd' & Hnotin & Hsub).
    assert (Hlen' : length (delete (Z.to_nat (JS.randomIndex (rand n) (Z.of_nat (length avail)))) avail)
                    = (length avail - 1)%nat) by (apply length_delete; eauto).
    destruct (IH _ rand (S n) Hnd') as (inv & -> & Hl & Hnd2 & Hall).
    { intros j Hj. rewrite Hlen' in *.
      replace (S n + j)%nat with (n + S j)%nat by lia.
      replace (length avail - 1 - j)%nat with (length avail - S j)%nat by lia.
      apply Hdraws. lia. }
    cbn [mbind option_bind]. eexists. split; [reflexivity|]. split; [|split].
    + cbn [length]. rewrite Hl, Hlen'. lia.
    + cbn [fmap list_fmap Item.kind Item.new]. apply NoDup_cons. split; [|exact Hnd2].
      intros Hin. apply list_elem_of_fmap in Hin as (i & Hi & Hin).
      rewrite Forall_forall in Hall. destruct (Hall i Hin) as (Hin' & _).
      apply Hnotin. by rewrite Hi.
    + constructor.
      * split; [|reflexivity]. cbn. eapply list_elem_of_lookup_2. exact Hk.
      * eapply Forall_impl; [exact Hall|]. cbn. intros i [Hi Hc]. split; [by apply Hsub | exact Hc].
Qed.

Lemma getAllItems_NoDup : NoDup Item.getAllItems.
Proof.
  apply NoDup_ListNoDup. apply (NoDup_map_inv Item.name). vm_compute.
  repeat (constructor; [cbn; intros H; repeat (destruct H as [H|H]; [discriminate H|]); exact H|]).
  constructor.
Qed.

Lemma getItemsByRarity_rarity (r : Item.Rarity) (k : Item.Kind) :
  k ∈ ItemFactory.getItemsByRarity r -> Item.rarity k = r.
Proof.
  unfold ItemFactory.getItemsByRarity. rewrite list_elem_of_In, filter_In.
  intros [_ H]. by destruct (Item.rarity k), r.
Qed.

Lemma rarityPool_unlocked (playerGold : Z) (r : Item.Rarity) :
  r ∈ (repeat Item.common 50
       ++ (if 20 <=? playerGold then repeat Item.rare 30 else [])
       ++ (if 30 <=? playerGold then repeat Item.epic 15 else [])
       ++ (if 50 <=? playerGold then repeat Item.legendary 5 else [])) ->
  ItemFactory.unlocked playerGold r = true.
Proof.
  rewrite !elem_of_app. intros [H|[H|[H|H]]].
  - apply list_elem_of_In, repeat_spec in H. by subst.
  - destruct (20 <=? playerGold) eqn:E; [|by apply elem_of_nil in H].
    apply list_elem_of_In, repeat_spec in H. by subst.
  - destruct (30 <=? playerGold) eqn:E; [|by apply elem_of_nil in H].
    apply list_elem_of_In, repeat_spec in H. by subst.
  - destruct (50 <=? playerGold) eqn:E; [|by apply elem_of_nil in H].
    apply list_elem_of_In, repeat_spec in H. by subst.
Qed.

End Stock.

(** X1. The inventory of the normal and of the discount merchant holds no
    item twice: for draws that pick inside the list of the classes still
    available, [createMerchantInventory] returns as many items as asked for
    (35 at most, the size of the catalogue), of pairwise distinct classes,
    each a new item at its base cost; the gold it is given plays no part. *)
Theorem merchant_inventory_has_no_duplicates (playerGold : Z) (count : nat)
    (rand : ItemFactory.Draws) :
  (forall k, (k < Nat.min count 35)%nat ->
     0 <= JS.randomIndex (rand k) (35 - Z.of_nat k) < 35 - Z.of_nat k) ->
  exists inv,
    ItemFactory.createMerchantInventory playerGold count rand = Some inv
    /\ length inv = Nat.min count 35
    /\ NoDup (Item.kind <$> inv)
    /\ Forall (fun i => i = Item.new (Item.kind i)) inv.
Proof.
  intros Hdraws. unfold ItemFactory.createMerchantInventory.
  destruct (drawDistinct_spec count Item.getAllItems rand 0 getAllItems_NoDup)
    as (inv & Hinv & Hlen & Hnd & Hall).
  - intros k Hk. change (length Item.getAllItems) with 35%nat in *.
    replace (Z.of_nat (35 - k)) with (35 - Z.of_nat k) by lia. cbn [Nat.add]. by apply Hdraws.
  - exists inv. repeat split; try done.
    eapply Forall_impl; [exact Hall|]. cbn. tauto.
Qed.

Lemma merchant_inventory_has_no_duplicates_witness :
  exists inv,
    ItemFactory.createMerchantInventory 0 3 (Scenario.draws []) = Some inv
    /\ length inv = Nat.min 3 35
    /\ NoDup (Item.kind <$> inv)
    /\ Forall (fun i => i = Item.new (Item.kind i)) inv.
Proof.
  apply (merchant_inventory_has_no_duplicates 0 3 (Scenario.draws [])).
  intros k Hk.
  do 3 (destruct k as [|k]; [vm_compute; split; [discriminate | reflexivity]|]).
  cbn in Hk. lia.
Defined.

(** X2. [createRandomItem] never hands out an item of a rarity that the
    gold it is given has not unlocked (common always, rare from 20 gold,
    epic from 30, legendary from 50), whatever the two draws; the item is a
    new one at its base cost. *)
Theorem random_item_rarity_is_unlocked_by_gold (playerGold : Z) (rand : ItemFactory.Draws)
    (n : nat) (item : Item.t) :
  ItemFactory.createRandomItem playerGold rand n = Some item ->
  ItemFactory.unlocked playerGold (Item.rarity (Item.kind item)) = true
  /\ item = Item.new (Item.kind item).
Proof.
  unfold ItemFactory.createRandomItem. cbv zeta.
  destruct (JS.at_ _ (JS.randomIndex (rand n) _)) as [r|] eqn:Hr.
  - apply at_elem_of, rarityPool_unlocked in Hr.
    assert (Hne : (length (ItemFactory.getItemsByRarity r) =? 0)%nat = false)
      by (by destruct r).
    rewrite Hne.
    destruct (JS.at_ (ItemFactory.getItemsByRarity r) _) as [k|] eqn:Hk;
      cbn [mbind option_bind]; [|discriminate].
    intros [= <-]. cbn [Item.kind Item.new]. split; [|reflexivity].
    apply at_elem_of, getItemsByRarity_rarity in Hk. by rewrite Hk.
  - cbn [length Nat.eqb].
    destruct (JS.at_ (ItemFactory.getItemsByRarity Item.common) _) as [k|] eqn:Hk;
      cbn [mbind option_bind]; [|discriminate].
    intros [= <-]. cbn [Item.kind Item.new]. split; [|reflexivity].
    apply at_elem_of, getItemsByRarity_rarity in Hk. by rewrite Hk.
Qed.

Lemma random_item_rarity_is_unlocked_by_gold_witness :
  ItemFactory.createRandomItem 25 (Scenario.draws [JS.dec 7 10; JS.dec 5 10]) 0
  = Some (Item.new Item.CriticalEdge)
  /\ ItemFactory.unlocked 25 (Item.rarity Item.CriticalEdge) = true.
Proof.
  assert (H : ItemFactory.createRandomItem 25 (Scenario.draws [JS.dec 7 10; JS.dec 5 10]) 0
              = Some (Item.new Item.CriticalEdge)) by (vm_compute; reflexivity).
  split; [exact H|].
  apply (random_item_rarity_is_unlocked_by_gold 25 _ 0 (Item.new Item.CriticalEdge) H).
Defined.

(** ** Purchases *)

Section Purchases.

(** The two outcomes of [Merchant.purchaseItem]. *)
Lemma purchaseItem_cases (m : Merchant.t) (itemIndex : Z) (player : Player.t) :
  let r := Merchant.purchaseItem m itemIndex player in
  (Merchant.success (fst (fst r)) = false /\ Merchant.item (fst (fst r)) = None
   /\ snd (fst r) = m /\ snd r = player)
  \/ (exists item,
        0 <= itemIndex < Z.of_nat (length (Merchant.inventory m))
        /\ (itemIndex ∉ Merchant.soldItems m)
        /\ Merchant.inventory m !! Z.to_nat itemIndex = Some item
        /\ ItemFactory.applyDiscount item player <= Player.gold player
        /\ r = (Merchant.mkPurchase true
                  [JS.Txt "Purchased "; JS.Txt (Item.name (Item.kind item)); JS.Txt " for ";
                   JS.Num (ItemFactory.applyDiscount item player); JS.Txt " gold!"]
                  (Some item),
                {| Merchant.variant := Merchant.variant m;
                   Merchant.inventory := Merchant.inventory m;
                   Merchant.soldItems := Merchant.soldItems m ++ [itemIndex];
                   Merchant.encounterCount := Merchant.encounterCount m |},
                ItemFactory.addItem
                  (Player.setGold (Player.gold player - ItemFactory.applyDiscount item player)
                                  player) item)).
Proof.
  unfold Merchant.purchaseItem. cbv zeta.
  destruct (Z.ltb_spec itemIndex 0) as [|Hlo]; cbn [orb]; [left; auto|].
  destruct (Z.leb_spec (Z.of_nat (length (Merchant.inventory m))) itemIndex) as [|Hhi];
    [left; auto|].
  destruct (existsb (Z.eqb itemIndex) (Merchant.soldItems m)) eqn:Hsold; [left; auto|].
  unfold JS.at_. destruct (Z.ltb_spec itemIndex 0) as [|_]; [lia|].
  destruct (Merchant.inventory m !! Z.to_nat itemIndex) as [item|] eqn:Hitem; [|left; auto].
  destruct (Z.ltb_spec (Player.gold player) (ItemFactory.applyDiscount item player)) as [|Hgold];
    [left; auto|].
  right. exists item. repeat split; try done; try lia.
  - intros Hin. apply existsb_Zeqb in Hin. congruence.
  - unfold Player.spendGold.
    destruct (Z.leb_spec (ItemFactory.applyDiscount item player) (Player.gold player)); [|lia].
    reflexivity.
Qed.

Lemma apply_gold_items (k : Item.Kind) (player : Player.t) :
  Player.gold (ItemFactory.apply k player)
  = Player.gold player + match k with Item.ExtraGold => 50 | _ => 0 end
  /\ Player.items (ItemFactory.apply k player) = Player.items player.
Proof. destruct k; cbn; split; try reflexivity; lia. Qed.

Lemma purchaseItem_stock (m : Merchant.t) (itemIndex : Z) (player : Player.t) :
  stock m -> stock (snd (fst (Merchant.purchaseItem m itemIndex player))).
Proof.
  intros [Hnd Hin].
  destruct (purchaseItem_cases m itemIndex player) as [(_ & _ & -> & _)|(item & Hi & Hsold & _ & _ & ->)];
    [by split|].
  cbn. split; cbn.
  - apply NoDup_app. split; [done|]. split; [|apply NoDup_singleton].
    intros x Hx Hx'. apply list_elem_of_singleton in Hx'. by subst.
  - apply Forall_app. split; [done|]. by constructor.
Qed.

Lemma imap_pair_shift {A} (k : nat) (l : list A) :
  imap (fun i x => (S k + i, x)%nat) l = imap ((fun i x => (k + i, x)%nat) ∘ S) l.
Proof. apply imap_ext. intros i x _. cbn. f_equal. lia. Qed.

Lemma available_length (sold : Z -> bool) {A} (l : list A) (k : nat) :
  (length (omap (fun ix : nat * A => if sold (Z.of_nat (fst ix)) then None else Some (snd ix))
                (imap (fun i x => (k + i, x)%nat) l))
   + length (List.filter (fun i => sold (Z.of_nat i)) (seq k (length l))))%nat
  = length l.
Proof.
  revert k. induction l as [|x l IH]; intros k; [reflexivity|].
  cbn [imap omap list_omap length seq List.filter fst snd].
  rewrite Nat.add_0_r, <- imap_pair_shift. specialize (IH (S k)).
  destruct (sold (Z.of_nat k)); cbn [length]; lia.
Qed.

Lemma getAvailableItems_length (m : Merchant.t) :
  stock m ->
  Z.of_nat (length (Merchant.getAvailableItems m)) + Merchant.getTotalSales m
  = Z.of_nat (length (Merchant.inventory m)).
Proof.
  intros [Hnd Hin]. unfold Merchant.getAvailableItems, Merchant.getTotalSales.
  pose proof (available_length (Merchant.isItemSold m) (Merchant.inventory m) 0) as Hlen.
  cbn [Nat.add] in Hlen.
  replace (imap pair (Merchant.inventory m))
    with (imap (fun i (x : Item.t) => (i, x)) (Merchant.inventory m)) by reflexivity.
  rewrite (filter_length_keys Z.of_nat (Merchant.isItemSold m) (Merchant.soldItems m)) in Hlen.
  - lia.
  - intros i. unfold Merchant.isItemSold. apply existsb_Zeqb.
  - apply NoDup_fmap; [intros ? ?; lia | apply NoDup_seq].
  - exact Hnd.
  - intros i Hi. rewrite Forall_forall in Hin. specialize (Hin i Hi).
    apply list_elem_of_fmap. exists (Z.to_nat i). split; [lia|].
    apply elem_of_seq. lia.
Qed.

End Purchases.

(** X3. A purchase that fails (an index outside the inventory, an item
    already sold, too little gold) leaves the merchant and the player as
    they were.  One that succeeds concerns the item at the index, which was
    not sold before; it takes the price after the player's discount, which
    the player could afford, from the gold (the Extra Gold pouch then adds
    its 50), appends the item to the player's items and the index to the
    sold list, and leaves the inventory alone.  No purchase drives the gold
    below zero. *)
Theorem purchase_takes_the_price_or_changes_nothing (m : Merchant.t) (itemIndex : Z)
    (player : Player.t) :
  let result := fst (fst (Merchant.purchaseItem m itemIndex player)) in
  let m' := snd (fst (Merchant.purchaseItem m itemIndex player)) in
  let player' := snd (Merchant.purchaseItem m itemIndex player) in
  (Merchant.success result = false -> m' = m /\ player' = player)
  /\ (Merchant.success result = true ->
      exists item,
        JS.at_ (Merchant.inventory m) itemIndex = Some item
        /\ Merchant.item result = Some item
        /\ Merchant.isItemSold m itemIndex = false
        /\ ItemFactory.applyDiscount item player <= Player.gold player
        /\ Player.gold player'
           = Player.gold player - ItemFactory.applyDiscount item player
             + match Item.kind item with Item.ExtraGold => 50 | _ => 0 end
        /\ Player.items player' = Player.items player ++ [item]
        /\ Merchant.inventory m' = Merchant.inventory m
        /\ Merchant.soldItems m' = Merchant.soldItems m ++ [itemIndex])
  /\ (0 <= Player.gold player -> 0 <= Player.gold player').
Proof.
  intros result m' player'. subst result m' player'.
  destruct (purchaseItem_cases m itemIndex player)
    as [(Hfail & _ & Hm & Hp)|(item & Hi & Hsold & Hitem & Hgold & Hr)].
  - rewrite Hfail, Hm, Hp. split; [done|]. split; [discriminate | done].
  - rewrite Hr. cbn [fst snd Merchant.success Merchant.item Merchant.inventory
                     Merchant.soldItems].
    destruct (apply_gold_items (Item.kind item)
                (Player.setItems
                   (Player.items (Player.setGold
                      (Player.gold player - ItemFactory.applyDiscount item player) player)
                    ++ [item])
                   (Player.setGold (Player.gold player - ItemFactory.applyDiscount item player)
                                   player)))
      as [Hg Hit].
    unfold ItemFactory.addItem. rewrite Hg, Hit. cbn [Player.gold Player.setItems Player.setGold
      Player.items].
    split; [discriminate|]. split.
    + intros _. exists item. repeat split; try done.
      * unfold JS.at_. destruct (Z.ltb_spec itemIndex 0); [lia | done].
      * unfold Merchant.isItemSold. apply not_true_is_false. intros H.
        by apply existsb_Zeqb in H.
    + intros H0. destruct (Item.kind item); lia.
Qed.

Lemma purchase_takes_the_price_or_changes_nothing_witness :
  Player.gold Scenario.buyer = 20
  /\ Player.gold (snd (Merchant.purchaseItem Scenario.firstMerchant 0 Scenario.buyer)) = 5
  /\ snd (Merchant.purchaseItem Scenario.firstMerchant 2 Scenario.buyer) = Scenario.buyer.
Proof.
  destruct (purchase_takes_the_price_or_changes_nothing Scenario.firstMerchant 0 Scenario.buyer)
    as (_ & Hbuy & _).
  destruct (purchase_takes_the_price_or_changes_nothing Scenario.firstMerchant 2 Scenario.buyer)
    as (Hfail & _ & _).
  destruct Hbuy as (item & Hat & _ & _ & _ & Hgold & _); [vm_compute; reflexivity|].
  split; [vm_compute; reflexivity|]. split.
  - rewrite Hgold. vm_compute in Hat. injection Hat as <-. vm_compute. reflexivity.
  - apply Hfail. vm_compute. reflexivity.
Defined.

(** X4. Once an item is sold, its index is marked sold and every further
    attempt to buy it, by whatever player, is refused as already sold and
    changes nothing. *)
Theorem sold_item_cannot_be_bought_again (m : Merchant.t) (itemIndex : Z)
    (player buyer : Player.t) :
  Merchant.success (fst (fst (Merchant.purchaseItem m itemIndex player))) = true ->
  let m' := snd (fst (Merchant.purchaseItem m itemIndex player)) in
  Merchant.isItemSold m' itemIndex = true
  /\ Merchant.purchaseItem m' itemIndex buyer
     = (Merchant.mkPurchase false [JS.Txt "Item already sold."] None, m', buyer).
Proof.
  intros Hok m'. subst m'.
  destruct (purchaseItem_cases m itemIndex player)
    as [(Hfail & _)|(item & Hi & Hsold & Hitem & Hgold & Hr)]; [congruence|].
  rewrite Hr. cbn [fst snd].
  assert (Hnow : existsb (Z.eqb itemIndex) (Merchant.soldItems m ++ [itemIndex]) = true).
  { apply existsb_Zeqb. rewrite elem_of_app, list_elem_of_singleton. by right. }
  split; [exact Hnow|].
  unfold Merchant.purchaseItem. cbn [Merchant.inventory Merchant.soldItems].
  destruct (Z.ltb_spec itemIndex 0); [lia|].
  destruct (Z.leb_spec (Z.of_nat (length (Merchant.inventory m))) itemIndex); [lia|].
  cbn [orb]. by rewrite Hnow.
Qed.

Lemma sold_item_cannot_be_bought_again_witness :
  Merchant.message
    (fst (fst (Merchant.purchaseItem
                 (snd (fst (Merchant.purchaseItem Scenario.firstMerchant 0 Scenario.buyer)))
                 0 Scenario.buyer)))
  = [JS.Txt "Item already sold."].
Proof.
  destruct (sold_item_cannot_be_bought_again Scenario.firstMerchant 0 Scenario.buyer
              Scenario.buyer) as [_ Hagain]; [vm_compute; reflexivity|].
  by rewrite Hagain.
Defined.

(** ** The slots of a turn *)

Section Slots.

Lemma assignedIds_inSlots (a : GameManager.Assigned) :
  GameManager.assignedIds a = Dice.id <$> inSlots a.
Proof.
  unfold GameManager.assignedIds, inSlots. rewrite !fmap_app.
  by destruct (GameManager.attack a), (GameManager.defense a).
Qed.

(** What [removeDieFromAllSlots] leaves in the slots. *)
Lemma removeDieFromAllSlots_inSlots (dieId : string) (g : GameManager.t) :
  inSlots (GameManager.assignedDice (GameManager.removeDieFromAllSlots dieId g))
  = List.filter (fun d => negb (GameManager.idIs dieId d)) (inSlots (GameManager.assignedDice g)).
Proof.
  unfold GameManager.removeDieFromAllSlots, inSlots. cbn.
  rewrite !List.filter_app.
  destruct (GameManager.attack _) as [d1|], (GameManager.defense _) as [d2|]; cbn;
    repeat match goal with |- context [GameManager.idIs dieId ?d] =>
             destruct (GameManager.idIs dieId d) end; reflexivity.
Qed.

Lemma find_idIs (dieId : string) (l : list Dice.t) (die : Dice.t) :
  List.find (GameManager.idIs dieId) l = Some die -> die ∈ l /\ Dice.id die = dieId.
Proof.
  intros H. apply find_some in H as [Hin Hid]. split; [by apply list_elem_of_In|].
  unfold GameManager.idIs in Hid. by apply String.eqb_eq.
Qed.

Lemma assignDie_slots (dieId slot : string) (g : GameManager.t) :
  slots g -> slots (snd (GameManager.assignDie dieId slot g)).
Proof.
  intros [Hnd Hin]. unfold GameManager.assignDie.
  destruct (List.find _ _) as [die|] eqn:Hfind; [|done].
  destruct (Dice.isRolled die); [|done].
  apply find_idIs in Hfind as [Hdie Hid].
  pose proof (removeDieFromAllSlots_inSlots dieId g) as Hrem.
  set (g1 := GameManager.removeDieFromAllSlots dieId g) in *.
  assert (Hrolled : GameManager.rolledDice g1 = GameManager.rolledDice g) by reflexivity.
  assert (Hnd1 : NoDup (Dice.id <$> inSlots (GameManager.assignedDice g1))).
  { rewrite Hrem. by apply filter_NoDup_fmap. }
  assert (Hin1 : forall d, d ∈ inSlots (GameManager.assignedDice g1) ->
                           d ∈ GameManager.rolledDice g /\ Dice.id d <> dieId).
  { intros d. rewrite Hrem, filter_elem_of. intros [Hd Hne]. split; [by apply Hin|].
    unfold GameManager.idIs in Hne. intros Heq.
    by rewrite Heq, String.eqb_refl in Hne. }
  clearbody g1. clear Hrem Hnd Hin.
  unfold slots, inSlots in *. cbn [snd].
  destruct (GameManager.assignedDice g1) as [att def sp] eqn:Ha.
  cbn [GameManager.attack GameManager.defense GameManager.special] in *.
  assert (Hfresh : forall l : list Dice.t, (forall d, d ∈ l -> d ∈ option_list att ++ option_list def ++ sp) ->
                             dieId ∉ (Dice.id <$> l)).
  { intros l Hl Hin. apply list_elem_of_fmap in Hin as (d & Hd & Hin).
    apply Hl, Hin1 in Hin as [_ Hne]. by rewrite Hd in Hne. }
  rewrite !fmap_app in Hnd1. apply NoDup_app in Hnd1 as (Hatt & Hdisj1 & Hnd1).
  apply NoDup_app in Hnd1 as (Hdef & Hdisj2 & Hsp).
  destruct (String.eqb slot "attack"); [|destruct (String.eqb slot "defense");
    [|destruct (String.eqb slot "special")]];
    cbn [GameManager.assignedDice GameManager.setAssignedDice GameManager.rolledDice
         GameManager.attack GameManager.defense GameManager.special option_list];
    rewrite ?Hrolled; try change (option_list (Some die)) with [die].
  - split.
    + rewrite !fmap_app. cbn [fmap list_fmap app]. rewrite Hid. apply NoDup_cons. split.
      * rewrite <- fmap_app. apply Hfresh. intros d Hd. rewrite elem_of_app. by right.
      * apply NoDup_app. done.
    + intros d. rewrite elem_of_app. cbn. rewrite elem_of_cons. intros [[->|Hd]|Hd]; [done| |].
      * by apply elem_of_nil in Hd.
      * apply Hin1. rewrite elem_of_app. by right.
  - split.
    + rewrite !fmap_app. cbn [fmap list_fmap app]. rewrite Hid. apply NoDup_app.
      split; [done|]. split.
      * intros i Hi. rewrite elem_of_cons. intros [->|Hi2].
        -- revert Hi. apply Hfresh. intros d Hd. rewrite elem_of_app. by left.
        -- apply (Hdisj1 i Hi). rewrite elem_of_app. by right.
      * apply NoDup_cons. split; [|done].
        apply Hfresh. intros d Hd. rewrite !elem_of_app. right. by right.
    + intros d. rewrite !elem_of_app. cbn. rewrite elem_of_cons.
      intros [Hd|[[->|Hd]|Hd]]; [| done | by apply elem_of_nil in Hd |].
      * apply Hin1. rewrite elem_of_app. by left.
      * apply Hin1. rewrite !elem_of_app. right. by right.
  - split.
    + rewrite !fmap_app. cbn [fmap list_fmap app]. rewrite Hid.
      rewrite !app_assoc. apply NoDup_app. split; [|split].
      * rewrite <- app_assoc. apply NoDup_app. split; [done|]. split; [done|].
        apply NoDup_app. done.
      * intros i Hi. rewrite elem_of_cons. intros [->|Hi2]; [|by apply elem_of_nil in Hi2].
        revert Hi. rewrite <- !fmap_app, <- app_assoc. by apply Hfresh.
      * apply NoDup_singleton.
    + intros d. rewrite !elem_of_app. cbn. rewrite elem_of_cons.
      intros [Hd|[Hd|[Hd|[->|Hd]]]]; [| | | done | by apply elem_of_nil in Hd].
      * apply Hin1. rewrite elem_of_app. by left.
      * apply Hin1. rewrite !elem_of_app. right. by left.
      * apply Hin1. rewrite !elem_of_app. right. by right.
  - split.
    + rewrite !fmap_app. apply NoDup_app. split; [done|]. split; [done|]. by apply NoDup_app.
    + intros d Hd. by apply Hin1.
Qed.

Lemma slots_sublist (g g' : GameManager.t) :
  slots g ->
  inSlots (GameManager.assignedDice g') `sublist_of` inSlots (GameManager.assignedDice g) ->
  GameManager.rolledDice g' = GameManager.rolledDice g ->
  slots g'.
Proof.
  intros [Hnd Hin] Hsub Hrolled. split.
  - eapply sublist_NoDup; [exact Hnd|]. by apply fmap_sublist.
  - intros d Hd. rewrite Hrolled. apply Hin. by eapply elem_of_sublist.
Qed.

Lemma slots_noDice (g : GameManager.t) :
  GameManager.assignedDice g = GameManager.noDice -> slots g.
Proof.
  intros Ha. unfold slots. rewrite Ha. cbn. split; [constructor|].
  intros d Hd. by apply elem_of_nil in Hd.
Qed.

Lemma unassignDie_slots (dieId slot : string) (g : GameManager.t) :
  slots g -> slots (snd (GameManager.unassignDie dieId slot g)).
Proof.
  intros Hs. unfold GameManager.unassignDie. cbv zeta.
  destruct (String.eqb slot "attack" && _); [|destruct (String.eqb slot "defense" && _);
    [|destruct (String.eqb slot "special"); [destruct (JS.findIndex _ _)|]]];
    cbn [snd]; try exact Hs;
    (eapply slots_sublist; [exact Hs| |reflexivity]); unfold inSlots; cbn.
  - apply sublist_inserts_l. reflexivity.
  - apply sublist_app; [reflexivity|]. apply sublist_inserts_l. reflexivity.
  - apply sublist_app; [reflexivity|]. apply sublist_app; [reflexivity|]. apply sublist_delete.
Qed.

Lemma rollDice_slots rand (g : GameManager.t) :
  slots g -> slots (snd (GameManager.rollDice rand g)).
Proof.
  intros Hs. unfold GameManager.rollDice.
  destruct (GameManager.player g); [|exact Hs].
  destruct (GameState.eqb _ _); [|exact Hs].
  by apply slots_noDice.
Qed.

Lemma rollDice_sameRun rand (g : GameManager.t) :
  let g' := snd (GameManager.rollDice rand g) in
  GameManager.currentRound g' = GameManager.currentRound g
  /\ GameManager.merchantEncounterCount g' = GameManager.merchantEncounterCount g
  /\ GameManager.merchant g' = GameManager.merchant g
  /\ GameManager.gameState g' = GameManager.gameState g
  /\ GameManager.stats g' = GameManager.stats g
  /\ (is_Some (GameManager.player g') <-> is_Some (GameManager.player g)).
Proof.
  unfold GameManager.rollDice.
  destruct (GameManager.player g) eqn:Hp; [|cbn; rewrite Hp; tauto].
  destruct (GameState.eqb _ _); cbn; rewrite ?Hp; repeat split; eauto.
Qed.

Lemma getAssignedDiceCount_inSlots (g : GameManager.t) :
  GameManager.getAssignedDiceCount g
  = Z.of_nat (length (inSlots (GameManager.assignedDice g))).
Proof.
  unfold GameManager.getAssignedDiceCount, inSlots. cbv zeta.
  destruct (GameManager.attack _), (GameManager.defense _); rewrite !length_app; cbn; lia.
Qed.

Lemma assignDie_frame (dieId slot : string) (g : GameManager.t) :
  exists a, snd (GameManager.assignDie dieId slot g) = GameManager.setAssignedDice a g.
Proof.
  unfold GameManager.assignDie.
  destruct (List.find _ _) as [die|]; [destruct (Dice.isRolled die)|];
    cbn [snd]; try (exists (GameManager.assignedDice g); by destruct g).
  eexists. reflexivity.
Qed.

Lemma unassignDie_frame (dieId slot : string) (g : GameManager.t) :
  exists a, snd (GameManager.unassignDie dieId slot g) = GameManager.setAssignedDice a g.
Proof.
  unfold GameManager.unassignDie. cbv zeta.
  destruct (String.eqb slot "attack" && _); [|destruct (String.eqb slot "defense" && _);
    [|destruct (String.eqb slot "special"); [destruct (JS.findIndex _ _)|]]];
    cbn [snd]; try (exists (GameManager.assignedDice g); by destruct g); eexists; reflexivity.
Qed.

Lemma rollDice_idle rand (g : GameManager.t) :
  idle g -> idle (snd (GameManager.rollDice rand g)).
Proof.
  intros Hg. unfold GameManager.rollDice.
  destruct (GameManager.player g); [|exact Hg].
  destruct (GameState.eqb _ _) eqn:Hs; [|exact Hg].
  apply GameState_eqb_eq in Hs. unfold idle. cbn. rewrite Hs. discriminate.
Qed.

End Slots.

(** ** The outcomes of a turn *)

Section Turns.

Lemma handleEnemyDefeat_frame a p e log g r g' :
  GameManager.handleEnemyDefeat a p e log g = Some (r, g') ->
  (exists log' s, r = GameManager.EnemyDefeated log' s)
  /\ GameManager.rolledDice g' = GameManager.rolledDice g
  /\ GameManager.bestRuns g' = GameManager.bestRuns g
  /\ GameManager.currentRound g' = GameManager.currentRound g + 1
  /\ Stats.enemiesDefeated (GameManager.stats g') = Stats.enemiesDefeated (GameManager.stats g) + 1
  /\ Stats.highestRound (GameManager.stats g')
     = Z.max (Stats.highestRound (GameManager.stats g)) (GameManager.currentRound g + 1)
  /\ GameManager.hasRolled g' = false
  /\ GameManager.assignedDice g' = GameManager.noDice
  /\ GameManager.player g' = Some (Player.resetRerolls (Player.addGold p
       (Stats.goldEarned (GameManager.stats g') - Stats.goldEarned (GameManager.stats g))))
  /\ (if Z.rem (GameManager.currentRound g + 1) 3 =? 0
      then GameManager.gameState g' = GameState.merchant
           /\ GameManager.merchantEncounterCount g' = GameManager.merchantEncounterCount g + 1
           /\ GameManager.enemy g' = Some e
           /\ exists m, GameManager.merchant g' = Some m
                /\ Merchant.soldItems m = []
                /\ Merchant.variant m
                   = Merchant.variant (MerchantFactory.createMerchant
                                         (GameManager.merchantEncounterCount g + 1))
      else GameManager.gameState g' = GameManager.gameState g
           /\ GameManager.merchantEncounterCount g' = GameManager.merchantEncounterCount g
           /\ GameManager.merchant g' = GameManager.merchant g
           /\ is_Some (GameManager.enemy g')).
Proof.
  unfold GameManager.handleEnemyDefeat.
  cbn [GameManager.currentRound GameManager.setCurrentRound GameManager.setStats
       GameManager.setPlayer GameManager.setEnemy].
  destruct (Z.rem (GameManager.currentRound g + 1) 3 =? 0).
  - cbn [GameManager.merchantEncounterCount GameManager.setMerchantEncounterCount
         GameManager.setGameState].
    unfold Merchant.generateInventory.
    destruct (match Merchant.variant _ with Merchant.Normal => _ | _ => _ end)
      as [inv|] eqn:Hinv; cbn [mbind option_bind]; [|discriminate].
    intros [= <- <-]. cbn.
    repeat match goal with |- _ /\ _ => split end; eauto.
    + f_equal. f_equal. f_equal. lia.
  - unfold GameManager.spawnEnemy.
    cbn [GameManager.currentRound GameManager.setCurrentRound GameManager.setStats
         GameManager.setPlayer GameManager.setEnemy].
    destruct (EnemyFactory.createEnemy _ _) as [e'|]; cbn [mbind option_bind]; [|discriminate].
    intros [= <- <-]. cbn.
    repeat match goal with |- _ /\ _ => split end; eauto.
    + f_equal. f_equal. f_equal. lia.
Qed.

Lemma executeTurn_cases a g r g' :
  GameManager.executeTurn a g = Some (r, g') ->
  (GameManager.canExecuteTurn g = false /\ g' = g
   /\ r = GameManager.Rejected "Assign at least one die before executing turn.")
  \/ (GameManager.canExecuteTurn g = true
      /\ exists p e log g1,
           GameManager.handleEnemyDefeat a p e log g1 = Some (r, g')
           /\ sameRun g g1
           /\ GameManager.gameState g1 = GameManager.gameState g
           /\ GameManager.bestRuns g1 = GameManager.bestRuns g)
  \/ (GameManager.canExecuteTurn g = true
      /\ exists log p3 e3,
           Player.isAlive p3 = true
           /\ r = GameManager.Resolved log (Player.currentHP p3) (Enemy.currentHP e3)
           /\ GameManager.player g' = Some (Player.resetRerolls p3)
           /\ GameManager.enemy g' = Some e3
           /\ GameManager.hasRolled g' = false
           /\ GameManager.assignedDice g' = GameManager.noDice
           /\ GameManager.gameState g' = GameManager.gameState g
           /\ GameManager.bestRuns g' = GameManager.bestRuns g
           /\ sameRun g g')
  \/ (GameManager.canExecuteTurn g = true
      /\ exists log p3 e3,
           Player.isAlive p3 = false
           /\ r = GameManager.PlayerDefeated log (GameManager.stats g')
           /\ GameManager.player g' = Some p3
           /\ GameManager.enemy g' = Some e3
           /\ GameManager.hasRolled g' = GameManager.hasRolled g
           /\ GameManager.assignedDice g' = GameManager.assignedDice g
           /\ GameManager.gameState g' = GameState.gameOver
           /\ sameRun g g').
Proof.
  unfold GameManager.executeTurn.
  destruct (GameManager.canExecuteTurn g) eqn:Hcan; cbn [negb].
  2:{ intros [= <- <-]. left. auto. }
  destruct (GameManager.player g) as [p|]; cbn [mbind option_bind]; [|discriminate].
  destruct (GameManager.enemy g) as [e|]; cbn [mbind option_bind]; [|discriminate].
  destruct (GameManager.resolveAbilities _ _ _ _ _) as [[[[c activated] p1] e1]|];
    cbn [mbind option_bind]; [|discriminate].
  destruct (GameManager.strikeEnemy _ _ _) as [[log1 dealt] e2].
  destruct (negb (Enemy.isAlive e2)).
  - intros H. right. left. split; [reflexivity|]. do 4 eexists. split; [exact H|].
    unfold sameRun. cbn. tauto.
  - destruct (if negb _ then _ else _) as [[[log2 taken] p2] e3].
    destruct (GameManager.playerUpkeep p2 log2) as [log3 p3].
    destruct (Player.isAlive p3) eqn:Halive; cbn [negb].
    + intros [= <- <-]. right. right. left. split; [reflexivity|]. exists log3, p3, e3.
      unfold sameRun. cbn. tauto.
    + intros [= <- <-]. right. right. right. split; [reflexivity|]. exists
        (GameManager.say Log.enemy [JS.Txt "You have been defeated..."] log3), p3, e3.
      unfold sameRun. cbn. tauto.
Qed.

End Turns.

(** ** The states of a session *)

Section Sessions.

(** A call that leaves the round, the counter and the two statistics of
    the round alone, does not open the merchant state, makes no player
    and keeps the variant and the stock of the merchant keeps the
    invariant, once the slots are seen to. *)
Lemma holds_step (g g' : GameManager.t) :
  holds g ->
  GameManager.currentRound g' = GameManager.currentRound g ->
  GameManager.merchantEncounterCount g' = GameManager.merchantEncounterCount g ->
  Stats.enemiesDefeated (GameManager.stats g') = Stats.enemiesDefeated (GameManager.stats g) ->
  Stats.highestRound (GameManager.stats g') = Stats.highestRound (GameManager.stats g) ->
  (GameManager.gameState g' = GameState.merchant -> GameManager.gameState g = GameState.merchant) ->
  (is_Some (GameManager.player g') -> is_Some (GameManager.player g)) ->
  (GameManager.merchant g' = GameManager.merchant g
   \/ exists m m', GameManager.merchant g = Some m /\ GameManager.merchant g' = Some m'
        /\ Merchant.variant m' = Merchant.variant m /\ (stock m -> stock m')) ->
  slots g' -> idle g' ->
  holds g'.
Proof.
  intros (Hcad & Htally & Hstock & _) Hround Hcount Hdef Hhigh Hstate Hplayer Hmerchant Hslots
    Hidle.
  split; [|split; [|split; [|split]]]; [| | |exact Hslots|exact Hidle].
  - destruct Hcad as (H0 & Hc & Hm). unfold cadence. rewrite Hround, Hcount.
    split; [done|]. split; [done|]. intros Hs. apply Hstate in Hs.
    destruct (Hm Hs) as (H3 & Hmod & m & Hgm & Hv). split; [done|]. split; [done|].
    destruct Hmerchant as [->|(m1 & m' & Hm1 & Hm' & Hv' & _)]; [eauto|].
    exists m'. split; [done|]. rewrite Hv'. congruence.
  - intros Hp. unfold tally in Htally. rewrite Hround, Hdef, Hhigh. apply Htally. auto.
  - intros m' Hm'. destruct Hmerchant as [Heq|(m & m1 & Hm & Hm1 & _ & Hst)].
    + apply Hstock. congruence.
    + assert (m1 = m') as -> by congruence. apply Hst, Hstock, Hm.
Qed.

Lemma new_holds (stored : option (list RunData.t)) :
  holds (GameManager.setBestRuns stored GameManager.new).
Proof.
  split; [|split; [|split; [|split]]].
  - split; [done|]. split; [reflexivity|]. discriminate.
  - intros [p Hp]. discriminate Hp.
  - intros m Hm. discriminate Hm.
  - by apply slots_noDice.
  - discriminate.
Qed.

Lemma spawnEnemy_holds (u : JS.double) (g g' : GameManager.t) :
  holds g -> GameManager.gameState g <> GameState.merchant ->
  GameManager.spawnEnemy u g = Some g' -> holds g'.
Proof.
  intros Hg Hstate. unfold GameManager.spawnEnemy.
  destruct (EnemyFactory.createEnemy _ _) as [e|]; cbn [mbind option_bind]; [|discriminate].
  intros [= <-]. apply (holds_step g); try done; [by left | by apply slots_noDice].
Qed.

Lemma handleEnemyDefeat_holds a p e log (g g1 : GameManager.t) r g' :
  holds g -> is_Some (GameManager.player g) -> sameRun g g1 ->
  GameManager.gameState g1 = GameManager.gameState g ->
  GameManager.gameState g <> GameState.merchant ->
  GameManager.handleEnemyDefeat a p e log g1 = Some (r, g') -> holds g'.
Proof.
  intros (Hcad & Htally & Hstock & _) Hp (Hround & Hcount & Hmerchant & _ & Hdef & Hhigh) Hstate
    Hnot H.
  apply handleEnemyDefeat_frame in H
    as (_ & _ & _ & Hr & Hd & Hh & Hroll & Ha & Hp' & Hbranch).
  destruct Hcad as (H0 & Hc & Hm). destruct (Htally Hp) as (H1 & Hdef0 & Hhigh0).
  rewrite Hround, ?Hcount, ?Hmerchant, ?Hdef, ?Hhigh, ?Hstate in *.
  split; [|split; [|split; [|split]]]; [| | |by apply slots_noDice|by intros _].
  - unfold cadence. rewrite Hr. split; [lia|].
    rewrite Z.rem_mod_nonneg in Hbranch by lia.
    destruct (Z.eqb_spec ((GameManager.currentRound g + 1) mod 3) 0) as [Hmod|Hmod].
    + destruct Hbranch as (Hs & Hcnt & _ & m & Hgm & _ & Hv). rewrite Hcnt, Hc.
      split; [Z.to_euclidean_division_equations; lia|].
      intros _. split; [Z.to_euclidean_division_equations; lia|]. split; [done|].
      exists m. split; [done|]. by rewrite Hv, Hc.
    + destruct Hbranch as (Hs & Hcnt & Hgm & _). rewrite Hcnt, Hc, Hs, Hgm.
      split; [Z.to_euclidean_division_equations; lia|].
      intros Hst. by destruct Hnot.
  - intros _. rewrite Hr, Hd, Hh, Hdef0, Hhigh0. split; [lia|]. split; [lia|].
    destruct (Z.eqb_spec (GameManager.currentRound g) 1),
             (Z.eqb_spec (GameManager.currentRound g + 1) 1); lia.
  - intros m Hgm. rewrite Z.rem_mod_nonneg in Hbranch by lia.
    destruct (Z.eqb_spec ((GameManager.currentRound g + 1) mod 3) 0) as [Hmod|Hmod].
    + destruct Hbranch as (_ & _ & _ & m' & Hgm' & Hsold & _).
      assert (m' = m) as -> by congruence. unfold stock. rewrite Hsold.
      split; constructor.
    + destruct Hbranch as (_ & _ & Hgm' & _). apply Hstock. congruence.
Qed.

Lemma call_holds (c : Session.Call) (g g' : GameManager.t) :
  holds g -> Session.call c g = Some g' -> holds g'.
Proof.
  intros Hg. pose proof Hg as (Hcad & Htally & Hstock & Hslots & Hidle).
  destruct c as [cn dice u|rand|rand|dieId slot|dieId slot|a|itemIndex|u|a|u v|];
    cbn [Session.call].
  - (* startNewRun *)
    unfold GameManager.startNewRun, GameManager.spawnEnemy. cbv zeta.
    destruct (EnemyFactory.createEnemy _ _) as [e|]; cbn [mbind option_bind]; [|discriminate].
    intros [= <-]. split; [|split; [|split; [|split]]]; [| | |by apply slots_noDice|discriminate].
    + split; [done|]. split; [reflexivity|]. discriminate.
    + intros _. cbn. lia.
    + exact Hstock.
  - (* rollDice *)
    intros [= <-]. destruct (rollDice_sameRun rand g) as (Hr & Hc & Hm & Hs & Hst & Hp).
    apply (holds_step g); try done; try (by rewrite Hst); try (by rewrite Hs);
      [by apply Hp | by left | by apply rollDice_slots | by apply rollDice_idle].
  - (* rerollDice *)
    unfold GameManager.rerollDice.
    destruct (GameManager.player g) as [p|] eqn:Hp; cbn [mbind option_bind]; [|discriminate].
    destruct (Player.canReroll p); cbn [fmap option_fmap option_map snd]; intros [= <-];
      [|exact Hg].
    set (g1 := GameManager.setPlayer _ g).
    destruct (rollDice_sameRun rand g1) as (Hr & Hc & Hm & Hs & Hst & Hp').
    apply (holds_step g);
      [exact Hg | exact Hr | exact Hc | by rewrite Hst | by rewrite Hst | by rewrite Hs
      | intros _; eauto | by left | by apply rollDice_slots | by apply rollDice_idle].
  - (* assignDie *)
    intros [= <-]. pose proof (assignDie_slots dieId slot g Hslots) as Hs.
    destruct (assignDie_frame dieId slot g) as [a0 Ha]. rewrite Ha in *.
    apply (holds_step g); try done. by left.
  - (* unassignDie *)
    intros [= <-]. pose proof (unassignDie_slots dieId slot g Hslots) as Hs.
    destruct (unassignDie_frame dieId slot g) as [a0 Ha]. rewrite Ha in *.
    apply (holds_step g); try done. by left.
  - (* executeTurn *)
    destruct (GameManager.executeTurn a g) as [[r g1]|] eqn:Hturn;
      cbn [fmap option_fmap option_map snd]; [|discriminate].
    intros [= <-].
    assert (Hplayer : GameManager.canExecuteTurn g = true ->
                      is_Some (GameManager.player g)
                      /\ GameManager.gameState g <> GameState.merchant).
    { intros Hcan. split.
      - unfold GameManager.executeTurn in Hturn. rewrite Hcan in Hturn.
        cbn [negb] in Hturn. destruct (GameManager.player g); [eauto | discriminate].
      - intros Hs. apply Hidle in Hs. unfold GameManager.canExecuteTurn in Hcan.
        by rewrite Hs in Hcan. }
    apply executeTurn_cases in Hturn
      as [(_ & -> & _)|[(Hcan & p & e & log & g0 & Hdefeat & Hsame & Hstate & _)
         |[(Hcan & log & p3 & e3 & _ & _ & Hp & _ & Hroll & Ha & Hstate & _ & Hsame)
          |(Hcan & log & p3 & e3 & _ & _ & Hp & _ & _ & Ha & Hstate & Hsame)]]];
      [exact Hg | | |]; destruct (Hplayer Hcan) as [Hsome Hnot].
    + eapply handleEnemyDefeat_holds; eauto.
    + destruct Hsame as (Hr & Hc & Hm & Hrd & Hd & Hh).
      apply (holds_step g); try done;
        [by rewrite Hstate | by left | by apply slots_noDice | by intros _].
    + destruct Hsame as (Hr & Hc & Hm & Hrd & Hd & Hh).
      apply (holds_step g); try done; [by rewrite Hstate | by left | |].
      * unfold slots. rewrite Ha, Hrd. exact Hslots.
      * unfold idle. by rewrite Hstate.
  - (* purchaseItem *)
    unfold GameManager.purchaseItem. cbv zeta.
    destruct (GameManager.merchant g) as [m|] eqn:Hm;
      [|cbn [fmap option_fmap option_map snd]; by intros [= <-]].
    destruct (GameState.eqb _ _); [|cbn [fmap option_fmap option_map snd]; by intros [= <-]].
    destruct (GameManager.player g) as [p|] eqn:Hp; cbn [mbind option_bind]; [|discriminate].
    pose proof (purchaseItem_stock m itemIndex p) as Hst.
    assert (Hv : Merchant.variant (snd (fst (Merchant.purchaseItem m itemIndex p)))
                 = Merchant.variant m).
    { destruct (purchaseItem_cases m itemIndex p) as [(_ & _ & -> & _)|(item & _ & _ & _ & _ & ->)];
        reflexivity. }
    destruct (Merchant.purchaseItem m itemIndex p) as [[res m'] p'].
    cbn [fst snd] in *. cbn [fmap option_fmap option_map snd]. intros [= <-].
    apply (holds_step g);
      [ exact Hg | by destruct (Merchant.success res) | by destruct (Merchant.success res)
      | by destruct (Merchant.success res) | by destruct (Merchant.success res)
      | by destruct (Merchant.success res) | intros _; rewrite Hp; eauto
      | right; exists m, m'
      | by destruct (Merchant.success res) | by destruct (Merchant.success res) ].
    split; [exact Hm|]. split; [by destruct (Merchant.success res)|]. by split.
  - (* leaveMerchant *)
    unfold GameManager.leaveMerchant.
    destruct (GameState.eqb _ _); cbn [negb fmap option_fmap option_map snd];
      [|by intros [= <-]].
    destruct (GameManager.spawnEnemy u _) as [g1|] eqn:Hspawn; cbn [mbind option_bind];
      [|discriminate].
    cbn [fmap option_fmap option_map snd]. intros [= <-].
    eapply spawnEnemy_holds; [| |exact Hspawn]; [|discriminate].
    apply (holds_step g); try done; [by left].
  - (* handlePlayerDefeat *)
    intros [= <-]. apply (holds_step g); try done; [by left].
  - (* getGameState *)
    unfold GameManager.getGameState. cbv zeta.
    destruct (match GameManager.enemy g with Some _ => _ | None => _ end) as [ev e'].
    destruct (match GameManager.merchant g with Some _ => _ | None => _ end) as [mv|];
      cbn [mbind option_bind fmap option_fmap option_map snd]; [|discriminate].
    intros [= <-]. apply (holds_step g); try done; by left.
  - (* resetGame *)
    intros [= <-]. split; [|split; [|split; [|split]]]; [| | |by apply slots_noDice|discriminate].
    + split; [done|]. split; [reflexivity|]. discriminate.
    + intros [p Hp]. discriminate Hp.
    + intros m Hm. discriminate Hm.
Qed.

Lemma reachable_holds (g : GameManager.t) : Session.reachable g -> holds g.
Proof.
  induction 1 as [stored|c g g' _ IH Hcall]; [apply new_holds | by eapply call_holds].
Qed.

Lemma reachable_calls (cs : list Session.Call) (g g' : GameManager.t) :
  Session.reachable g -> Session.calls cs g = Some g' -> Session.reachable g'.
Proof.
  revert g. induction cs as [|c cs IH]; intros g Hg; cbn [Session.calls].
  - by intros [= <-].
  - destruct (Session.call c g) as [g1|] eqn:Hc; cbn [mbind option_bind]; [|discriminate].
    apply IH. by eapply Session.reachable_call.
Qed.

Lemma atMerchant_reachable (g : GameManager.t) :
  Scenario.atMerchant = Some g -> Session.reachable g.
Proof. apply reachable_calls. apply (Session.reachable_new None). Qed.

End Sessions.

(** X5. Which merchant a round brings.  In every state that a session
    reaches, a manager in the merchant state holds a merchant, its round is
    a multiple of 3 and the encounter counter is a third of it; the merchant
    is the Black Market when 27 divides the round, the Discount merchant
    when 18 does and 27 does not, and the normal merchant in every other
    round: the Mysterious merchant is never met. *)
Theorem merchant_of_a_round (g : GameManager.t) :
  Session.reachable g -> GameManager.gameState g = GameState.merchant ->
  exists m,
    GameManager.merchant g = Some m
    /\ GameManager.currentRound g mod 3 = 0
    /\ GameManager.merchantEncounterCount g = GameManager.currentRound g / 3
    /\ Merchant.variant m
       = (if GameManager.currentRound g mod 27 =? 0 then Merchant.BlackMarket
          else if GameManager.currentRound g mod 18 =? 0 then Merchant.Discount
          else Merchant.Normal).
Proof.
  intros Hg Hstate. apply reachable_holds in Hg as ((H0 & Hc & Hm) & _).
  destruct (Hm Hstate) as (H3 & Hmod & m & Hgm & Hv).
  exists m. split; [done|]. split; [done|]. split; [done|].
  rewrite Hv, Hc. unfold MerchantFactory.createMerchant.
  set (r := GameManager.currentRound g) in *.
  assert (Hn : 1 <= r / 3) by (Z.to_euclidean_division_equations; lia).
  rewrite !Z.rem_mod_nonneg by lia.
  replace (0 <? r / 3) with true by (symmetry; apply Z.ltb_lt; lia).
  rewrite !andb_true_r.
  destruct (Z.eqb_spec ((r / 3) mod 9) 0) as [H9|H9], (Z.eqb_spec (r mod 27) 0) as [H27|H27];
    try (exfalso; Z.to_euclidean_division_equations; lia); [reflexivity|].
  destruct (Z.eqb_spec ((r / 3) mod 6) 0) as [H6|H6], (Z.eqb_spec (r mod 18) 0) as [H18|H18];
    try (exfalso; Z.to_euclidean_division_equations; lia); [reflexivity|].
  destruct (Z.eqb_spec ((r / 3) mod 12) 0) as [H12|H12]; [|reflexivity].
  exfalso; Z.to_euclidean_division_equations; lia.
Qed.

Lemma merchant_of_a_round_witness :
  exists g m,
    Scenario.atMerchant = Some g /\ GameManager.merchant g = Some m
    /\ GameManager.currentRound g = 3 /\ Merchant.variant m = Merchant.Normal.
Proof.
  pose (g := default GameManager.new Scenario.atMerchant).
  assert (Hg : Scenario.atMerchant = Some g) by (vm_compute; reflexivity).
  destruct (merchant_of_a_round g) as (m & Hm & _ & _ & Hv).
  - by apply atMerchant_reachable.
  - vm_compute; reflexivity.
  - exists g, m. split; [exact Hg|]. split; [exact Hm|].
    split; [vm_compute; reflexivity|]. rewrite Hv. vm_compute; reflexivity.
Defined.

(** X6. The statistics follow the round.  In every state of a session
    with a player, the round is 1 at least and the enemies defeated are one
    fewer than the round, so that the summary of the run that [saveBestRun]
    would store carries the same number as rounds survived and as enemies
    defeated; the highest round of the statistics is 0 as long as the round
    is 1 and the round itself from then on. *)
Theorem statistics_follow_the_round (date : string) (g : GameManager.t) :
  Session.reachable g -> is_Some (GameManager.player g) ->
  1 <= GameManager.currentRound g
  /\ Stats.enemiesDefeated (GameManager.stats g) = GameManager.currentRound g - 1
  /\ RunData.round (GameManager.runData date g)
     = RunData.enemiesDefeated (GameManager.runData date g)
  /\ Stats.highestRound (GameManager.stats g)
     = (if GameManager.currentRound g =? 1 then 0 else GameManager.currentRound g).
Proof.
  intros Hg Hp. apply reachable_holds in Hg as (_ & Htally & _).
  destruct (Htally Hp) as (H1 & Hd & Hh). repeat split; try done.
Qed.

Lemma statistics_follow_the_round_witness :
  exists g,
    Scenario.atMerchant = Some g
    /\ Stats.enemiesDefeated (GameManager.stats g) = 2
    /\ Stats.highestRound (GameManager.stats g) = 3.
Proof.
  pose (g := default GameManager.new Scenario.atMerchant).
  assert (Hg : Scenario.atMerchant = Some g) by (vm_compute; reflexivity).
  destruct (statistics_follow_the_round "11/01/2026" g) as (_ & Hd & _ & Hh).
  - by apply atMerchant_reachable.
  - vm_compute. eauto.
  - exists g. split; [exact Hg|]. rewrite Hd, Hh. split; vm_compute; reflexivity.
Defined.

(** X7. In the merchant state no turn can be played: in every state of a
    session in which the manager is in the merchant state, [rollDice] is
    refused and [executeTurn] is rejected, both leaving the manager as it
    is. *)
Theorem merchant_state_refuses_rolls_and_turns (a : GameManager.Ambient)
    (rand : ItemFactory.Draws) (g : GameManager.t) :
  Session.reachable g -> GameManager.gameState g = GameState.merchant ->
  GameManager.rollDice rand g = (false, g)
  /\ GameManager.executeTurn a g
     = Some (GameManager.Rejected "Assign at least one die before executing turn.", g).
Proof.
  intros Hg Hstate. apply reachable_holds in Hg as (_ & _ & _ & _ & Hidle).
  split.
  - unfold GameManager.rollDice. rewrite Hstate. by destruct (GameManager.player g).
  - unfold GameManager.executeTurn, GameManager.canExecuteTurn. by rewrite (Hidle Hstate).
Qed.

Lemma merchant_state_refuses_rolls_and_turns_witness :
  exists g,
    Scenario.atMerchant = Some g
    /\ GameManager.rollDice (Scenario.draws []) g = (false, g)
    /\ GameManager.executeTurn Scenario.quiet g
       = Some (GameManager.Rejected "Assign at least one die before executing turn.", g).
Proof.
  pose (g := default GameManager.new Scenario.atMerchant).
  assert (Hg : Scenario.atMerchant = Some g) by (vm_compute; reflexivity).
  exists g. split; [exact Hg|].
  apply (merchant_state_refuses_rolls_and_turns Scenario.quiet (Scenario.draws []) g).
  - by apply atMerchant_reachable.
  - vm_compute; reflexivity.
Defined.

(** X8. The sold list of a merchant and what is left add up: in every
    state of a session, the items that [getAvailableItems] lists and the
    sales that [getTotalSales] counts are together as many as the
    inventory holds. *)
Theorem available_and_sold_items_add_up (g : GameManager.t) (m : Merchant.t) :
  Session.reachable g -> GameManager.merchant g = Some m ->
  Z.of_nat (length (Merchant.getAvailableItems m)) + Merchant.getTotalSales m
  = Z.of_nat (length (Merchant.inventory m)).
Proof.
  intros Hg Hm. apply reachable_holds in Hg as (_ & _ & Hstock & _).
  by apply getAvailableItems_length, Hstock.
Qed.

Lemma available_and_sold_items_add_up_witness :
  exists g m,
    Session.calls [Session.PurchaseItem 0] (default GameManager.new Scenario.atMerchant) = Some g
    /\ GameManager.merchant g = Some m
    /\ Merchant.getTotalSales m = 1
    /\ length (Merchant.getAvailableItems m) = 2%nat
    /\ length (Merchant.inventory m) = 3%nat.
Proof.
  pose (g0 := default GameManager.new Scenario.atMerchant).
  pose (g := default GameManager.new (Session.calls [Session.PurchaseItem 0] g0)).
  pose (m := default (Merchant.new Merchant.Normal) (GameManager.merchant g)).
  assert (Hg : Session.calls [Session.PurchaseItem 0] g0 = Some g) by (vm_compute; reflexivity).
  assert (Hm : GameManager.merchant g = Some m) by (vm_compute; reflexivity).
  assert (Hsales : Merchant.getTotalSales m = 1) by (vm_compute; reflexivity).
  assert (Hinv : length (Merchant.inventory m) = 3%nat) by (vm_compute; reflexivity).
  pose proof (available_and_sold_items_add_up g m) as Hsum.
  exists g, m. split; [exact Hg|]. split; [exact Hm|]. split; [exact Hsales|].
  split; [|exact Hinv].
  rewrite Hsales, Hinv in Hsum.
  assert (Hr : Session.reachable g).
  { eapply reachable_calls; [|exact Hg]. apply atMerchant_reachable. vm_compute; reflexivity. }
  specialize (Hsum Hr Hm). lia.
Defined.

(** X9. The dice in the slots and the dice left over add up.  In every
    state of a session in which the dice rolled carry pairwise distinct
    identifiers, the count of [getAssignedDiceCount] and the dice that
    [getUnassignedDice] lists are together as many as the dice rolled: no
    die sits in two slots, and every die in a slot is one of the dice
    rolled. *)
Theorem assigned_and_unassigned_dice_add_up (g : GameManager.t) :
  Session.reachable g ->
  NoDup (Dice.id <$> GameManager.rolledDice g) ->
  GameManager.getAssignedDiceCount g + Z.of_nat (length (GameManager.getUnassignedDice g))
  = Z.of_nat (length (GameManager.rolledDice g)).
Proof.
  intros Hg Hids. apply reachable_holds in Hg as (_ & _ & _ & [Hnd Hin] & _).
  rewrite getAssignedDiceCount_inSlots. unfold GameManager.getUnassignedDice. cbv zeta.
  rewrite <- (filter_length (fun d => existsb (String.eqb (Dice.id d))
                 (GameManager.assignedIds (GameManager.assignedDice g)))
               (GameManager.rolledDice g)).
  rewrite (filter_length_keys Dice.id
             (fun i => existsb (String.eqb i) (GameManager.assignedIds (GameManager.assignedDice g)))
             (GameManager.assignedIds (GameManager.assignedDice g))).
  - rewrite assignedIds_inSlots, length_fmap. lia.
  - intros i. rewrite existsb_exists, list_elem_of_In. split.
    + intros (j & Hj & Heq). apply String.eqb_eq in Heq. by subst.
    + intros Hi. exists i. split; [done | apply String.eqb_refl].
  - exact Hids.
  - by rewrite assignedIds_inSlots.
  - intros i. rewrite assignedIds_inSlots, !list_elem_of_fmap.
    intros (d & -> & Hd). exists d. split; [done | by apply Hin].
Qed.

Lemma assigned_and_unassigned_dice_add_up_witness :
  exists g,
    Session.calls (take 3 Scenario.toMerchant) GameManager.new = Some g
    /\ GameManager.getAssignedDiceCount g = 1
    /\ length (GameManager.getUnassignedDice g) = 2%nat.
Proof.
  pose (g := default GameManager.new
               (Session.calls (take 3 Scenario.toMerchant) GameManager.new)).
  assert (Hg : Session.calls (take 3 Scenario.toMerchant) GameManager.new = Some g)
    by (vm_compute; reflexivity).
  assert (Hcount : GameManager.getAssignedDiceCount g = 1) by (vm_compute; reflexivity).
  pose proof (assigned_and_unassigned_dice_add_up g) as Hsum.
  exists g. split; [exact Hg|]. split; [exact Hcount|].
  rewrite Hcount in Hsum.
  assert (Hlen : length (GameManager.rolledDice g) = 3%nat) by (vm_compute; reflexivity).
  rewrite Hlen in Hsum.
  assert (Hr : Session.reachable g).
  { eapply reachable_calls; [|exact Hg]. apply (Session.reachable_new None). }
  assert (Hids : NoDup (Dice.id <$> GameManager.rolledDice g)).
  { apply (bool_decide_eq_true_1 _). vm_compute. reflexivity. }
  specialize (Hsum Hr Hids). lia.
Defined.

(** ** Effects and their durations *)

Section Effects.

Lemma find_app_Some {A} (f : A -> bool) (l k : list A) (x : A) :
  List.find f l = Some x -> List.find f (l ++ k) = Some x.
Proof.
  induction l as [|y l IH]; cbn; [discriminate|]. destruct (f y); [done | exact IH].
Qed.

(** An item leaves the effects of its buyer in place and adds at most one
    at the end. *)
Lemma apply_effects (k : Item.Kind) (player : Player.t) :
  exists added, Player.effects (ItemFactory.apply k player) = Player.effects player ++ added.
Proof.
  destruct k; cbn;
    first [ by eexists | exists []; by rewrite app_nil_r ].
Qed.

Lemma updateEffects_iter (k : nat) (p : Player.t) :
  Player.effects (Nat.iter k Player.updateEffects p)
  = Nat.iter k Effect.tickAll (Player.effects p).
Proof.
  induction k as [|k IH]; [reflexivity|]. rewrite !Nat.iter_succ.
  unfold Player.updateEffects at 1. cbn [Player.effects Player.setEffects]. by rewrite IH.
Qed.

Lemma tickAll_app (l k : list Effect.t) :
  Effect.tickAll (l ++ k) = Effect.tickAll l ++ Effect.tickAll k.
Proof. apply omap_app. Qed.

Lemma tickAll_single (n : string) (d : Z) (ints : gmap string Z)
    (fracs : gmap string JS.double) (flags : list string) :
  Effect.tickAll [Effect.mk n (Some d) ints fracs flags]
  = if 0 <? d - 1 then [Effect.mk n (Some (d - 1)) ints fracs flags] else [].
Proof. cbn. by destruct (0 <? d - 1). Qed.

End Effects.

(** X10. Items only add effects, at the end of the list: whatever effect a
    search of the player's effects finds before a purchase, it finds after
    it.  The engine reads the Thorns, the Shield of Faith, the Evasion, the
    Gold Magnet, the Discount and the Regeneration of the ring through such
    searches, so a second copy of one of these items is never read; in
    particular no item changes a price for a player who holds a Discount. *)
Theorem items_never_displace_an_effect (item : Item.t) (player : Player.t) :
  (forall (f : Effect.t -> bool) (eff : Effect.t),
     List.find f (Player.effects player) = Some eff ->
     List.find f (Player.effects (ItemFactory.addItem player item)) = Some eff)
  /\ (Player.hasEffect player "Discount" = true ->
      forall x, ItemFactory.applyDiscount x (ItemFactory.addItem player item)
                = ItemFactory.applyDiscount x player).
Proof.
  assert (Hfind : forall (f : Effect.t -> bool) (eff : Effect.t),
     List.find f (Player.effects player) = Some eff ->
     List.find f (Player.effects (ItemFactory.addItem player item)) = Some eff).
  { intros f eff Hf. unfold ItemFactory.addItem.
    destruct (apply_effects (Item.kind item)
                (Player.setItems (Player.items player ++ [item]) player)) as [added ->].
    by apply find_app_Some. }
  split; [exact Hfind|].
  intros Hhas x. unfold ItemFactory.applyDiscount, Player.findEffect.
  destruct (List.find (Effect.nameIs "Discount") (Player.effects player)) as [eff|] eqn:Hd.
  - by rewrite (Hfind _ _ Hd).
  - unfold Player.hasEffect in Hhas. apply existsb_exists in Hhas as (eff & Hin & Hname).
    rewrite (find_none _ _ Hd eff Hin) in Hname. discriminate Hname.
Qed.

Lemma items_never_displace_an_effect_witness :
  let twice := ItemFactory.addItem
                 (ItemFactory.addItem Scenario.buyer (Item.new Item.MerchantDiscount))
                 (Item.new Item.MerchantDiscount) in
  ItemFactory.applyDiscount (Item.new Item.Evasion) Scenario.buyer = 35
  /\ ItemFactory.applyDiscount (Item.new Item.Evasion) twice = 28.
Proof.
  split; [vm_compute; reflexivity|].
  destruct (items_never_displace_an_effect (Item.new Item.MerchantDiscount)
              (ItemFactory.addItem Scenario.buyer (Item.new Item.MerchantDiscount)))
    as [_ Hprice].
  rewrite Hprice; vm_compute; reflexivity.
Defined.

(** X11. An effect lasts as many ticks as its duration says.  Added to a
    player with a duration [d], an effect is there after [k] ticks of
    [updateEffects] exactly when [k < d] (or no tick has run), with the
    duration [d - k], behind whatever the ticks leave of the effects the
    player had; an effect without a duration is never removed. *)
Theorem effect_lasts_its_duration (p : Player.t) (n : string) (d : Z)
    (ints : gmap string Z) (fracs : gmap string JS.double) (flags : list string) (k : nat) :
  Player.effects (Nat.iter k Player.updateEffects
                    (Player.addEffect p (Effect.mk n (Some d) ints fracs flags)))
  = Player.effects (Nat.iter k Player.updateEffects p)
    ++ (if (k =? 0)%nat || (Z.of_nat k <? d)
        then [Effect.mk n (Some (d - Z.of_nat k)) ints fracs flags] else [])
  /\ Player.effects (Nat.iter k Player.updateEffects
                       (Player.addEffect p (Effect.mk n None ints fracs flags)))
     = Player.effects (Nat.iter k Player.updateEffects p)
       ++ [Effect.mk n None ints fracs flags].
Proof.
  rewrite !updateEffects_iter. cbn [Player.effects Player.addEffect Player.setEffects].
  generalize (Player.effects p). intros l. split.
  - induction k as [|k IH].
    + cbn. by rewrite Z.sub_0_r.
    + rewrite !Nat.iter_succ, IH, tickAll_app. f_equal.
      change (S k =? 0)%nat with false. cbn [orb].
      destruct (Nat.eqb_spec k 0) as [Hk|Hk], (Z.ltb_spec (Z.of_nat k) d),
               (Z.ltb_spec (Z.of_nat (S k)) d);
        cbn [orb]; rewrite ?tickAll_single; try reflexivity; try lia;
        destruct (Z.ltb_spec 0 (d - Z.of_nat k - 1)); try lia; try reflexivity;
        do 3 f_equal; lia.
  - induction k as [|k IH]; [reflexivity|].
    by rewrite !Nat.iter_succ, IH, tickAll_app.
Qed.

(** ** Rolls and rerolls *)

(** X12. Rerolls are counted.  For a player who has used no more rerolls
    than the round allows, [k] calls of [useReroll] in a row leave the
    count at the allowance or at the [k] more, whichever is smaller, and the
    allowance as it was; the next call succeeds exactly when the count is
    still below the allowance; [resetRerolls] brings the count back to 0. *)
Theorem rerolls_are_counted (p : Player.t) (k : nat) :
  Player.rerollsUsed p <= Player.rerollsPerRound p ->
  let spent := Nat.iter k (fun q => snd (Player.useReroll q)) p in
  Player.rerollsUsed spent
  = Z.min (Player.rerollsPerRound p) (Player.rerollsUsed p + Z.of_nat k)
  /\ Player.rerollsPerRound spent = Player.rerollsPerRound p
  /\ fst (Player.useReroll spent)
     = (Player.rerollsUsed p + Z.of_nat k <? Player.rerollsPerRound p)
  /\ Player.rerollsUsed (Player.resetRerolls spent) = 0.
Proof.
  intros Hle spent.
  assert (Hk : Player.rerollsUsed spent
               = Z.min (Player.rerollsPerRound p) (Player.rerollsUsed p + Z.of_nat k)
               /\ Player.rerollsPerRound spent = Player.rerollsPerRound p).
  { subst spent. induction k as [|k [IHu IHp]].
    - cbn. split; [lia | reflexivity].
    - rewrite Nat.iter_succ.
      set (q := Nat.iter k (fun q => snd (Player.useReroll q)) p) in *.
      unfold Player.useReroll, Player.canReroll.
      destruct (Z.ltb_spec (Player.rerollsUsed q) (Player.rerollsPerRound q));
        cbn [snd Player.rerollsUsed Player.rerollsPerRound Player.setRerollsUsed];
        split; try done; lia. }
  destruct Hk as [Hu Hp]. repeat split; try done.
  unfold Player.useReroll, Player.canReroll.
  destruct (Z.ltb_spec (Player.rerollsUsed spent) (Player.rerollsPerRound spent)),
           (Z.ltb_spec (Player.rerollsUsed p + Z.of_nat k) (Player.rerollsPerRound p));
    cbn [fst]; try reflexivity; lia.
Qed.

Lemma rerolls_are_counted_witness :
  Player.rerollsUsed
    (Nat.iter 3 (fun q => snd (Player.useReroll q))
       (ItemFactory.addItem Scenario.buyer (Item.new Item.RerollToken))) = 1.
Proof.
  destruct (rerolls_are_counted
              (ItemFactory.addItem Scenario.buyer (Item.new Item.RerollToken)) 3)
    as [Hused _]; [vm_compute; discriminate|].
  etrans; [exact Hused | vm_compute; reflexivity].
Defined.

Section Rolls.

Lemma rollAll_lookup (dice : list Dice.t) (rand : ItemFactory.Draws) (i : nat) (d' : Dice.t) :
  GameManager.rollAll dice rand !! i = Some d' ->
  exists d, dice !! i = Some d /\ d' = Dice.roll d (rand i).
Proof.
  unfold GameManager.rollAll. rewrite list_lookup_imap.
  destruct (dice !! i) as [d|]; cbn; [|discriminate]. intros [= <-]. eauto.
Qed.

End Rolls.

(** X13. A roll that succeeds needs a player and the combat state.  It
    rolls every die of the player's set with its own draw, in place: the
    dice rolled are the dice of the set, as many as before, each with its
    identifier and its faces, marked rolled and showing one of its own
    faces (or none, for a draw outside the die).  It empties the three
    slots, so that the turn cannot be executed before a die is assigned
    again.  A roll that is refused changes nothing. *)
Theorem roll_shows_own_faces_and_clears_the_slots (rand : ItemFactory.Draws)
    (g : GameManager.t) :
  let g' := snd (GameManager.rollDice rand g) in
  (fst (GameManager.rollDice rand g) = false -> g' = g)
  /\ (fst (GameManager.rollDice rand g) = true ->
      exists p,
        GameManager.player g = Some p
        /\ GameManager.gameState g = GameState.combat
        /\ GameManager.rolledDice g' = GameManager.rollAll (Player.diceSet p) rand
        /\ Player.diceSet <$> GameManager.player g' = Some (GameManager.rolledDice g')
        /\ length (GameManager.rolledDice g') = length (Player.diceSet p)
        /\ (forall i d', GameManager.rolledDice g' !! i = Some d' ->
              exists d, Player.diceSet p !! i = Some d
                /\ Dice.id d' = Dice.id d /\ Dice.faces d' = Dice.faces d
                /\ Dice.isRolled d' = true
                /\ (forall f, Dice.currentFace d' = Some f -> f ∈ Dice.faces d))
        /\ GameManager.hasRolled g' = true
        /\ GameManager.assignedDice g' = GameManager.noDice
        /\ GameManager.canExecuteTurn g' = false
        /\ forall a, GameManager.executeTurn a g'
             = Some (GameManager.Rejected "Assign at least one die before executing turn.",
                     g')).
Proof.
  intros g'. subst g'. unfold GameManager.rollDice.
  destruct (GameManager.player g) as [p|]; [|split; [done | discriminate]].
  destruct (GameState.eqb _ _) eqn:Hs; [|split; [done | discriminate]].
  apply GameState_eqb_eq in Hs. cbn [fst snd]. split; [discriminate|]. intros _.
  exists p. repeat match goal with |- _ /\ _ => split end; try done.
  - cbn. unfold GameManager.rollAll. by rewrite length_imap.
  - intros i d' Hd'. cbn in Hd'. apply rollAll_lookup in Hd' as (d & Hd & ->).
    exists d. repeat split; try done.
    intros f Hf. cbn in Hf. by apply at_elem_of in Hf.
Qed.

Lemma roll_shows_own_faces_and_clears_the_slots_witness :
  exists g g',
    Session.calls (take 1 Scenario.toMerchant) GameManager.new = Some g
    /\ GameManager.rollDice (Scenario.draws []) g = (true, g')
    /\ GameManager.canExecuteTurn g' = false.
Proof.
  pose (g := default GameManager.new
               (Session.calls (take 1 Scenario.toMerchant) GameManager.new)).
  exists g, (snd (GameManager.rollDice (Scenario.draws []) g)).
  destruct (roll_shows_own_faces_and_clears_the_slots (Scenario.draws []) g) as [_ Hroll].
  destruct Hroll as (p & _ & _ & _ & _ & _ & _ & _ & _ & Hcan & _); [vm_compute; reflexivity|].
  split; [vm_compute; reflexivity|]. split; [vm_compute; reflexivity | exact Hcan].
Defined.

(** ** What a look at the enemy's next action does *)

Section Behaviours.

Lemma behave_frame (b : Archetype) (e : Enemy.t) (u : JS.double) :
  let e' := snd (EnemyFactory.behave b e u) in
  Enemy.name e' = Enemy.name e /\ Enemy.type e' = Enemy.type e
  /\ Enemy.maxHP e' = Enemy.maxHP e /\ Enemy.attack e' = Enemy.attack e
  /\ Enemy.defense e' = Enemy.defense e /\ Enemy.behavior e' = Enemy.behavior e
  /\ Enemy.turnCounter e' = Enemy.turnCounter e /\ Enemy.effects e' = Enemy.effects e
  /\ Enemy.goldReward e' = Enemy.goldReward e
  /\ (b <> Phoenix -> Enemy.currentHP e' = Enemy.currentHP e)
  /\ (b ∉ [Cultist; Minotaur; TitanGolem; Slime; Phoenix; Dragon] -> e' = e).
Proof.
  destruct b; cbn [EnemyFactory.behave]; unfold EnemyFactory.charge;
    repeat match goal with |- context [if ?c then _ else _] => destruct c end;
    cbn [snd]; repeat split; try done;
    intros Hout; exfalso; apply Hout; set_solver.
Qed.

Lemma getNextAction_frame (e : Enemy.t) (u : JS.double) :
  let e' := snd (EnemyFactory.getNextAction e u) in
  Enemy.name e' = Enemy.name e /\ Enemy.type e' = Enemy.type e
  /\ Enemy.maxHP e' = Enemy.maxHP e /\ Enemy.attack e' = Enemy.attack e
  /\ Enemy.defense e' = Enemy.defense e /\ Enemy.behavior e' = Enemy.behavior e
  /\ Enemy.turnCounter e' = Enemy.turnCounter e /\ Enemy.effects e' = Enemy.effects e
  /\ Enemy.goldReward e' = Enemy.goldReward e
  /\ (Enemy.behavior e <> Some Phoenix -> Enemy.currentHP e' = Enemy.currentHP e)
  /\ ((forall b, Enemy.behavior e = Some b ->
                 b ∉ [Cultist; Minotaur; TitanGolem; Slime; Phoenix; Dragon]) -> e' = e).
Proof.
  unfold EnemyFactory.getNextAction. destruct (Enemy.behavior e) as [b|] eqn:Hb.
  - destruct (behave_frame b e u) as (?&?&?&?&?&Hbeh&?&?&?&Hhp&Hsame).
    rewrite Hbeh, Hb. repeat split; try done.
    + intros Hne. apply Hhp. congruence.
    + intros Hall. apply Hsame. by apply Hall.
  - by cbn.
Qed.

Lemma executeAction_snd (e : Enemy.t) (u : JS.double) :
  snd (EnemyFactory.executeAction e u)
  = snd (EnemyFactory.getNextAction
           (Enemy.setTurnCounter (Enemy.turnCounter e + 1) e) u).
Proof.
  unfold EnemyFactory.executeAction.
  destruct (EnemyFactory.getNextAction _ u) as [action e2]. cbn [snd].
  repeat case_match; reflexivity.
Qed.

End Behaviours.

(** X14. A look at the state of the game runs the enemy's behaviour on the
    enemy.  [getGameState] throws only when there is a merchant and no
    player.  Otherwise it returns the state and the round, and the manager
    it leaves differs from the one it found in the enemy alone: the enemy
    is the one that its own [getNextAction] leaves, with the name, the
    type, the statistics, the effects, the turn counter and the reward it
    had (and its health, unless it is the Phoenix), and it is unchanged
    altogether unless its behaviour is that of the Cultist, the Minotaur,
    the Titan Golem, the Slime, the Phoenix or the Ancient Dragon. *)
Theorem state_query_runs_the_enemy_behaviour (u v : JS.double) (g : GameManager.t) :
  match GameManager.getGameState u v g with
  | None => is_Some (GameManager.merchant g) /\ GameManager.player g = None
  | Some (view, g') =>
      (GameManager.merchant g = None \/ is_Some (GameManager.player g))
      /\ GameManager.View.state view = GameManager.gameState g
      /\ GameManager.View.round view = GameManager.currentRound g
      /\ g' = GameManager.setEnemy (GameManager.enemy g') g
      /\ match GameManager.enemy g with
         | None => GameManager.enemy g' = None /\ GameManager.View.enemy view = None
         | Some e =>
             exists e',
               GameManager.enemy g' = Some e'
               /\ e' = snd (EnemyFactory.getNextAction e u)
               /\ GameManager.EnemyView.nextAction <$> GameManager.View.enemy view
                  = Some (fst (EnemyFactory.getNextAction e u))
               /\ Enemy.name e' = Enemy.name e /\ Enemy.type e' = Enemy.type e
               /\ Enemy.maxHP e' = Enemy.maxHP e /\ Enemy.attack e' = Enemy.attack e
               /\ Enemy.defense e' = Enemy.defense e
               /\ Enemy.turnCounter e' = Enemy.turnCounter e
               /\ Enemy.effects e' = Enemy.effects e
               /\ Enemy.goldReward e' = Enemy.goldReward e
               /\ (Enemy.behavior e <> Some Phoenix ->
                   Enemy.currentHP e' = Enemy.currentHP e)
               /\ ((forall b, Enemy.behavior e = Some b ->
                              b ∉ [Cultist; Minotaur; TitanGolem; Slime; Phoenix; Dragon]) ->
                   e' = e)
         end
  end.
Proof.
  unfold GameManager.getGameState.
  destruct (GameManager.enemy g) as [e|] eqn:He.
  - pose proof (getNextAction_frame e u) as Hframe. cbn zeta in Hframe.
    destruct (EnemyFactory.getNextAction e u) as [nextAction e'] eqn:Hnext.
    cbn [fst snd] in *.
    destruct (GameManager.merchant g) as [m|] eqn:Hm;
      [destruct (GameManager.player g) as [p|] eqn:Hp|]; cbn.
    + split; [by right|]. do 3 (split; [done|]). exists e'.
      destruct Hframe as (?&?&?&?&?&?&?&?&?&?&?). by repeat split.
    + by split.
    + split; [by left|]. do 3 (split; [done|]). exists e'.
      destruct Hframe as (?&?&?&?&?&?&?&?&?&?&?). by repeat split.
  - destruct (GameManager.merchant g) as [m|] eqn:Hm;
      [destruct (GameManager.player g) as [p|] eqn:Hp|]; cbn.
    + split; [by right|]. by repeat split.
    + by split.
    + split; [by left|]. by repeat split.
Qed.

Lemma state_query_runs_the_enemy_behaviour_witness :
  exists g view g',
    Session.calls [Session.StartNewRun "Blade Dancer" Scenario.bladeDancerDice (JS.dec 38 100)]
      GameManager.new = Some g
    /\ GameManager.getGameState (JS.dec 1 2) (JS.dec 1 2) g = Some (view, g')
    /\ Enemy.chargeCounter <$> GameManager.enemy g = Some 0
    /\ Enemy.chargeCounter <$> GameManager.enemy g' = Some 1
    /\ g' = GameManager.setEnemy (GameManager.enemy g') g.
Proof.
  pose (g := default GameManager.new
               (Session.calls [Session.StartNewRun "Blade Dancer" Scenario.bladeDancerDice
                                 (JS.dec 38 100)] GameManager.new)).
  pose (r := default (GameManager.View.mk GameState.menu 0 None None
                        (GameManager.DiceView.mk [] GameManager.noDice false) None, g)
               (GameManager.getGameState (JS.dec 1 2) (JS.dec 1 2) g)).
  assert (Hq : GameManager.getGameState (JS.dec 1 2) (JS.dec 1 2) g = Some (fst r, snd r))
    by (vm_compute; reflexivity).
  pose proof (state_query_runs_the_enemy_behaviour (JS.dec 1 2) (JS.dec 1 2) g) as Hlook.
  rewrite Hq in Hlook. destruct Hlook as (_ & _ & _ & Hsame & _).
  exists g, (fst r), (snd r). split; [vm_compute; reflexivity|].
  split; [exact Hq|]. split; [vm_compute; reflexivity|].
  split; [vm_compute; reflexivity | exact Hsame].
Defined.

(** X15. The charge of the Cultist, the Minotaur and the Titan Golem
    advances at every run of the behaviour, whether the enemy acts
    ([executeAction]) or its next action is only looked at
    ([getNextAction], as [getGameState] does): after any sequence of the
    two, a counter that started within its cycle of [n] (3, 3 and 4) is the
    start plus the length of the sequence, modulo [n], while the turn
    counter has counted the actions alone; and the next run releases the
    charged attack exactly when it closes a cycle. *)
Theorem charge_advances_at_every_look_and_turn (b : Archetype) (n : Z) (cry : string)
    (e : Enemy.t) (l : list (bool * JS.double)) :
  (b, n, cry) ∈ [(Cultist, 3, "Dark Ritual!"); (Minotaur, 3, "CHARGE!");
                 (TitanGolem, 4, "EARTHQUAKE!")] ->
  Enemy.behavior e = Some b ->
  0 <= Enemy.chargeCounter e < n ->
  let run (e : Enemy.t) (c : bool * JS.double) :=
    snd (if fst c then EnemyFactory.executeAction e (snd c)
         else EnemyFactory.getNextAction e (snd c)) in
  let e' := fold_left run l e in
  Enemy.chargeCounter e' = (Enemy.chargeCounter e + Z.of_nat (length l)) mod n
  /\ Enemy.turnCounter e' = Enemy.turnCounter e + Z.of_nat (length (List.filter fst l))
  /\ forall u,
       bool_decide (Action.message (fst (EnemyFactory.getNextAction e' u)) = Some cry)
       = ((Enemy.chargeCounter e + Z.of_nat (length l) + 1) mod n =? 0).
Proof.
  intros Hin Hb Hc run e'.
  assert (Hcases : (b = Cultist /\ n = 3 /\ cry = "Dark Ritual!")
                   \/ (b = Minotaur /\ n = 3 /\ cry = "CHARGE!")
                   \/ (b = TitanGolem /\ n = 4 /\ cry = "EARTHQUAKE!")).
  { set_unfold in Hin.
    destruct Hin as [Hin|[Hin|[Hin|[]]]]; injection Hin as -> -> ->; auto 10. }
  clear Hin.
  assert (Hn : n = 3 \/ n = 4).
  { destruct Hcases as [(_&->&_)|[(_&->&_)|(_&->&_)]]; auto. }
  assert (Hstep : forall x c, Enemy.behavior x = Some b ->
            Enemy.behavior (run x c) = Some b
            /\ Enemy.chargeCounter (run x c)
               = (if n <=? Enemy.chargeCounter x + 1 then 0 else Enemy.chargeCounter x + 1)
            /\ Enemy.turnCounter (run x c)
               = Enemy.turnCounter x + (if fst c then 1 else 0)).
  { intros x [act w] Hx. unfold run. cbn [fst snd]. destruct act.
    - rewrite executeAction_snd. unfold EnemyFactory.getNextAction.
      cbn [Enemy.behavior Enemy.setTurnCounter]. rewrite Hx.
      destruct Hcases as [(->&->&->)|[(->&->&->)|(->&->&->)]];
        cbn [EnemyFactory.behave]; unfold EnemyFactory.charge;
        cbn [Enemy.chargeCounter Enemy.setTurnCounter]; case_match; cbn; by rewrite ?Hx.
    - unfold EnemyFactory.getNextAction. rewrite Hx.
      destruct Hcases as [(->&->&->)|[(->&->&->)|(->&->&->)]];
        cbn [EnemyFactory.behave]; unfold EnemyFactory.charge;
        case_match; cbn; rewrite ?Hx; repeat split; try done; lia. }
  assert (Hall : Enemy.behavior e' = Some b
                 /\ Enemy.chargeCounter e'
                    = (Enemy.chargeCounter e + Z.of_nat (length l)) mod n
                 /\ Enemy.turnCounter e'
                    = Enemy.turnCounter e + Z.of_nat (length (List.filter fst l))).
  { subst e'. clear Hcases. revert e Hb Hc. induction l as [|c l IH]; intros e Hb Hc.
    - cbn. rewrite Z.add_0_r, Z.mod_small by lia. repeat split; try done; lia.
    - cbn [fold_left]. destruct (Hstep e c Hb) as (Hb' & Hc' & Ht').
      destruct (IH (run e c) Hb') as (IHb & IHc & IHt).
      { rewrite Hc'. destruct (Z.leb_spec n (Enemy.chargeCounter e + 1)); lia. }
      split; [done|]. split.
      + rewrite IHc, Hc'. cbn [length]. rewrite Nat2Z.inj_succ.
        destruct (Z.leb_spec n (Enemy.chargeCounter e + 1)).
        * assert (Enemy.chargeCounter e = n - 1) as -> by lia.
          replace (n - 1 + Z.succ (Z.of_nat (length l))) with (Z.of_nat (length l) + 1 * n)
            by lia.
          rewrite Z.mod_add by lia. f_equal; lia.
        * f_equal; lia.
      + rewrite IHt, Ht'. cbn [List.filter]. destruct (fst c); cbn [length]; lia. }
  destruct Hall as (Hb' & Hc' & Ht'). split; [done|]. split; [done|].
  intros u. unfold EnemyFactory.getNextAction. rewrite Hb'.
  assert (Hm : (Enemy.chargeCounter e + Z.of_nat (length l) + 1) mod n
               = (Enemy.chargeCounter e' + 1) mod n).
  { rewrite Hc'. by rewrite Zplus_mod_idemp_l. }
  rewrite Hm.
  assert (Hr : 0 <= Enemy.chargeCounter e' < n).
  { rewrite Hc'. apply Z.mod_pos_bound. lia. }
  assert (Hz : ((Enemy.chargeCounter e' + 1) mod n =? 0) = (n <=? Enemy.chargeCounter e' + 1)).
  { destruct (Z.leb_spec n (Enemy.chargeCounter e' + 1)).
    - assert (Enemy.chargeCounter e' + 1 = n) as -> by lia.
      rewrite Z_mod_same_full. reflexivity.
    - rewrite Z.mod_small by lia. apply Z.eqb_neq. lia. }
  rewrite Hz.
  destruct Hcases as [(->&->&->)|[(->&->&->)|(->&->&->)]];
    cbn [EnemyFactory.behave]; unfold EnemyFactory.charge;
    destruct (_ <=? _); reflexivity.
Qed.

Lemma charge_advances_at_every_look_and_turn_witness :
  Action.message
    (fst (EnemyFactory.getNextAction
            (snd (EnemyFactory.getNextAction
                    (snd (EnemyFactory.getNextAction (EnemyFactory.createCultist 1)
                            (JS.dec 1 2)))
                    (JS.dec 1 2)))
            (JS.dec 1 2)))
  = Some "Dark Ritual!".
Proof.
  destruct (charge_advances_at_every_look_and_turn Cultist 3 "Dark Ritual!"
              (EnemyFactory.createCultist 1) [(false, JS.dec 1 2); (false, JS.dec 1 2)])
    as (_ & _ & Hnext);
    [set_solver | reflexivity | vm_compute; split; [discriminate | reflexivity] |].
  specialize (Hnext (JS.dec 1 2)). apply bool_decide_eq_true in Hnext. exact Hnext.
Defined.

(** ** Assigning and taking back a die *)

Section Assigning.

Lemma idIs_eq (dieId : string) (d : Dice.t) :
  GameManager.idIs dieId d = true <-> Dice.id d = dieId.
Proof. unfold GameManager.idIs. apply String.eqb_eq. Qed.

Lemma idIs_neq (dieId : string) (d : Dice.t) :
  GameManager.idIs dieId d = false <-> Dice.id d <> dieId.
Proof. unfold GameManager.idIs. apply String.eqb_neq. Qed.

(** The identifiers of the Special slot once [dieId] is filtered out. *)
Lemma special_without (dieId : string) (l : list Dice.t) :
  (dieId ∉ Dice.id <$> List.filter (fun d => negb (GameManager.idIs dieId d)) l)
  /\ (forall i, i ∈ Dice.id <$> List.filter (fun d => negb (GameManager.idIs dieId d)) l ->
        i ∈ Dice.id <$> l)
  /\ (forall i, i <> dieId -> i ∈ Dice.id <$> l ->
        i ∈ Dice.id <$> List.filter (fun d => negb (GameManager.idIs dieId d)) l).
Proof.
  split; [|split].
  - intros Hin. apply list_elem_of_fmap in Hin as (d & Hid & Hd).
    apply filter_elem_of in Hd as [_ Hd]. apply negb_true_iff, idIs_neq in Hd. congruence.
  - intros i Hin. apply list_elem_of_fmap in Hin as (d & -> & Hd).
    apply filter_elem_of in Hd as [Hd _]. apply list_elem_of_fmap. eauto.
  - intros i Hne Hin. apply list_elem_of_fmap in Hin as (d & -> & Hd).
    apply list_elem_of_fmap. exists d. split; [done|]. apply filter_elem_of. split; [done|].
    by apply negb_true_iff, idIs_neq.
Qed.

Lemma filter_eqb_absent (x : string) (l : list string) :
  x ∉ l -> List.filter (String.eqb x) l = [].
Proof.
  induction l as [|y l IH]; [done|]. intros Hx. apply not_elem_of_cons in Hx as [Hne Hx].
  cbn. apply String.eqb_neq in Hne. rewrite Hne. by apply IH.
Qed.

Lemma filter_without_id (dieId : string) (l : list Dice.t) :
  (dieId ∉ Dice.id <$> l) ->
  List.filter (fun d => negb (GameManager.idIs dieId d)) l = l.
Proof.
  induction l as [|d l IH]; [done|]. cbn. intros Hx. apply not_elem_of_cons in Hx as [Hne Hx].
  assert (GameManager.idIs dieId d = false) as -> by (apply idIs_neq; congruence).
  cbn. by rewrite IH.
Qed.

Lemma findIndex_last (dieId : string) (l : list Dice.t) (die : Dice.t) :
  (dieId ∉ Dice.id <$> l) -> Dice.id die = dieId ->
  JS.findIndex (GameManager.idIs dieId) (l ++ [die]) = Some (length l).
Proof.
  intros Hx Hid. induction l as [|d l IH]; cbn.
  - by rewrite (proj2 (idIs_eq dieId die) Hid).
  - cbn in Hx. apply not_elem_of_cons in Hx as [Hne Hx].
    assert (GameManager.idIs dieId d = false) as -> by (apply idIs_neq; congruence).
    by rewrite (IH Hx).
Qed.

Lemma keep_absent (dieId : string) (o : option Dice.t) :
  (dieId ∉ option_list (Dice.id <$> o)) ->
  match o with
  | Some d => if GameManager.idIs dieId d then None else Some d
  | None => None
  end = o.
Proof.
  destruct o as [d|]; [|done]. cbn. intros Hx. apply not_elem_of_cons in Hx as [Hne _].
  by assert (GameManager.idIs dieId d = false) as -> by (apply idIs_neq; congruence).
Qed.

End Assigning.

(** X16. Assigning a die moves it.  [assignDie] is refused, and changes
    nothing, when no die rolled has the identifier or the first that has
    it is not rolled.  Otherwise it reports success, the die is taken out of every
    slot and put in the slot named: in the Attack or the Defense slot,
    whose former die is dropped, or at the end of the Special slot.  Under
    any other slot name the call still reports success and the die is in no
    slot at all.  No other die enters a slot, and none leaves one but the
    die that gave way. *)
Theorem assignDie_moves_the_die (dieId slot : string) (g : GameManager.t) :
  let r := GameManager.assignDie dieId slot g in
  let a := GameManager.assignedDice g in
  let a' := GameManager.assignedDice (snd r) in
  if fst r then
    (exists die, die ∈ GameManager.rolledDice g /\ Dice.id die = dieId
       /\ Dice.isRolled die = true
       /\ (slot = "attack" -> GameManager.attack a' = Some die)
       /\ (slot = "defense" -> GameManager.defense a' = Some die)
       /\ (slot = "special" -> last (GameManager.special a') = Some die))
    /\ length (List.filter (String.eqb dieId) (GameManager.assignedIds a'))
       = (if bool_decide (slot ∈ ["attack"; "defense"; "special"]) then 1 else 0)%nat
    /\ (forall i, i <> dieId -> i ∈ GameManager.assignedIds a' ->
          i ∈ GameManager.assignedIds a)
    /\ (forall i, i <> dieId -> i ∈ GameManager.assignedIds a ->
          i ∈ GameManager.assignedIds a'
          \/ (slot = "attack" /\ Dice.id <$> GameManager.attack a = Some i)
          \/ (slot = "defense" /\ Dice.id <$> GameManager.defense a = Some i))
  else
    snd r = g
    /\ forall die, die ∈ GameManager.rolledDice g -> Dice.id die = dieId ->
         Dice.isRolled die = true ->
         exists first, first ∈ GameManager.rolledDice g /\ Dice.id first = dieId
                       /\ Dice.isRolled first = false.
Proof.
  cbv zeta. unfold GameManager.assignDie.
  destruct (List.find _ _) as [die|] eqn:Hfind.
  2:{ cbn [fst snd]. split; [done|]. intros die Hin Hid _.
      apply list_elem_of_In in Hin. apply (find_none _ _ Hfind) in Hin.
      apply idIs_neq in Hin. congruence. }
  pose proof (find_idIs _ _ _ Hfind) as [Hdie Hid].
  destruct (Dice.isRolled die) eqn:Hrolled; cbn [fst snd].
  2:{ split; [done|]. intros _ _ _ _. eauto. }
  destruct (special_without dieId (GameManager.special (GameManager.assignedDice g)))
    as (Hout & Hsub & Hkeep).
  assert (Hself : (dieId =? dieId)%string = true) by apply String.eqb_refl.
  split.
  { exists die. do 3 (split; [done|]).
    repeat split; intros ->; cbn; [done..|]. by rewrite last_snoc. }
  unfold GameManager.removeDieFromAllSlots, GameManager.assignedIds.
  cbn [GameManager.assignedDice GameManager.setAssignedDice GameManager.attack
       GameManager.defense GameManager.special].
  set (sp := GameManager.special (GameManager.assignedDice g)) in *.
  set (kept := List.filter (fun d => negb (GameManager.idIs dieId d)) sp) in *.
  assert (Hnone : List.filter (String.eqb dieId) (Dice.id <$> kept) = [])
    by by apply filter_eqb_absent.
  destruct (GameManager.attack (GameManager.assignedDice g)) as [d1|];
    destruct (GameManager.defense (GameManager.assignedDice g)) as [d2|];
    repeat match goal with
      | |- context [GameManager.idIs dieId ?d] =>
          let H := fresh "Hd" in destruct (GameManager.idIs dieId d) eqn:H;
          [apply idIs_eq in H | apply idIs_neq in H]
      end;
    destruct (String.eqb_spec slot "attack") as [->|Hna];
    try destruct (String.eqb_spec slot "defense") as [->|Hnd];
    try destruct (String.eqb_spec slot "special") as [->|Hns];
    cbn [GameManager.attack GameManager.defense GameManager.special fmap option_fmap
         option_map option_list app];
    (split; [|split]);
    unfold option_list; cbn [option_rect];
    try (rewrite ?fmap_app, ?List.filter_app; cbn [List.filter fmap list_fmap app];
         rewrite ?Hid, ?List.filter_app; cbn [List.filter fmap list_fmap app];
         rewrite ?Hself, ?Hnone;
         repeat match goal with
           | H : Dice.id ?d <> dieId |- context [(dieId =? Dice.id ?d)%string] =>
               rewrite (proj2 (String.eqb_neq dieId (Dice.id d))) by congruence
           end;
         rewrite ?Hnone; cbn;
         first [ rewrite bool_decide_eq_true_2 by (set_unfold; auto)
               | rewrite bool_decide_eq_false_2 by (set_unfold; intuition congruence) ];
         reflexivity);
    intros i Hne; rewrite ?fmap_app; try change (Dice.id <$> [die]) with [Dice.id die];
    rewrite ?Hid; set_unfold; intuition (subst; eauto 10; congruence).
Qed.

Lemma assignDie_moves_the_die_witness :
  exists g,
    Session.calls [Session.StartNewRun "Blade Dancer" Scenario.bladeDancerDice (JS.dec 1 10);
                   Session.RollDice (Scenario.draws []);
                   Session.AssignDie "die_1" "attack"] GameManager.new = Some g
    /\ GameManager.getAssignedDiceCount g = 1
    /\ fst (GameManager.assignDie "die_1" "head" g) = true
    /\ length (List.filter (String.eqb "die_1")
                 (GameManager.assignedIds
                    (GameManager.assignedDice (snd (GameManager.assignDie "die_1" "head" g)))))
       = 0%nat.
Proof.
  pose (g := default GameManager.new
               (Session.calls
                  [Session.StartNewRun "Blade Dancer" Scenario.bladeDancerDice (JS.dec 1 10);
                   Session.RollDice (Scenario.draws []);
                   Session.AssignDie "die_1" "attack"] GameManager.new)).
  exists g. split; [vm_compute; reflexivity|]. split; [vm_compute; reflexivity|].
  assert (Hok : fst (GameManager.assignDie "die_1" "head" g) = true)
    by (vm_compute; reflexivity).
  split; [exact Hok|].
  pose proof (assignDie_moves_the_die "die_1" "head" g) as Hmove. cbv zeta in Hmove.
  rewrite Hok in Hmove. destruct Hmove as (_ & Hcount & _). exact Hcount.
Defined.

(** X17. Taking a die back undoes its assignment.  When a die that is in
    no slot is assigned to the Special slot, or to an empty Attack or
    Defense slot, [unassignDie] with the same identifier and slot succeeds
    and gives back the manager as it was before the assignment. *)
Theorem unassignDie_undoes_assignDie (dieId slot : string) (g : GameManager.t) :
  fst (GameManager.assignDie dieId slot g) = true ->
  (dieId ∉ GameManager.assignedIds (GameManager.assignedDice g)) ->
  (slot = "attack" /\ GameManager.attack (GameManager.assignedDice g) = None)
  \/ (slot = "defense" /\ GameManager.defense (GameManager.assignedDice g) = None)
  \/ slot = "special" ->
  GameManager.unassignDie dieId slot (snd (GameManager.assignDie dieId slot g)) = (true, g).
Proof.
  unfold GameManager.assignDie.
  destruct (List.find _ _) as [die|] eqn:Hfind; [|discriminate].
  pose proof (find_idIs _ _ _ Hfind) as [Hdie Hid].
  destruct (Dice.isRolled die); [|discriminate]. intros _ Hout Hslot. cbn [snd].
  unfold GameManager.assignedIds in Hout. rewrite !not_elem_of_app in Hout.
  destruct Hout as (Ha & Hd & Hs).
  assert (Hrem : GameManager.removeDieFromAllSlots dieId g = g).
  { unfold GameManager.removeDieFromAllSlots. cbv zeta.
    rewrite (filter_without_id _ _ Hs), (keep_absent _ _ Ha), (keep_absent _ _ Hd).
    by destruct g as [? ? ? ? ? ? ? [att def sp] ? ? ?]. }
  rewrite Hrem. unfold GameManager.unassignDie. cbv zeta.
  assert (Hself : GameManager.idIs dieId die = true) by by apply idIs_eq.
  destruct g as [? ? ? ? ? ? ? [att def sp] ? ? ?]. cbn in Ha, Hd, Hs, Hslot |- *.
  destruct Hslot as [[-> ->] | [[-> ->] | ->]]; cbn; rewrite ?Hself; cbn; try reflexivity.
  rewrite (findIndex_last _ _ _ Hs Hid), delete_take_drop.
  rewrite take_app_length, drop_ge by (rewrite length_app; cbn; lia).
  by rewrite app_nil_r.
Qed.

Lemma unassignDie_undoes_assignDie_witness :
  exists g,
    Session.calls [Session.StartNewRun "Blade Dancer" Scenario.bladeDancerDice (JS.dec 1 10);
                   Session.RollDice (Scenario.draws [])] GameManager.new = Some g
    /\ GameManager.unassignDie "die_2" "special"
         (snd (GameManager.assignDie "die_2" "special" g)) = (true, g).
Proof.
  pose (g := default GameManager.new
               (Session.calls
                  [Session.StartNewRun "Blade Dancer" Scenario.bladeDancerDice (JS.dec 1 10);
                   Session.RollDice (Scenario.draws [])] GameManager.new)).
  exists g. split; [vm_compute; reflexivity|].
  apply (unassignDie_undoes_assignDie "die_2" "special" g);
    [vm_compute; reflexivity | vm_compute; by apply not_elem_of_nil | by right; right].
Defined.

(** ** What a turn does to the player *)

Section Combat.

Local Ltac by_class p :=
  repeat match goal with
    | |- context [String.eqb (Player.className p) ?s] =>
        let H := fresh "Hclass" in
        destruct (String.eqb_spec (Player.className p) s) as [H|H];
        [try rewrite !H|]
    end.

Local Ltac by_cases :=
  repeat match goal with
    | |- context [if ?c then _ else _] => destruct c eqn:?
    end.

Lemma sameKit_refl (p : Player.t) : sameKit p p.
Proof. by repeat split. Qed.

Lemma sameKit_trans (p q r : Player.t) : sameKit p q -> sameKit q r -> sameKit p r.
Proof.
  unfold sameKit. intros (?&?&?&?&?&?&?) (?&?&?&?&?&?&?). repeat split; congruence.
Qed.

Lemma countSymbol_nonneg (s : string) (l : list Dice.t) : 0 <= Dice.countSymbol s l.
Proof. unfold Dice.countSymbol. lia. Qed.

(** A passive leaves the effects alone; the Storm Caller's raises the
    chance of a critical strike for good. *)
Lemma applyPassiveAbility_frame (p : Player.t) (context : Player.Context) (u : JS.double)
    (o : Player.Outcome) (p' : Player.t) :
  Player.applyPassiveAbility p context u = Some (o, p') ->
  sameKit p p' /\ Player.gold p' = Player.gold p
  /\ Player.rerollsUsed p' = Player.rerollsUsed p
  /\ Player.diceSet p' = Player.diceSet p
  /\ Player.effects p' = Player.effects p
  /\ Player.critChance p'
     = Player.critChance p
       + (if String.eqb (Player.className p) "Storm Caller"
          then 10 * Dice.countSymbol "lightning" (Player.specialDice context) else 0).
Proof.
  pose proof (countSymbol_nonneg "lightning" (Player.specialDice context)) as Hnn.
  unfold Player.applyPassiveAbility. cbv zeta. by_class p;
    unfold Player.bladeDancerPassive, Player.geomancerPassive, Player.shadowPriestPassive,
      Player.pyromanticPassive, Player.frostWeaverPassive, Player.stormCallerPassive,
      Player.natureShamanPassive, Player.bloodKnightPassive, Player.holyPaladinPassive,
      Player.chaosMagePassive, Player.timeWeaverPassive, Player.spiritSummonerPassive,
      Player.countSymbol;
    cbv zeta.
  all: try (destruct (JS.at_ Player.randomEffects _) as [eff|]; cbn [mbind option_bind]).
  all: by_cases; try discriminate; intros [= <- <-]; cbn; unfold sameKit; cbn;
    repeat split; try done; try lia.
Qed.

(** A special adds at most one effect to the player, of the four that
    the classes have. *)
Lemma activateSpecial_frame (p : Player.t) (context : Player.Context) (u : JS.double)
    (o : Player.Outcome) (p' : Player.t) :
  Player.activateSpecial p context u = Some (o, p') ->
  sameKit p p' /\ Player.gold p' = Player.gold p
  /\ Player.rerollsUsed p' = Player.rerollsUsed p
  /\ Player.diceSet p' = Player.diceSet p
  /\ Player.critChance p' = Player.critChance p
  /\ exists added,
       Player.effects p' = Player.effects p ++ added
       /\ Forall (fun eff => (Effect.name eff, Effect.duration eff)
                             ∈ [("Stoneform", Some 1); ("Regeneration", Some 3);
                                ("Haste", Some 2); ("Spirit Guardian", Some 2)]) added.
Proof.
  unfold Player.activateSpecial. cbv zeta. by_class p;
    unfold Player.bladeDancerSpecial, Player.geomancerSpecial, Player.shadowPriestSpecial,
      Player.pyromanticSpecial, Player.frostWeaverSpecial, Player.stormCallerSpecial,
      Player.natureShamanSpecial, Player.bloodKnightSpecial, Player.holyPaladinSpecial,
      Player.chaosMageSpecial, Player.timeWeaverSpecial, Player.spiritSummonerSpecial,
      Player.countSymbol;
    cbv zeta.
  all: by_cases; try discriminate; intros [= <- <-]; cbn; unfold sameKit; cbn;
    repeat split; try done.
  all: first [ exists []; split; [by rewrite app_nil_r | constructor]
             | eexists [_]; split; [reflexivity|];
               constructor; [|constructor]; cbn; set_unfold; tauto ].
Qed.

Lemma counter_setCurrentHP (k : string) (v : Z) (p : Player.t) :
  Player.counter (Player.setCurrentHP v p) k = Player.counter p k.
Proof. reflexivity. Qed.

(** The attack of the enemy on the player, without the narration. *)
Lemma sufferAttack_frame (a : GameManager.Ambient) (enemyAction : Action.t)
    (enemyName : string) (defenseValue : Z) (p : Player.t) (log : list Log.t) :
  let r := GameManager.sufferAttack a enemyAction enemyName defenseValue p log in
  let taken := snd (fst r) in
  let p' := snd r in
  sameKit p p' /\ Player.gold p' = Player.gold p
  /\ Player.rerollsUsed p' = Player.rerollsUsed p
  /\ Player.diceSet p' = Player.diceSet p
  /\ Player.critChance p' = Player.critChance p
  /\ Player.effects p' = Player.effects p
  /\ 0 <= taken
  /\ (0 <= Player.currentHP p ->
      Player.currentHP p' = Z.max 0 (Player.currentHP p - taken))
  /\ Player.counter p' "divineShield" <= Player.counter p "divineShield"
  /\ (0 <= Player.counter p "divineShield" -> 0 <= Player.counter p' "divineShield")
  /\ ((forall eff, Player.findEffect p "Shield of Faith" = Some eff ->
         0 <= default 0 (Effect.int eff "blockDamage")) ->
      taken + (Player.counter p "divineShield" - Player.counter p' "divineShield")
      <= Z.max 0 (Action.value enemyAction - defenseValue)).
Proof.
  unfold GameManager.sufferAttack. cbv zeta.
  set (m0 := Z.max 0 (Action.value enemyAction - defenseValue)).
  set (m1 := match Player.findEffect p "Shield of Faith" with
             | Some shieldEffect => _ | None => _ end).
  assert (H1 : 0 <= m1
               /\ ((forall eff, Player.findEffect p "Shield of Faith" = Some eff ->
                      0 <= default 0 (Effect.int eff "blockDamage")) -> m1 <= m0)).
  { subst m1. destruct (Player.findEffect p "Shield of Faith") as [eff|]; [|subst m0; lia].
    destruct (JS.truthy _); [|subst m0; lia]. split; [lia|].
    intros Hb. specialize (Hb eff eq_refl). lia. }
  clearbody m1. destruct H1 as [H1 H1'].
  set (d := match Player.findEffect p "Evasion" with
            | Some evasionEffect => _ | None => _ end).
  assert (H2 : 0 <= snd d <= m1).
  { subst d. destruct (Player.findEffect p "Evasion") as [eff|]; [|cbn; lia].
    destruct (Effect.frac eff "dodgeChance"); [|cbn; lia].
    destruct (_ && _); cbn; lia. }
  destruct d as [log1 m2]. cbn [snd] in H2.
  destruct (Z.ltb_spec 0 m2) as [Hpos|Hzero].
  - destruct (Z.ltb_spec 0 (Player.counter p "divineShield")) as [Hs|Hs];
      cbn; rewrite ?counter_setCurrentHP, ?counter_setCounter; unfold sameKit; cbn;
      repeat split; try done; try lia; intros Hb; try specialize (H1' Hb); lia.
  - cbn. unfold sameKit. repeat split; try done; try lia.
Qed.

(** The effects that an attack of the enemy leaves on the player. *)
Lemma enemyTurn_frame (a : GameManager.Ambient) (defenseValue : Z) (p : Player.t)
    (e : Enemy.t) (log : list Log.t) :
  let r := GameManager.enemyTurn a defenseValue p e log in
  let p' := snd (fst r) in
  let action := fst (EnemyFactory.executeAction e (GameManager.behaviorDraw a)) in
  sameKit p p' /\ Player.gold p' = Player.gold p
  /\ Player.rerollsUsed p' = Player.rerollsUsed p
  /\ Player.diceSet p' = Player.diceSet p
  /\ Player.critChance p' = Player.critChance p
  /\ 0 <= snd (fst (fst r))
  /\ Player.effects p'
     = Player.effects p
       ++ (if Action.isAttack action && JS.truthy (Action.poison action)
           then [Effect.lit "Poison" (Some 3) [("damage", default 0 (Action.poison action))]
                   [] []]
           else [])
       ++ (if Action.isAttack action && JS.truthy (Action.burn action)
           then [Effect.lit "Burn" (Some 3) [("damage", default 0 (Action.burn action))]
                   [] []]
           else []).
Proof.
  unfold GameManager.enemyTurn. cbv zeta.
  destruct (EnemyFactory.executeAction e (GameManager.behaviorDraw a)) as [action e1].
  cbn [fst]. unfold Action.isAttack.
  destruct (Action.type action); cbn [andb];
    try (cbn; rewrite !app_nil_r; unfold sameKit; repeat split; try done; lia).
  pose proof (sufferAttack_frame a action (Enemy.name e1) defenseValue p log) as Hs.
  cbv zeta in Hs.
    destruct (GameManager.sufferAttack a action (Enemy.name e1) defenseValue p log)
      as [[log1 taken] p1].
    cbn [fst snd] in Hs. destruct Hs as (Hkit & Hgold & Hre & Hdice & Hcrit & Heff & Htaken & _).
    destruct (JS.truthy (Action.poison action)), (JS.truthy (Action.burn action)),
             (Action.lifeSteal action) as [f|];
      try destruct (JS.truthy_frac (Some f));
      cbn; rewrite ?Heff, <- ?app_assoc, ?app_nil_r; unfold sameKit in *; cbn;
      repeat split; try tauto; try lia.
Qed.

(** The upkeep ticks the effects and heals. *)
Lemma playerUpkeep_frame (p : Player.t) (log : list Log.t) :
  let p' := snd (GameManager.playerUpkeep p log) in
  sameKit p p' /\ Player.gold p' = Player.gold p
  /\ Player.rerollsUsed p' = Player.rerollsUsed p
  /\ Player.diceSet p' = Player.diceSet p
  /\ Player.critChance p' = Player.critChance p
  /\ Player.effects p' = Effect.tickAll (Player.effects p).
Proof.
  unfold GameManager.playerUpkeep. cbv zeta.
  destruct (List.find _ _) as [regen|]; [|cbn; unfold sameKit; by repeat split].
  destruct (Player.heal _ _) as [healAmount p1] eqn:Hheal.
  unfold Player.heal in Hheal. injection Hheal as <- <-.
  destruct (0 <? _); cbn; unfold sameKit; by repeat split.
Qed.

(** The passive and the special together. *)
Lemma resolveAbilities_frame (a : GameManager.Ambient) (assigned : GameManager.Assigned)
    (round : Z) (p : Player.t) (e : Enemy.t) c activated p' e' :
  GameManager.resolveAbilities a assigned round p e = Some (c, activated, p', e') ->
  sameKit p p' /\ Player.gold p' = Player.gold p
  /\ Player.rerollsUsed p' = Player.rerollsUsed p
  /\ Player.diceSet p' = Player.diceSet p
  /\ Player.critChance p'
     = Player.critChance p
       + (if String.eqb (Player.className p) "Storm Caller"
          then 10 * Dice.countSymbol "lightning" (GameManager.special assigned) else 0)
  /\ exists added,
       Player.effects p' = Player.effects p ++ added
       /\ Forall (fun eff => (Effect.name eff, Effect.duration eff)
                             ∈ [("Stoneform", Some 1); ("Regeneration", Some 3);
                                ("Haste", Some 2); ("Spirit Guardian", Some 2)]) added.
Proof.
  unfold GameManager.resolveAbilities. cbv zeta.
  destruct (Player.applyPassiveAbility _ _ _) as [[passiveResult p1]|] eqn:Hpassive;
    cbn [mbind option_bind]; [|discriminate].
  apply applyPassiveAbility_frame in Hpassive
    as (Hkit1 & Hgold1 & Hre1 & Hdice1 & Heff1 & Hcrit1).
  cbn [Player.specialDice GameManager.combatContext] in Hcrit1.
  assert (Hnone : sameKit p p1 /\ Player.gold p1 = Player.gold p
    /\ Player.rerollsUsed p1 = Player.rerollsUsed p
    /\ Player.diceSet p1 = Player.diceSet p
    /\ Player.critChance p1
       = Player.critChance p
         + (if String.eqb (Player.className p) "Storm Caller"
            then 10 * Dice.countSymbol "lightning" (GameManager.special assigned) else 0)
    /\ exists added,
         Player.effects p1 = Player.effects p ++ added
         /\ Forall (fun eff => (Effect.name eff, Effect.duration eff)
                               ∈ [("Stoneform", Some 1); ("Regeneration", Some 3);
                                  ("Haste", Some 2); ("Spirit Guardian", Some 2)]) added).
  { do 5 (split; [done|]). exists []. split; [by rewrite app_nil_r | constructor]. }
  destruct (0 <? _); [|by intros [= <- <- <- <-]].
  destruct (Player.activateSpecial p1 _ _) as [[specialResult p2]|] eqn:Hs;
    cbn [mbind option_bind]; [|discriminate].
  apply activateSpecial_frame in Hs as (Hkit2 & Hgold2 & Hre2 & Hdice2 & Hcrit2 & added & Heff2 & Hadded).
  assert (Hboth : sameKit p p2 /\ Player.gold p2 = Player.gold p
    /\ Player.rerollsUsed p2 = Player.rerollsUsed p
    /\ Player.diceSet p2 = Player.diceSet p
    /\ Player.critChance p2
       = Player.critChance p
         + (if String.eqb (Player.className p) "Storm Caller"
            then 10 * Dice.countSymbol "lightning" (GameManager.special assigned) else 0)
    /\ exists added,
         Player.effects p2 = Player.effects p ++ added
         /\ Forall (fun eff => (Effect.name eff, Effect.duration eff)
                               ∈ [("Stoneform", Some 1); ("Regeneration", Some 3);
                                  ("Haste", Some 2); ("Spirit Guardian", Some 2)]) added).
  { split; [by eapply sameKit_trans|]. do 3 (split; [congruence|]).
    split; [congruence|]. exists added. split; [congruence | done]. }
  destruct (Player.succeeded specialResult).
  - destruct (GameManager.foldSpecial _ _ _ _) as [c1 e1]. by intros [= <- <- <- <-].
  - by intros [= <- <- <- <-].
Qed.

(** The player that a turn leaves, in terms of the player it found. *)
Lemma executeTurn_player (a : GameManager.Ambient) (g : GameManager.t)
    (r : GameManager.TurnResult) (g' : GameManager.t) (p : Player.t) :
  GameManager.executeTurn a g = Some (r, g') ->
  GameManager.player g = Some p ->
  GameManager.canExecuteTurn g = true ->
  exists p' fromSpecial fromEnemy,
    GameManager.player g' = Some p'
    /\ sameKit p p' /\ Player.diceSet p' = Player.diceSet p
    /\ Player.critChance p'
       = Player.critChance p
         + (if String.eqb (Player.className p) "Storm Caller"
            then 10 * Dice.countSymbol "lightning"
                        (GameManager.special (GameManager.assignedDice g))
            else 0)
    /\ Player.gold p'
       = Player.gold p + (Stats.goldEarned (GameManager.stats g')
                          - Stats.goldEarned (GameManager.stats g))
    /\ Forall (fun eff => (Effect.name eff, Effect.duration eff)
                          ∈ [("Stoneform", Some 1); ("Regeneration", Some 3);
                             ("Haste", Some 2); ("Spirit Guardian", Some 2)]) fromSpecial
    /\ Forall (fun eff => (Effect.name eff, Effect.duration eff)
                          ∈ [("Poison", Some 3); ("Burn", Some 3)]) fromEnemy
    /\ match r with
       | GameManager.Rejected _ => False
       | GameManager.EnemyDefeated _ _ =>
           Player.rerollsUsed p' = 0
           /\ Player.effects p' = Player.effects p ++ fromSpecial
       | GameManager.Resolved _ _ _ =>
           Player.rerollsUsed p' = 0
           /\ Player.effects p' = Effect.tickAll (Player.effects p ++ fromSpecial ++ fromEnemy)
       | GameManager.PlayerDefeated _ _ =>
           Player.rerollsUsed p' = Player.rerollsUsed p
           /\ Player.effects p' = Effect.tickAll (Player.effects p ++ fromSpecial ++ fromEnemy)
       end.
Proof.
  unfold GameManager.executeTurn. intros Hturn Hp Hcan. rewrite Hcan, Hp in Hturn.
  cbn [negb mbind option_bind] in Hturn.
  destruct (GameManager.enemy g) as [e|]; cbn [mbind option_bind] in Hturn; [|discriminate].
  destruct (GameManager.resolveAbilities _ _ _ _ _) as [[[[c activated] p1] e1]|] eqn:Hab;
    cbn [mbind option_bind] in Hturn; [|discriminate].
  apply resolveAbilities_frame in Hab
    as (Hkit1 & Hgold1 & Hre1 & Hdice1 & Hcrit1 & fromSpecial & Heff1 & Hspecial).
  destruct (GameManager.strikeEnemy _ _ _) as [[log1 dealt] e2].
  destruct (negb (Enemy.isAlive e2)).
  - apply handleEnemyDefeat_frame in Hturn
      as ((log' & s & ->) & _ & _ & _ & _ & _ & _ & _ & Hp' & _).
    cbn [GameManager.stats GameManager.setStats Stats.goldEarned Stats.setTotalDamageDealt]
      in Hp'.
    eexists _, fromSpecial, []. split; [exact Hp'|].
    unfold sameKit in *. cbn. repeat split; try tauto; try congruence; try constructor; lia.
  - pose proof (enemyTurn_frame a (GameManager.defenseValue (GameManager.rollCritical a p1 c))
                  p1 (Enemy.updateEffects e2) log1) as He. cbv zeta in He.
    set (skip := _ && _ && activated) in Hturn.
    destruct (negb skip).
    + destruct (GameManager.enemyTurn _ _ _ _ _) as [[[log2 taken] p2] e3].
      cbn [fst snd] in He.
      destruct He as (Hkit2 & Hgold2 & Hre2 & Hdice2 & Hcrit2 & _ & Heff2).
      pose proof (playerUpkeep_frame p2 log2) as Hu. cbv zeta in Hu.
      destruct (GameManager.playerUpkeep p2 log2) as [log3 p3]. cbn [snd] in Hu.
      destruct Hu as (Hkit3 & Hgold3 & Hre3 & Hdice3 & Hcrit3 & Heff3).
      set (poison := if _ && JS.truthy (Action.poison _) then _ else _) in Heff2.
      set (burn := if _ && JS.truthy (Action.burn _) then _ else _) in Heff2.
      assert (Henemy : Forall (fun eff => (Effect.name eff, Effect.duration eff)
                                          ∈ [("Poison", Some 3); ("Burn", Some 3)])
                         (poison ++ burn)).
      { assert (Hif : forall (b : bool) (n : string) zs,
                  n = "Poison" \/ n = "Burn" ->
                  Forall (fun eff => (Effect.name eff, Effect.duration eff)
                                     ∈ [("Poison", Some 3); ("Burn", Some 3)])
                    (if b then [Effect.lit n (Some 3) zs [] []] else [])).
        { intros [] n zs Hn; constructor; [|constructor]. cbn. set_unfold.
          destruct Hn as [-> | ->]; tauto. }
        apply Forall_app. subst poison burn. split; apply Hif; tauto. }
      assert (Hall : Player.effects p3
                     = Effect.tickAll (Player.effects p ++ fromSpecial ++ poison ++ burn)).
      { rewrite Heff3, Heff2, Heff1. by rewrite <- !app_assoc. }
      assert (Hkit : sameKit p p3).
      { eapply sameKit_trans; [eapply sameKit_trans|]; eassumption. }
      destruct (negb (Player.isAlive p3)); injection Hturn as <- <-;
        eexists _, fromSpecial, (poison ++ burn); (split; [reflexivity|]);
        (split; [first [exact Hkit | apply Hkit]|]);
        cbn; repeat split; try tauto; try congruence; try lia.
    + pose proof (playerUpkeep_frame p1 log1) as Hu. cbv zeta in Hu.
      destruct (GameManager.playerUpkeep p1 log1) as [log3 p3]. cbn [snd] in Hu.
      destruct Hu as (Hkit3 & Hgold3 & Hre3 & Hdice3 & Hcrit3 & Heff3).
      assert (Hall : Player.effects p3 = Effect.tickAll (Player.effects p ++ fromSpecial ++ [])).
      { by rewrite Heff3, Heff1, app_nil_r. }
      assert (Hkit : sameKit p p3) by (eapply sameKit_trans; eassumption).
      destruct (negb (Player.isAlive p3)); injection Hturn as <- <-;
        eexists _, fromSpecial, []; (split; [reflexivity|]);
        (split; [first [exact Hkit | apply Hkit]|]);
        cbn; repeat split; try tauto; try congruence; try lia; try constructor.
Qed.

(** One tick on the effects that a turn issues. *)
Lemma tickAll_issued (l : list Effect.t) :
  Forall (fun eff => (Effect.name eff, Effect.duration eff)
                     ∈ [("Stoneform", Some 1); ("Regeneration", Some 3); ("Haste", Some 2);
                        ("Spirit Guardian", Some 2); ("Poison", Some 3); ("Burn", Some 3)]) l ->
  Forall (fun eff => (Effect.name eff, Effect.duration eff)
                     ∈ [("Regeneration", Some 2); ("Haste", Some 1);
                        ("Spirit Guardian", Some 1); ("Poison", Some 2); ("Burn", Some 2)])
    (Effect.tickAll l).
Proof.
  induction 1 as [|eff l Heff _ IH]; [constructor|].
  destruct eff as [n d zs fs bs]. cbn in Heff. set_unfold in Heff.
  unfold Effect.tickAll. cbn [omap list_omap]. fold (Effect.tickAll l).
  destruct Heff as [Heff|[Heff|[Heff|[Heff|[Heff|[Heff|[]]]]]]];
    injection Heff as -> ->; cbn; try exact IH;
    (constructor; [cbn; set_unfold; tauto | exact IH]).
Qed.

End Combat.

(** X18. What an attack of the enemy can cost.  For a player with
    non-negative hit points and divine shield, whose Shield of Faith (if
    any) blocks a non-negative amount, the damage taken is between 0 and the
    value of the attack less the defence of the turn; the hit points drop by
    exactly the damage taken, never below 0; the divine shield only
    shrinks, never below 0, and what it absorbed and the damage taken
    together stay within that bound.  The attack changes neither the
    effects nor the gold of the player. *)
Theorem enemy_attack_is_bounded (a : GameManager.Ambient) (enemyAction : Action.t)
    (enemyName : string) (defenseValue : Z) (p : Player.t) (log : list Log.t) :
  0 <= Player.currentHP p ->
  0 <= Player.counter p "divineShield" ->
  (forall eff, Player.findEffect p "Shield of Faith" = Some eff ->
     0 <= default 0 (Effect.int eff "blockDamage")) ->
  let r := GameManager.sufferAttack a enemyAction enemyName defenseValue p log in
  let taken := snd (fst r) in
  let p' := snd r in
  0 <= taken <= Z.max 0 (Action.value enemyAction - defenseValue)
  /\ Player.currentHP p' = Z.max 0 (Player.currentHP p - taken)
  /\ 0 <= Player.counter p' "divineShield" <= Player.counter p "divineShield"
  /\ taken + (Player.counter p "divineShield" - Player.counter p' "divineShield")
     <= Z.max 0 (Action.value enemyAction - defenseValue)
  /\ Player.effects p' = Player.effects p
  /\ Player.gold p' = Player.gold p.
Proof.
  intros Hhp Hshield Hblock r taken p'.
  destruct (sufferAttack_frame a enemyAction enemyName defenseValue p log)
    as (_ & Hgold & _ & _ & _ & Heff & Htaken & Hhp' & Hle & Hnn & Hbound).
  fold r in Hgold, Heff, Htaken, Hhp', Hle, Hnn, Hbound.
  specialize (Hhp' Hhp). specialize (Hnn Hshield). specialize (Hbound Hblock).
  subst taken p'. repeat split; try done; lia.
Qed.

Lemma enemy_attack_is_bounded_witness :
  let p := ItemFactory.addItem Scenario.buyer (Item.new Item.ShieldOfFaith) in
  let r := GameManager.sufferAttack Scenario.quiet (Action.strike 30) "Rat" 5 p [] in
  snd (fst r) = 20 /\ snd (fst r) <= 25 /\ Player.currentHP (snd r) = 54.
Proof.
  intros p r. split; [vm_compute; reflexivity|].
  destruct (enemy_attack_is_bounded Scenario.quiet (Action.strike 30) "Rat" 5 p [])
    as ([_ Hle] & Hhp & _).
  - vm_compute. discriminate.
  - vm_compute. discriminate.
  - intros eff Heff. vm_compute in Heff. injection Heff as <-. vm_compute. discriminate.
  - split; [exact Hle|]. etrans; [exact Hhp|]. vm_compute. reflexivity.
Defined.


(** X19. The effects of an attack do not depend on its damage.  When the
    action of the enemy is an attack that carries poison or burn, the
    enemy's turn appends a Poison, then a Burn, of 3 rounds and of the
    damage the action names to the effects of the player, whether the
    attack was blocked, dodged or absorbed; an action of another type adds
    nothing.  Nothing else of the player's effects, gold, items or bonuses
    changes, and the damage taken is never negative. *)
Theorem poison_and_burn_ignore_the_defence (a : GameManager.Ambient) (defenseValue : Z)
    (p : Player.t) (e : Enemy.t) (log : list Log.t) :
  let r := GameManager.enemyTurn a defenseValue p e log in
  let p' := snd (fst r) in
  let action := fst (EnemyFactory.executeAction e (GameManager.behaviorDraw a)) in
  Player.effects p'
  = Player.effects p
    ++ (if Action.isAttack action && JS.truthy (Action.poison action)
        then [Effect.lit "Poison" (Some 3) [("damage", default 0 (Action.poison action))]
                [] []]
        else [])
    ++ (if Action.isAttack action && JS.truthy (Action.burn action)
        then [Effect.lit "Burn" (Some 3) [("damage", default 0 (Action.burn action))]
                [] []]
        else [])
  /\ sameKit p p' /\ Player.gold p' = Player.gold p
  /\ 0 <= snd (fst (fst r)).
Proof.
  cbv zeta.
  destruct (enemyTurn_frame a defenseValue p e log) as (Hkit & Hgold & _ & _ & _ & Hnn & Heff).
  split; [exact Heff|]. split; [exact Hkit|]. split; [exact Hgold | exact Hnn].
Qed.

Lemma poison_and_burn_ignore_the_defence_witness :
  let a := GameManager.mkAmbient (JS.of_Z 0) (JS.of_Z 0) (JS.dec 5 10) (JS.of_Z 0)
             (JS.dec 1 10) (JS.of_Z 0) (Scenario.draws []) "" in
  let p := ItemFactory.addItem Scenario.buyer (Item.new Item.Evasion) in
  let r := GameManager.enemyTurn a 0 p (EnemyFactory.createMushroom 1) [] in
  snd (fst (fst r)) = 0
  /\ Effect.name <$> Player.effects p = ["Evasion"]
  /\ Effect.name <$> Player.effects (snd (fst r)) = ["Evasion"; "Poison"].
Proof.
  intros a p r. split; [vm_compute; reflexivity|]. split; [vm_compute; reflexivity|].
  destruct (poison_and_burn_ignore_the_defence a 0 p (EnemyFactory.createMushroom 1) [])
    as (Heff & _).
  fold r in Heff. rewrite Heff. vm_compute. reflexivity.
Defined.

(** X20. A turn ages the effects it adds.  A turn that does not defeat
    the enemy ends with one tick of the player's effects, those added in
    the turn included: what the turn leaves is the player's former effects
    after one tick, followed by effects of the turn that are already one
    round old (Regeneration 2, Haste 1, Spirit Guardian 1, Poison 2,
    Burn 2).  The Stoneform of the Geomancer, issued for 1 round, is never
    among them.  A turn that defeats the enemy skips the tick: it leaves
    the former effects untouched, followed by what the special issued. *)
Theorem turn_ages_the_effects_it_adds (a : GameManager.Ambient) (g : GameManager.t)
    (r : GameManager.TurnResult) (g' : GameManager.t) (p : Player.t) :
  GameManager.executeTurn a g = Some (r, g') ->
  GameManager.player g = Some p ->
  GameManager.canExecuteTurn g = true ->
  exists p' added,
    GameManager.player g' = Some p'
    /\ match r with
       | GameManager.Rejected _ => False
       | GameManager.EnemyDefeated _ _ =>
           Player.effects p' = Player.effects p ++ added
           /\ Forall (fun eff => (Effect.name eff, Effect.duration eff)
                                 ∈ [("Stoneform", Some 1); ("Regeneration", Some 3);
                                    ("Haste", Some 2); ("Spirit Guardian", Some 2)]) added
       | _ =>
           Player.effects p' = Effect.tickAll (Player.effects p) ++ added
           /\ Forall (fun eff => (Effect.name eff, Effect.duration eff)
                                 ∈ [("Regeneration", Some 2); ("Haste", Some 1);
                                    ("Spirit Guardian", Some 1); ("Poison", Some 2);
                                    ("Burn", Some 2)]) added
       end.
Proof.
  intros Hturn Hp Hcan.
  destruct (executeTurn_player a g r g' p Hturn Hp Hcan)
    as (p' & fromSpecial & fromEnemy & Hp' & _ & _ & _ & _ & Hspecial & Henemy & Hr).
  assert (Hissued : Forall (fun eff => (Effect.name eff, Effect.duration eff)
                     ∈ [("Stoneform", Some 1); ("Regeneration", Some 3); ("Haste", Some 2);
                        ("Spirit Guardian", Some 2); ("Poison", Some 3); ("Burn", Some 3)])
                      (fromSpecial ++ fromEnemy)).
  { apply Forall_app. split; eapply Forall_impl; try eassumption;
      intros eff Heff; cbn in Heff |- *; set_unfold; tauto. }
  apply tickAll_issued in Hissued.
  destruct r as [m|log hp hp'|log s|log s].
  - done.
  - exists p', (Effect.tickAll (fromSpecial ++ fromEnemy)). split; [done|].
    destruct Hr as [_ ->]. by rewrite <- tickAll_app.
  - exists p', fromSpecial. split; [done|]. by destruct Hr as [_ ->].
  - exists p', (Effect.tickAll (fromSpecial ++ fromEnemy)). split; [done|].
    destruct Hr as [_ ->]. by rewrite <- tickAll_app.
Qed.

Lemma turn_ages_the_effects_it_adds_witness :
  exists g r g',
    Session.calls
      [Session.StartNewRun "Geomancer"
         (DiceSet.dice (DiceFactory.createGeomancerDice Scenario.ids)) (JS.dec 1 10);
       Session.RollDice (Scenario.draws []);
       Session.AssignDie "die_2" "special"] GameManager.new = Some g
    /\ GameManager.executeTurn Scenario.quiet g = Some (r, g')
    /\ (exists log hp hp', r = GameManager.Resolved log hp hp'
         /\ Log.mk Log.special [JS.Txt "Stoneform! +25 defense next round!"] ∈ log)
    /\ forall p', GameManager.player g' = Some p' ->
         forall eff, eff ∈ Player.effects p' -> Effect.name eff <> "Stoneform".
Proof.
  pose (g := default GameManager.new
               (Session.calls
                  [Session.StartNewRun "Geomancer"
                     (DiceSet.dice (DiceFactory.createGeomancerDice Scenario.ids))
                     (JS.dec 1 10);
                   Session.RollDice (Scenario.draws []);
                   Session.AssignDie "die_2" "special"] GameManager.new)).
  pose (res := default (GameManager.Rejected "", g)
                 (GameManager.executeTurn Scenario.quiet g)).
  pose (p := default (Player.new "" []) (GameManager.player g)).
  assert (Hturn : GameManager.executeTurn Scenario.quiet g = Some (fst res, snd res))
    by (vm_compute; reflexivity).
  assert (Hp : GameManager.player g = Some p) by (vm_compute; reflexivity).
  assert (Hcan : GameManager.canExecuteTurn g = true) by (vm_compute; reflexivity).
  assert (Hres : exists log hp hp', fst res = GameManager.Resolved log hp hp'
            /\ Log.mk Log.special [JS.Txt "Stoneform! +25 defense next round!"]
               ∈ log).
  { vm_compute. do 3 eexists. split; [reflexivity|]. apply list_elem_of_here. }
  exists g, (fst res), (snd res). split; [vm_compute; reflexivity|].
  split; [exact Hturn|]. split; [exact Hres|].
  destruct (turn_ages_the_effects_it_adds Scenario.quiet g (fst res) (snd res) p Hturn Hp Hcan)
    as (p' & added & Hp' & Hr).
  destruct Hres as (log & hp & hp' & Hlog & _). rewrite Hlog in Hr.
  destruct Hr as [Heff Hadded].
  intros q Hq eff Hin. rewrite Hp' in Hq. injection Hq as <-. rewrite Heff in Hin.
  assert (Hold : Effect.tickAll (Player.effects p) = []) by (vm_compute; reflexivity).
  rewrite Hold in Hin. cbn in Hin.
  rewrite Forall_forall in Hadded. specialize (Hadded eff Hin). intros Hname.
  rewrite Hname in Hadded. set_unfold in Hadded.
  destruct Hadded as [H|[H|[H|[H|[H|[]]]]]]; discriminate H.
Defined.

(** X21. What a turn never touches.  A turn that is not rejected leaves
    the player with the class, the dice, the maximum of hit points, the
    flat bonuses, the critical multiplier, the items and the reroll
    allowance it found.  The gold grows by exactly what the statistics
    count as earned in the turn (the reward of a defeated enemy).  The
    chance of a critical strike is unchanged, except for the Storm Caller,
    for whom it grows by 10 for every lightning symbol in the Special
    slot, for good.  The rerolls used are reset when the fight goes on or is
    won. *)
Theorem turn_keeps_the_kit (a : GameManager.Ambient) (g : GameManager.t)
    (r : GameManager.TurnResult) (g' : GameManager.t) (p : Player.t) :
  GameManager.executeTurn a g = Some (r, g') ->
  GameManager.player g = Some p ->
  GameManager.canExecuteTurn g = true ->
  exists p',
    GameManager.player g' = Some p'
    /\ sameKit p p' /\ Player.diceSet p' = Player.diceSet p
    /\ Player.gold p'
       = Player.gold p + (Stats.goldEarned (GameManager.stats g')
                          - Stats.goldEarned (GameManager.stats g))
    /\ Player.critChance p'
       = Player.critChance p
         + (if String.eqb (Player.className p) "Storm Caller"
            then 10 * Dice.countSymbol "lightning"
                        (GameManager.special (GameManager.assignedDice g))
            else 0)
    /\ Player.rerollsUsed p'
       = match r with
         | GameManager.PlayerDefeated _ _ => Player.rerollsUsed p
         | _ => 0
         end.
Proof.
  intros Hturn Hp Hcan.
  destruct (executeTurn_player a g r g' p Hturn Hp Hcan)
    as (p' & fromSpecial & fromEnemy & Hp' & Hkit & Hdice & Hcrit & Hgold & _ & _ & Hr).
  exists p'. do 5 (split; [done|]). destruct r; by destruct Hr.
Qed.

Lemma turn_keeps_the_kit_witness :
  exists g r g' p p',
    Session.calls
      [Session.StartNewRun "Storm Caller"
         (DiceSet.dice (DiceFactory.createStormCallerDice Scenario.ids)) (JS.dec 1 10);
       Session.RollDice (Scenario.draws []);
       Session.AssignDie "die_1" "special"] GameManager.new = Some g
    /\ GameManager.executeTurn Scenario.quiet g = Some (r, g')
    /\ GameManager.player g = Some p /\ GameManager.player g' = Some p'
    /\ Player.critChance p = 0
    /\ Player.critChance p' = 10.
Proof.
  pose (g := default GameManager.new
               (Session.calls
                  [Session.StartNewRun "Storm Caller"
                     (DiceSet.dice (DiceFactory.createStormCallerDice Scenario.ids))
                     (JS.dec 1 10);
                   Session.RollDice (Scenario.draws []);
                   Session.AssignDie "die_1" "special"] GameManager.new)).
  pose (res := default (GameManager.Rejected "", g)
                 (GameManager.executeTurn Scenario.quiet g)).
  pose (p := default (Player.new "" []) (GameManager.player g)).
  assert (Hturn : GameManager.executeTurn Scenario.quiet g = Some (fst res, snd res))
    by (vm_compute; reflexivity).
  assert (Hp : GameManager.player g = Some p) by (vm_compute; reflexivity).
  assert (Hcan : GameManager.canExecuteTurn g = true) by (vm_compute; reflexivity).
  destruct (turn_keeps_the_kit Scenario.quiet g (fst res) (snd res) p Hturn Hp Hcan)
    as (p' & Hp' & _ & _ & _ & Hcrit & _).
  exists g, (fst res), (snd res), p, p'. split; [vm_compute; reflexivity|].
  do 3 (split; [done|]). split; [vm_compute; reflexivity|].
  rewrite Hcrit. vm_compute. reflexivity.
Defined.

(** ** Rerolls, items and gold over a session *)

Section Provisions.







End Provisions.


